(** * Conversation orchestration of the agent backend

    A shallow embedding of the two pieces of the backend that carry protocol
    structure:

    - [Workflow]: the LangGraph agent flow of [runExample] (ai/agent.js): the
      [llm] node, the [tools] node, and the edges between them;
    - [Server]: the two chat handlers of the Express server,
      [performModelChat] and [performMCPModelChat], together with
      [ModelWithMCPFile] and [CreatMCPClient] (ai/Model.js).

    The language model, the tool executors, the MCP client and the HTTP
    response object are collaborators outside the repository: they appear as
    parameters (oracles) and as recorded events. *)

From Stdlib Require Import String Ascii List Arith Bool Lia.
From Stdlib Require Import DecimalString.
Import ListNotations.
Open Scope string_scope.
Open Scope list_scope.

(** ** Messages (the @langchain/core message classes the code constructs) *)

Record ToolCall : Type := mkToolCall
  { tc_id : string; tc_name : string; tc_args : string }.

(** What a tool message carries: a success payload or an error description. *)
Inductive ToolPayload : Type :=
| ToolSuccess (payload : string)
| ToolError (description : string).

Inductive Message : Type :=
| SystemMessage (content : string)
| HumanMessage (content : string)
| AIMessage (content : string) (tool_calls : list ToolCall)
| ToolMessage (tool_call_id : string) (name : string) (result : ToolPayload).

Definition isHumanMessage (m : Message) : bool :=
  match m with HumanMessage _ => true | _ => false end.

(** [arr[arr.length - 1]]: the last element, [None] for [undefined]. *)
Fixpoint last_message (l : list Message) : option Message :=
  match l with
  | [] => None
  | [m] => Some m
  | _ :: rest => last_message rest
  end.

Lemma last_message_snoc (l : list Message) (m : Message) :
  last_message (l ++ [m]) = Some m.
Proof.
  induction l as [|x l IH]; [reflexivity|].
  simpl. rewrite IH. destruct (l ++ [m]) eqn:E; [|reflexivity].
  destruct l; discriminate.
Qed.

(** * The agent flow of [runExample] *)

Module Workflow.

Definition nl : string := String (ascii_of_nat 10) EmptyString.

(** [agentConfig.systemMessage]. *)
Definition systemMessage : string :=
  ("You are an assistant that helps users with file operations." ++ nl ++
  "You have access to tools that can read and write files, create directories," ++ nl ++
  "and perform other filesystem operations. Be careful with file operations," ++ nl ++
  "especially writing and editing files. Always confirm the content and path before" ++ nl ++
  "making changes." ++ nl ++ nl ++
  "For file writing operations, format the content properly based on the file type." ++ nl ++
  "For reading multiple files, you can use the read_multiple_files tool.")%string.

(** The outcome of [model.invoke(messages)]: an assistant message, or a
    thrown provider error. *)
Inductive ModelOutcome : Type :=
| ModelOk (content : string) (tool_calls : list ToolCall)
| ModelError (err : string).

(** The outcome of one out-of-process tool invocation. *)
Inductive ToolOutcome : Type :=
| ToolOk (payload : string)
| ToolFail (err : string).

(** The states of the loop.  [AwaitingModel]: the [llm] node runs next;
    [AwaitingTools]: the [tools] node runs next; [Done]: the graph reached
    [END]; [Failed]: a node threw and [app.invoke] rejected. *)
Inductive Phase : Type :=
| AwaitingModel
| AwaitingTools
| Done
| Failed (err : string).

(** The targets the conditional edge out of [llm] can return. *)
Inductive Target : Type := tools | END.

(** The graph runtime (@langchain/langgraph, a library outside the
    repository) as far as the loop depends on it: it executes at most
    [recursionLimit] nodes for one call of [app.invoke] and throws
    [GraphRecursionError] when the graph has not stopped by then.  Whether a
    graph that reaches [END] in the very last node execution it permits
    still counts as out of steps is decided inside the runtime and differs
    between its versions: [last_step_counts] leaves it open. *)
Record Runtime : Type := mkRuntime
  { recursionLimit : nat; last_step_counts : bool }.

(** [workflow.compile] and [app.invoke] are given no [recursionLimit], so
    the default of the runtime applies: 25 node executions. *)
Definition defaultRecursionLimit : nat := 25.

Definition GraphRecursionError : string := "GraphRecursionError".

(** Calls to the two collaborators, in the order they are made. *)
Inductive Event : Type :=
| ModelInvoked (input : list Message)
| ToolInvoked (call : ToolCall).

Definition is_model_event (e : Event) : bool :=
  match e with ModelInvoked _ => true | ToolInvoked _ => false end.

Definition model_calls (tr : list Event) : nat :=
  length (filter is_model_event tr).

Record GraphState : Type := mkState
  { phase : Phase; messages : list Message; trace : list Event }.

Section Graph.

(** The Model Invoker: [model n input] is what the [n]-th call of
    [model.invoke] (counting from 0) answers on [input]. *)
Variable model : nat -> list Message -> ModelOutcome.

(** The Tool Executor Pool behind the MCP tools. *)
Variable invokeTool : ToolCall -> ToolOutcome.

(** [llmNode]: the system message is put in front only when the state holds
    exactly one message and that message is a human one; the node returns the
    response alone, so the system message never enters the state. *)
Definition llm_input (msgs : list Message) : list Message :=
  match msgs with
  | [m] => if isHumanMessage m then SystemMessage systemMessage :: msgs else msgs
  | _ => msgs
  end.

Definition llmNode (n : nat) (msgs : list Message) : ModelOutcome :=
  model n (llm_input msgs).

(** The conditional edge out of [llm]: [tools] when the last message has a
    non-empty [tool_calls], [END] otherwise.  [None] is the TypeError of
    reading [tool_calls] off [undefined] (an empty state). *)
Definition llm_edge (msgs : list Message) : option Target :=
  match last_message msgs with
  | None => None
  | Some (AIMessage _ (_ :: _)) => Some tools
  | Some _ => Some END
  end.

(** Modelled from the spec: the body of the prebuilt [ToolNode] is library
    code outside the repository.  Section 4.1, step 2: for every
    ToolCallRequest in the last assistant message the Tool Executor Pool is
    invoked; each invocation produces exactly one ToolResult, in the order of
    the requests; a failing invocation produces a ToolResult that carries the
    error instead of aborting. *)
Definition toolResult (c : ToolCall) : Message :=
  match invokeTool c with
  | ToolOk p => ToolMessage (tc_id c) (tc_name c) (ToolSuccess p)
  | ToolFail e => ToolMessage (tc_id c) (tc_name c) (ToolError e)
  end.

Definition pending_calls (msgs : list Message) : list ToolCall :=
  match last_message msgs with
  | Some (AIMessage _ cs) => cs
  | _ => []
  end.

Definition toolNode (msgs : list Message) : list Message :=
  map toolResult (pending_calls msgs).

(** One node execution of the compiled graph.  The [messages] channel of
    [MessagesAnnotation] appends what a node returns (the messages a node
    returns are new ones, so none replaces an earlier one); the edges are
    the ones [workflow] declares: [START -> llm], the conditional edge out
    of [llm], and [tools -> llm]. *)
Definition step (s : GraphState) : GraphState :=
  match phase s with
  | AwaitingModel =>
      let tr := trace s ++ [ModelInvoked (llm_input (messages s))] in
      match llmNode (model_calls (trace s)) (messages s) with
      | ModelOk content calls =>
          let msgs := messages s ++ [AIMessage content calls] in
          match llm_edge msgs with
          | Some tools => mkState AwaitingTools msgs tr
          | Some END => mkState Done msgs tr
          | None => mkState (Failed "TypeError") msgs tr
          end
      | ModelError e => mkState (Failed e) (messages s) tr
      end
  | AwaitingTools =>
      mkState AwaitingModel
              (messages s ++ toolNode (messages s))
              (trace s ++ map ToolInvoked (pending_calls (messages s)))
  | Done => s
  | Failed _ => s
  end.

Definition finished (p : Phase) : bool :=
  match p with Done | Failed _ => true | _ => false end.

(** The first [fuel] node executions from [s], fewer when the graph stops
    before. *)
Fixpoint run (fuel : nat) (s : GraphState) : GraphState :=
  match fuel with
  | 0 => s
  | S fuel' => if finished (phase s) then s else run fuel' (step s)
  end.

(** The state of [app.invoke(init)] after its first [fuel] node
    executions. *)
Definition invoke (fuel : nat) (init : list Message) : GraphState :=
  run fuel (mkState AwaitingModel init []).

Definition out_of_steps (s : GraphState) : GraphState :=
  mkState (Failed GraphRecursionError) (messages s) (trace s).

(** [app.invoke(init)] to its end, under the runtime [rt]: the graph as far
    as the runtime lets it run.  A node that throws rejects the call with
    its own error; a graph that has not stopped within the limit rejects it
    with [GraphRecursionError]. *)
Definition app_invoke (rt : Runtime) (init : list Message) : GraphState :=
  let s := invoke (recursionLimit rt) init in
  match phase s with
  | Done =>
      if last_step_counts rt
         && negb (finished (phase (invoke (pred (recursionLimit rt)) init)))
      then out_of_steps s
      else s
  | Failed _ => s
  | _ => out_of_steps s
  end.

End Graph.

(** How [runExample] starts the loop: it refuses to go on when the MCP
    client offers no tool, and runs each prompt on a transcript that holds
    the prompt as one human message. *)
Definition runExample (model : nat -> list Message -> ModelOutcome)
  (invokeTool : ToolCall -> ToolOutcome) (mcpTools : list string)
  (rt : Runtime) (query : string) : string + GraphState :=
  match mcpTools with
  | [] => inl "No tools found"
  | _ :: _ => inr (app_invoke model invokeTool rt [HumanMessage query])
  end.

(** The runtime as [runExample] gets it, in its two possible versions. *)
Definition default_runtime (last_step_counts : bool) : Runtime :=
  mkRuntime defaultRecursionLimit last_step_counts.

(** ** Whole turns *)

(** [r] is the ToolResult of request [c]: a tool message carrying [c]'s id. *)
Definition answers (c : ToolCall) (r : Message) : Prop :=
  exists p, r = ToolMessage (tc_id c) (tc_name c) p.

(** A stretch of transcript made of whole turns: every assistant message is
    followed by one ToolResult per ToolCallRequest it carries, in the order
    of the requests, and by nothing else before the next assistant message. *)
Inductive answered : list Message -> Prop :=
| answered_nil : answered []
| answered_turn (l : list Message) (content : string)
                (cs : list ToolCall) (rs : list Message) :
    answered l -> Forall2 answers cs rs ->
    answered (l ++ AIMessage content cs :: rs).

(** What a recorded model call was given, relative to the initial transcript. *)
Definition model_input_ok (init : list Message) (e : Event) : Prop :=
  match e with
  | ModelInvoked input => exists l, answered l /\ input = llm_input (init ++ l)
  | ToolInvoked _ => True
  end.

(** The invariant of a run started on [init]: every model call so far was
    given whole turns, and the transcript is whole turns plus, while the
    tools are awaited or at the end, the assistant message just appended. *)
Definition Inv (init : list Message) (s : GraphState) : Prop :=
  Forall (model_input_ok init) (trace s) /\
  match phase s with
  | AwaitingModel => exists l, answered l /\ messages s = init ++ l
  | AwaitingTools =>
      exists l content cs,
        answered l /\ messages s = (init ++ l) ++ [AIMessage content cs]
  | Done =>
      exists l content,
        answered l /\ messages s = (init ++ l) ++ [AIMessage content []]
  | Failed _ => True
  end.

(** ** Models and tools of the scenarios *)

Definition list_files : ToolCall := mkToolCall "1" "list_files" "{}".
Definition bad_tool : ToolCall := mkToolCall "2" "bad_tool" "{}".

(** A model that greets (Scenario A). *)
Definition greeter (n : nat) (input : list Message) : ModelOutcome :=
  ModelOk "hello" [].

(** A model that asks for [list_files] first and answers next (Scenario B). *)
Definition lister (n : nat) (input : list Message) : ModelOutcome :=
  match n with
  | 0 => ModelOk "" [list_files]
  | _ => ModelOk "a.txt and b.txt" []
  end.

(** A model that asks for [list_files] in every response. *)
Definition insistent (n : nat) (input : list Message) : ModelOutcome :=
  ModelOk "" [list_files].

(** Tools: [bad_tool] fails, every other tool lists two files. *)
Definition pool (c : ToolCall) : ToolOutcome :=
  if String.eqb (tc_name c) "bad_tool" then ToolFail "tool failed: no such tool"
  else ToolOk "a.txt, b.txt".

(** A state in which the tools are awaited for two requests, the second of
    which fails. *)
Definition awaiting_two : GraphState :=
  mkState AwaitingTools
          [HumanMessage "list files"; AIMessage "" [list_files; bad_tool]]
          [ModelInvoked [SystemMessage systemMessage; HumanMessage "list files"]].

End Workflow.

(** * The chat handlers of the Express server *)

Module Server.

(** ** Values of the request body *)

Inductive JsVal : Type :=
| JsUndefined
| JsNull
| JsBool (b : bool)
| JsNumber (n : nat)
| JsString (s : string).

(** [v === s] for a string literal [s]. *)
Definition strict_eq_string (v : JsVal) (s : string) : bool :=
  match v with
  | JsString t => String.eqb t s
  | _ => false
  end.

(** What the handlers read off one element of [req.body.messages]: its
    [role] and its [content]. *)
Record ChatMessage : Type := mkChatMessage
  { msg_role : JsVal; msg_content : string }.

(** [req.body.messages]: some value that is not an array (the field may be
    missing: [JsUndefined]), or an array.  An element of the array is JSON
    [null] ([None]), off which no property can be read, or a value with a
    [role] and a [content]. *)
Inductive MessagesField : Type :=
| NotArray (v : JsVal)
| Array (items : list (option ChatMessage)).

Record Request : Type := mkRequest { body_messages : MessagesField }.

Definition isArray (m : MessagesField) : bool :=
  match m with Array _ => true | NotArray _ => false end.

Definition items_of (m : MessagesField) : list (option ChatMessage) :=
  match m with Array items => items | NotArray _ => [] end.

(** ** Errors *)

(** A thrown value, with the three properties the handlers read. *)
Record JSError : Type := mkError
  { status_code : option nat; error : option string; message : string }.

Definition TypeError (msg : string) : JSError := mkError None None msg.

Definition null_property (prop : string) : JSError :=
  TypeError ("Cannot read properties of null (reading '" ++ prop ++ "')")%string.

(** [s || d] on a string that may be undefined. *)
Definition or_default (s : option string) (d : string) : string :=
  match s with
  | Some (String a r) => String a r
  | _ => d
  end.

(** ** Stream fragments *)

(** A chunk of [chat.stream]: the text delta is its [content]. *)
Record Chunk : Type := mkChunk
  { chunk_content : string; chunk_tool_calls : list ToolCall }.

(** A chunk of [chat.agent.stream]: the update of the [agent] node, of the
    [tools] node, or of both; each message with its content, a tool message
    with its name too. *)
Record AgentChunk : Type := mkAgentChunk
  { agent_messages : option (list string);
    tools_messages : option (list (string * string)) }.

(** ** Events: the calls made on the collaborators, in order *)

Inductive Body : Type :=
| ErrorBody (error : string)
| ReplyBody (reply : string).

Inductive Event : Type :=
| NewModel
| NewMCPClient
| GetTools
| CreateReactAgent
| ChatStream (input : list Message)
| ChatInvoke (input : list Message)
| AgentStream (input : list Message)
| AgentInvoke (input : list Message)
| Close
| SetHeader (key value : string)
| Status (code : nat)
| Json (body : Body)
| Write (text : string)
| End_
| Logged (text : string).

(** ** The collaborators of one request *)

Record World : Type := mkWorld
  { ModelProvider : string;
    (** [ModelConfig.stream] is truthy *)
    stream : bool;
    (** [Some e]: the constructor or the call throws [e] *)
    new_model : option JSError;
    new_mcp_client : option JSError;
    get_tools : option JSError;
    create_agent : option JSError;
    (** the fragments [chat.stream] yields, and the error that ends them *)
    chat_stream : list Message -> list Chunk * option JSError;
    (** the content of the result of [chat.invoke]; [None]: no result *)
    chat_invoke : list Message -> option string + JSError;
    agent_stream : list Message -> list AgentChunk * option JSError;
    (** the result of [chat.agent.invoke]; [None]: no result; [Some None]: a
        result without [messages] *)
    agent_invoke : list Message -> option (option (list string)) + JSError;
    (** [client.close()] *)
    close : option JSError;
    (** [concat] of @langchain/core/utils/stream *)
    concat : Chunk -> Chunk -> Chunk;
    concat_agent : AgentChunk -> AgentChunk -> AgentChunk }.

(** ** Computations: an event log threaded through, and a completion *)

(** How a block of statements ends: it falls through with a value, it
    executes [return], or it throws. *)
Inductive Completion (R A : Type) : Type :=
| Normal (a : A)
| Returned (r : R)
| Thrown (e : JSError).

Arguments Normal {R A} a.
Arguments Returned {R A} r.
Arguments Thrown {R A} e.

Definition Eff (R A : Type) : Type := list Event -> list Event * Completion R A.

Definition ret {R A} (a : A) : Eff R A := fun log => (log, Normal a).

Definition bind {R A B} (m : Eff R A) (k : A -> Eff R B) : Eff R B :=
  fun log =>
    match m log with
    | (log', Normal a) => k a log'
    | (log', Returned r) => (log', Returned r)
    | (log', Thrown e) => (log', Thrown e)
    end.

Notation "x <- m ;; k" := (bind m (fun x => k))
  (at level 61, m at next level, right associativity).
Notation "m ;; k" := (bind m (fun _ => k))
  (at level 61, right associativity).

Definition emit {R} (ev : Event) : Eff R unit := fun log => (log ++ [ev], Normal tt).
Definition throw {R A} (e : JSError) : Eff R A := fun log => (log, Thrown e).
Definition return_ {R A} (r : R) : Eff R A := fun log => (log, Returned r).

(** [try { m } catch (err) { h err }]. *)
Definition try_catch {R A} (m : Eff R A) (h : JSError -> Eff R A) : Eff R A :=
  fun log =>
    match m log with
    | (log', Thrown e) => h e log'
    | other => other
    end.

(** [try { m } finally { f }]: [f] runs however [m] ends; when [f] itself
    returns or throws, that replaces the way [m] ended. *)
Definition try_finally {R A} (m : Eff R A) (f : Eff R unit) : Eff R A :=
  fun log =>
    let (log1, c) := m log in
    match f log1 with
    | (log2, Normal _) => (log2, c)
    | (log2, Returned r) => (log2, Returned r)
    | (log2, Thrown e) => (log2, Thrown e)
    end.

(** A call of an async function whose body is [m]: the caller gets the
    returned value, [d] when the body falls off its end. *)
Definition call {R R' A} (m : Eff R A) (d : R) : Eff R' R :=
  fun log =>
    match m log with
    | (log', Normal _) => (log', Normal d)
    | (log', Returned r) => (log', Normal r)
    | (log', Thrown e) => (log', Thrown e)
    end.

(** A collaborator call: recorded, then it throws or not. *)
Definition external {R} (ev : Event) (fails : option JSError) : Eff R unit :=
  fun log =>
    (log ++ [ev], match fails with Some e => Thrown e | None => Normal tt end).

(** ** The response object *)

Definition sends_head (ev : Event) : bool :=
  match ev with Json _ | Write _ | End_ => true | _ => false end.

(** [res.headersSent]. *)
Definition headersSent (log : list Event) : bool := existsb sends_head log.

Definition ERR_HTTP_HEADERS_SENT : JSError :=
  mkError None None "Cannot set headers after they are sent to the client".

Definition ERR_INVALID_ARG_TYPE : JSError :=
  TypeError "The chunk argument must be of type string or an instance of Buffer or Uint8Array".

(** Setting a header, which [res.json] does too, throws once the head of
    the response is out. *)
Definition res_setHeader {R} (key value : string) : Eff R unit :=
  fun log =>
    if headersSent log then (log, Thrown ERR_HTTP_HEADERS_SENT)
    else (log ++ [SetHeader key value], Normal tt).

Definition res_status {R} (code : nat) : Eff R unit := emit (Status code).

Definition res_json {R} (body : Body) : Eff R unit :=
  fun log =>
    if headersSent log then (log, Thrown ERR_HTTP_HEADERS_SENT)
    else (log ++ [Json body], Normal tt).

Definition res_write {R} (text : string) : Eff R unit := emit (Write text).

(** [res.write] of a value that is neither a string nor a buffer throws. *)
Definition res_write_object {R} (body : Body) : Eff R unit :=
  throw ERR_INVALID_ARG_TYPE.

Definition res_end {R} : Eff R unit := emit End_.

Definition console {R} (text : string) : Eff R unit := emit (Logged text).

(** ** Model.js *)

(** [Model(modelConfig)]: one of the three chat model constructors. *)
Definition Model {R} (w : World) : Eff R unit := external NewModel (new_model w).

Inductive Client : Type := MCPClient.

(** [CreatMCPClient]: the client, or [null] when the constructor throws. *)
Definition CreatMCPClient (w : World) : Eff (option Client) unit :=
  try_catch
    (external NewMCPClient (new_mcp_client w) ;;
     return_ (Some MCPClient))
    (fun err => console "Failed to load MCP.json:") ;;
  return_ None.

(** The object [ModelWithMCPFile] returns; the agent itself is the pair
    [agent_stream], [agent_invoke] of the world. *)
Record Chat : Type := mkChat { client : option Client }.

(** [ModelWithMCPFile]: [{ agent, client }], or [null] when anything in the
    [try] block throws. *)
Definition ModelWithMCPFile (w : World) : Eff (option Chat) unit :=
  try_catch
    (client <- call (CreatMCPClient w) None ;;
     Model w ;;
     match client with
     | None => throw (null_property "getTools")
     | Some _ => external GetTools (get_tools w)
     end ;;
     external CreateReactAgent (create_agent w) ;;
     return_ (Some (mkChat client)))
    (fun err => console "Failed to load Model with MCP File:") ;;
  return_ None.

(** ** agent.js: the server part *)

(** The arrow function both handlers map over [messages]:
    [msg.role === 'user' ? new HumanMessage(msg.content)
                         : new AIMessage(msg.content)]. *)
Definition toLangchain (msg : ChatMessage) : Message :=
  if strict_eq_string (msg_role msg) "user"
  then HumanMessage (msg_content msg)
  else AIMessage (msg_content msg) [].

(** [messages.map(toLangchain)]: the arrow function reads [msg.role], which
    throws on an element that is [null]; nothing else in it throws. *)
Fixpoint convert_messages (items : list (option ChatMessage))
  : JSError + list Message :=
  match items with
  | [] => inr []
  | None :: _ => inl (null_property "role")
  | Some msg :: rest =>
      match convert_messages rest with
      | inl e => inl e
      | inr lcMessages => inr (toLangchain msg :: lcMessages)
      end
  end.

Definition convert {R} (items : list (option ChatMessage))
  : Eff R (list Message) :=
  match convert_messages items with
  | inl e => throw e
  | inr lcMessages => ret lcMessages
  end.

(** The [for await] loop of both handlers: each chunk is folded into
    [finalResult] (the first chunk as it is, each later one through
    [concat]), then the body writes it. *)
Fixpoint for_await {R C} (concat : C -> C -> C) (body : C -> Eff R unit)
  (chunks : list C) (finalResult : option C) : Eff R (option C) :=
  match chunks with
  | [] => ret finalResult
  | chunk :: rest =>
      let finalResult' :=
        match finalResult with
        | Some acc => concat acc chunk
        | None => chunk
        end in
      body chunk ;;
      for_await concat body rest (Some finalResult')
  end.

(** A stream consumed to its end: the loop over the chunks it yields, then
    the error it ends with, if any. *)
Definition consume {R C} (concat : C -> C -> C) (body : C -> Eff R unit)
  (s : list C * option JSError) : Eff R (option C) :=
  finalResult <- for_await concat body (fst s) None ;;
  match snd s with
  | Some e => throw e
  | None => ret finalResult
  end.

Definition is_404 (err : JSError) : bool :=
  match status_code err with
  | Some n => Nat.eqb n 404
  | None => false
  end.

Definition not_found {R} (w : World) (err : JSError) : Eff unit R :=
  res_status 404 ;;
  res_json (ErrorBody (or_default (error err)
                         (ModelProvider w ++ " resource not found")%string)) ;;
  return_ tt.

Definition no_messages (messages : MessagesField) : bool :=
  negb (isArray messages) || Nat.eqb (length (items_of messages)) 0.

(** The two branches of [performModelChat], streaming and not, with their
    [try] and [catch] blocks. *)
Definition direct_chat (w : World) (lcMessages : list Message) : Eff unit unit :=
  if stream w then
    res_setHeader "Content-Type" "text/plain; charset=utf-8" ;;
    try_catch
      (emit (ChatStream lcMessages) ;;
       consume (concat w) (fun chunk => res_write (chunk_content chunk))
               (chat_stream w lcMessages) ;;
       res_end)
      (fun err =>
         if is_404 err then not_found w err
         else
           console "Error during streaming:" ;;
           res_status 500 ;;
           res_json (ErrorBody (or_default (Some (message err))
                                  (ModelProvider w ++ " error")%string))) ;;
    return_ tt
  else
    try_catch
      (emit (ChatInvoke lcMessages) ;;
       match chat_invoke w lcMessages with
       | inr e => throw e
       | inl (Some (String a r)) => res_json (ReplyBody (String a r))
       | inl _ =>
           res_status 500 ;;
           res_json (ErrorBody "No content in OpenAI response") ;;
           return_ tt
       end)
      (fun err =>
         if is_404 err then not_found w err
         else
           console "Error during chat:" ;;
           res_status 500 ;;
           res_json (ErrorBody (or_default (Some (message err))
                                  (ModelProvider w ++ " error")%string))).

(** [performModelChat]: the direct model, no MCP.  The conversion of the
    messages comes after the model is built and before the [try] blocks. *)
Definition performModelChat (w : World) (req : Request) : Eff unit unit :=
  let messages := body_messages req in
  if no_messages messages then
    res_status 400 ;; res_json (ErrorBody "No messages provided") ;; return_ tt
  else
    Model w ;;
    lcMessages <- convert (items_of messages) ;;
    direct_chat w lcMessages.

(** The wrench sign the tool output is prefixed with, as UTF-8. *)
Definition wrench : string :=
  String (ascii_of_nat 240) (String (ascii_of_nat 159)
    (String (ascii_of_nat 148) (String (ascii_of_nat 167) EmptyString))).

Definition join (l : list string) : string := String.concat "" l.

Definition write_agent_chunk {R} (chunk : AgentChunk) : Eff R unit :=
  match agent_messages chunk with
  | Some ms => res_write (join ms)
  | None => ret tt
  end ;;
  match tools_messages chunk with
  | Some ms =>
      res_write (join (map (fun m => (wrench ++ fst m ++ ":" ++ snd m)%string) ms))
  | None => ret tt
  end.

(** The [finally] block of both branches:
    [if (chat.client) { console.log(...); await chat.client.close(); }]. *)
Definition close_client {R} (w : World) (chat : option Chat) : Eff R unit :=
  match chat with
  | None => throw (null_property "client")
  | Some c =>
      match client c with
      | Some _ =>
          console "Closing MCP client connection" ;;
          external Close (close w)
      | None => ret tt
      end
  end.

(** [chat.agent], which throws on [null]. *)
Definition agent_of {R} (chat : option Chat) : Eff R unit :=
  match chat with
  | None => throw (null_property "agent")
  | Some _ => ret tt
  end.

(** The [try]/[catch] of the streaming branch of [performMCPModelChat]. *)
Definition stream_try (w : World) (chat : option Chat)
  (lcMessages : list Message) : Eff unit unit :=
  try_catch
    (agent_of chat ;;
     emit (AgentStream lcMessages) ;;
     consume (concat_agent w) write_agent_chunk (agent_stream w lcMessages) ;;
     res_end)
    (fun err =>
       if is_404 err then not_found w err
       else
         console "Error during streaming:" ;;
         res_write ("Error: " ++ message err)%string ;;
         res_end).

(** The [try]/[catch] of the non-streaming branch. *)
Definition invoke_try (w : World) (chat : option Chat)
  (lcMessages : list Message) : Eff unit unit :=
  try_catch
    (agent_of chat ;;
     emit (AgentInvoke lcMessages) ;;
     match agent_invoke w lcMessages with
     | inr e => throw e
     | inl None =>
         res_status 500 ;;
         res_json (ErrorBody "No content in OpenAI response") ;;
         return_ tt
     | inl (Some result) =>
         let content :=
           match result with
           | Some ms => join ms
           | None => ""
           end in
         res_json (ReplyBody content)
     end)
    (fun err =>
       if is_404 err then not_found w err
       else
         res_write_object
           (ErrorBody (or_default (Some (message err))
                         (ModelProvider w ++ " error")%string)) ;;
         res_end).

(** The two branches of [performMCPModelChat], each a [try] with its
    [catch] and its [finally]; [lcMessages[-1]] is [undefined], so the log
    line always ends in [No content]. *)
Definition session (w : World) (chat : option Chat) (lcMessages : list Message)
  : Eff unit unit :=
  console "Starting MCP client prompt: No content" ;;
  if stream w then
    res_setHeader "Content-Type" "text/plain; charset=utf-8" ;;
    try_finally (stream_try w chat lcMessages) (close_client w chat) ;;
    return_ tt
  else
    try_finally (invoke_try w chat lcMessages) (close_client w chat).

(** [performMCPModelChat]: the MCP agent, with tools.  The conversion of
    the messages comes after [ModelWithMCPFile] and before the [try] blocks
    and their [finally]. *)
Definition performMCPModelChat (w : World) (req : Request) : Eff unit unit :=
  let messages := body_messages req in
  if no_messages messages then
    res_status 400 ;; res_json (ErrorBody "No messages provided") ;; return_ tt
  else
    chat <- call (ModelWithMCPFile w) None ;;
    lcMessages <- convert (items_of messages) ;;
    session w chat lcMessages.

(** How the promise of a handler settles. *)
Inductive Settled : Type :=
| Resolved
| Rejected (e : JSError).

Definition settle {A} (c : Completion unit A) : Settled :=
  match c with
  | Thrown e => Rejected e
  | _ => Resolved
  end.

(** A handler run on a fresh response. *)
Definition handle (h : Eff unit unit) : list Event * Settled :=
  (fst (h []), settle (snd (h []))).

(** Whether [ModelWithMCPFile] hands the handler a chat object (and not
    [null]): the Session holds a pool connection. *)
Definition acquired (w : World) : bool :=
  match snd (call (R' := unit) (ModelWithMCPFile w) None []) with
  | Normal (Some _) => true
  | _ => false
  end.

(** The same collaborators, with another behaviour of [client.close()]. *)
Definition with_close (c : option JSError) (w : World) : World :=
  mkWorld (ModelProvider w) (stream w) (new_model w) (new_mcp_client w)
          (get_tools w) (create_agent w) (chat_stream w) (chat_invoke w)
          (agent_stream w) (agent_invoke w) c (concat w) (concat_agent w).

Definition is_close (ev : Event) : bool :=
  match ev with Close => true | _ => false end.

(** How many times [client.close()] was called. *)
Definition closes (log : list Event) : nat := length (filter is_close log).

(** The inputs the model or the agent was given. *)
Definition model_inputs (log : list Event) : list (list Message) :=
  flat_map (fun ev =>
              match ev with
              | ChatStream i | ChatInvoke i | AgentStream i | AgentInvoke i => [i]
              | _ => []
              end) log.

(** What went to the response object. *)
Definition is_response (ev : Event) : bool :=
  match ev with
  | SetHeader _ _ | Status _ | Json _ | Write _ | End_ => true
  | _ => false
  end.

Definition response (log : list Event) : list Event := filter is_response log.

(** ** Properties of logs and computations *)

(** [m] only appends to the log, and every event it appends satisfies [P]. *)
Definition emits {R A} (P : Event -> Prop) (m : Eff R A) : Prop :=
  forall log, exists suf, fst (m log) = log ++ suf /\ Forall P suf.

(** One round of the fold the loop performs on [finalResult]. *)
Definition merge (concat : Chunk -> Chunk -> Chunk)
  (acc : option Chunk) (chunk : Chunk) : option Chunk :=
  Some match acc with
       | Some a => concat a chunk
       | None => chunk
       end.

Definition writes (chunks : list Chunk) : list Event :=
  map (fun chunk => Write (chunk_content chunk)) chunks.

(** The events a handler may emit when [lc] is the converted list: a model
    or agent call is given [lc] and nothing else. *)
Definition given (lc : list Message) (ev : Event) : Prop :=
  match ev with
  | ChatStream i | ChatInvoke i | AgentStream i | AgentInvoke i => i = lc
  | _ => True
  end.

(** The events of [ModelWithMCPFile]. *)
Definition setup_event (ev : Event) : Prop :=
  match ev with
  | NewMCPClient | NewModel | GetTools | CreateReactAgent | Logged _ => True
  | _ => False
  end.

Definition not_close (ev : Event) : Prop := ev <> Close.

Definition the_chat : option Chat := Some (mkChat (Some MCPClient)).

(** No model and no agent is called. *)
Definition no_model_call (ev : Event) : Prop :=
  match ev with
  | ChatStream _ | ChatInvoke _ | AgentStream _ | AgentInvoke _ => False
  | _ => True
  end.

(** ** Collaborators and requests of the scenarios *)

(** A [concat] that appends texts and tool calls. *)
Definition text_concat (a b : Chunk) : Chunk :=
  mkChunk (chunk_content a ++ chunk_content b)%string
          (chunk_tool_calls a ++ chunk_tool_calls b).

Definition option_app {A} (a b : option (list A)) : option (list A) :=
  match a, b with
  | Some x, Some y => Some (x ++ y)
  | Some x, None => Some x
  | None, y => y
  end.

Definition agent_concat (a b : AgentChunk) : AgentChunk :=
  mkAgentChunk (option_app (agent_messages a) (agent_messages b))
               (option_app (tools_messages a) (tools_messages b)).

(** Streaming is on and everything works; the model streams [He], [llo]. *)
Definition calm : World :=
  mkWorld "openai" true None None None None
          (fun _ => ([mkChunk "He" []; mkChunk "llo" []], None))
          (fun _ => inl (Some "Hello"))
          (fun _ => ([mkAgentChunk (Some ["Hello"]) None], None))
          (fun _ => inl (Some (Some ["hi"; "Hello"])))
          None text_concat agent_concat.

Definition resource_missing : JSError :=
  mkError (Some 404) (Some "model not found") "404".

Definition close_failed : JSError := mkError None None "close failed".

(** Streaming is off and the agent call throws a 404. *)
Definition model_missing : World :=
  mkWorld "openai" false None None None None
          (fun _ => ([], Some resource_missing))
          (fun _ => inr resource_missing)
          (fun _ => ([], Some resource_missing))
          (fun _ => inr resource_missing)
          None text_concat agent_concat.

(** Streaming is off and the tools cannot be loaded. *)
Definition tools_unavailable : World :=
  mkWorld "openai" false None None
          (Some (mkError None None "connect ECONNREFUSED")) None
          (fun _ => ([], None))
          (fun _ => inl (Some "Hello"))
          (fun _ => ([], None))
          (fun _ => inl (Some (Some ["hi"; "Hello"])))
          None text_concat agent_concat.

Definition hi_request : Request :=
  mkRequest (Array [Some (mkChatMessage (JsString "user") "hi")]).

(** The body [{"messages": [null]}]. *)
Definition null_request : Request := mkRequest (Array [None]).

Definition empty_request : Request := mkRequest (Array []).

End Server.

(** * The other endpoints of the server *)

Module Endpoints.
Import Server.

(** [process.env.USEMCP === "TRUE"]; the variable may be unset. *)
Definition USEMCP_is_TRUE (USEMCP : option string) : bool :=
  match USEMCP with
  | Some v => String.eqb v "TRUE"
  | None => false
  end.

(** The handler of [POST /api/chat]. *)
Definition api_chat (USEMCP : option string) (w : World) (req : Request)
  : Eff unit unit :=
  if USEMCP_is_TRUE USEMCP then performMCPModelChat w req
  else performModelChat w req.

(** What only the MCP handler does. *)
Definition direct_only (ev : Event) : Prop :=
  match ev with
  | NewMCPClient | GetTools | CreateReactAgent
  | AgentStream _ | AgentInvoke _ | Close => False
  | _ => True
  end.

Definition not_a_write (ev : Event) : Prop :=
  match ev with
  | Write _ => False
  | _ => True
  end.

(** What [write_agent_chunk] writes for one chunk of the agent stream. *)
Definition chunk_writes (chunk : AgentChunk) : list Event :=
  match agent_messages chunk with
  | Some ms => [Write (join ms)]
  | None => []
  end ++
  match tools_messages chunk with
  | Some ms =>
      [Write (join (map (fun m => (wrench ++ fst m ++ ":" ++ snd m)%string) ms))]
  | None => []
  end.

(** The events of a successful [ModelWithMCPFile], then the log line of the
    handler. *)
Definition session_start : list Event :=
  [NewMCPClient; NewModel; GetTools; CreateReactAgent;
   Logged "Starting MCP client prompt: No content"].

Definition session_end : list Event :=
  [Logged "Closing MCP client connection"; Close].

(** Streaming is off and everything works. *)
Definition tools_unavailable_fixed : World :=
  mkWorld "openai" false None None None None
          (fun _ => ([], None))
          (fun _ => inl (Some "Hello"))
          (fun _ => ([], None))
          (fun _ => inl (Some (Some ["hi"; "Hello"])))
          None text_concat agent_concat.

Definition connection_reset : JSError := mkError None None "socket hang up".

(** Streaming is on; the agent stream yields one chunk and then breaks. *)
Definition stream_breaks : World :=
  mkWorld "ollama" true None None None None
          (fun _ => ([mkChunk "He" []], Some connection_reset))
          (fun _ => inr connection_reset)
          (fun _ => ([mkAgentChunk (Some ["He"]) None], Some connection_reset))
          (fun _ => inr connection_reset)
          None text_concat agent_concat.

(** Streaming is off; the client is constructed, the agent cannot be built. *)
Definition agent_unbuildable : World :=
  mkWorld "openai" false None None None
          (Some (mkError None None "tools must be an array"))
          (fun _ => ([], None))
          (fun _ => inl (Some "Hello"))
          (fun _ => ([], None))
          (fun _ => inl (Some (Some ["hi"; "Hello"])))
          None text_concat agent_concat.

End Endpoints.

(** * [runExample] as a whole, and the model factory *)

Module Example.
Import Workflow.

(** ** Model.js: the provider and the model factory *)

(** [process.env.MODEL_PROVIDER || 'openai']. *)
Definition provider_of (MODEL_PROVIDER : option string) : string :=
  match MODEL_PROVIDER with
  | Some (String a r) => String a r
  | _ => "openai"
  end.

Inductive ChatModel : Type := ChatOpenAI | AzureChatOpenAI | ChatOllama.

(** [Model] of Model.js: a conditional expression on the provider. *)
Definition Model (provider : string) : ChatModel :=
  if String.eqb provider "openai" then ChatOpenAI
  else (if String.eqb provider "azureopenai" then AzureChatOpenAI
        else ChatOllama).

(** [getModel] of [runExample], the copy of that logic in agent.js. *)
Definition getModel (provider : string) : ChatModel :=
  if String.eqb provider "openai" then ChatOpenAI
  else if String.eqb provider "azureopenai" then AzureChatOpenAI
  else ChatOllama.

(** ** The calls after the first one of a run *)

(** A model call that is given the prompt followed by at least one more
    message, and no system message in front. *)
Definition later_call (query : string) (ev : Event) : Prop :=
  match ev with
  | ModelInvoked input => exists l, l <> [] /\ input = HumanMessage query :: l
  | ToolInvoked _ => True
  end.

(** ** The function [runExample] *)

(** What [runExample] does besides running the graph. *)
Inductive ExampleEvent : Type :=
| NewClient
| GetTools
| BindTools
| PromptRun (query : string) (final : GraphState)
| ClientClosed
| ExitScheduled.

(** How a call of [runExample] ends: the process exits with a code (at once
    through [process.exit(1)], or through the timer that calls
    [process.exit(0)]), or the promise rejects. *)
Inductive ExampleEnd : Type :=
| Exited (code : nat)
| RejectedWith (err : string).

Record ExampleWorld : Type := mkExampleWorld
  { (** a client was passed as argument *)
    client_given : bool;
    (** [Some e]: the constructor or the call throws [e] *)
    new_client : option string;
    (** the names of the tools [client.getTools()] resolves to *)
    get_tools : list string + string;
    (** [getModel().bindTools(mcpTools)] *)
    bind_tools : option string;
    client_close : option string;
    (** the model, for each prompt *)
    model_for : string -> nat -> list Message -> ModelOutcome;
    invokeTool : ToolCall -> ToolOutcome }.

(** The loop over the prompts: each one is run on a transcript of its own;
    a run that fails (a node throws, or the runtime is out of steps) throws
    and ends the loop.  [None]: the loop went through. *)
Fixpoint run_prompts (w : ExampleWorld) (rt : Runtime) (prompts : list string)
  : list ExampleEvent * option ExampleEnd :=
  match prompts with
  | [] => ([], None)
  | query :: rest =>
      let final := app_invoke (model_for w query) (invokeTool w) rt
                              [HumanMessage query] in
      match phase final with
      | Done =>
          let (evs, e) := run_prompts w rt rest in
          (PromptRun query final :: evs, e)
      | _ => ([], Some (Exited 1))
      end
  end.

(** [runExample]: the [catch] block calls [process.exit(1)], which ends the
    process there and then, so the [finally] block only runs when the [try]
    block went through. *)
Definition runExample_main (w : ExampleWorld) (rt : Runtime)
  (prompts : list string) : list ExampleEvent * ExampleEnd :=
  let created := if client_given w then [] else [NewClient] in
  match (if client_given w then None else new_client w) with
  | Some _ => (created, Exited 1)
  | None =>
      match get_tools w with
      | inr _ => (created ++ [GetTools], Exited 1)
      | inl [] => (created ++ [GetTools], Exited 1)
      | inl (_ :: _) =>
          match bind_tools w with
          | Some _ => (created ++ [GetTools; BindTools], Exited 1)
          | None =>
              match run_prompts w rt prompts with
              | (evs, Some e) => (created ++ [GetTools; BindTools] ++ evs, e)
              | (evs, None) =>
                  match client_close w with
                  | Some e =>
                      (created ++ [GetTools; BindTools] ++ evs ++ [ClientClosed],
                       RejectedWith e)
                  | None =>
                      (created ++ [GetTools; BindTools] ++ evs
                         ++ [ClientClosed; ExitScheduled],
                       Exited 0)
                  end
              end
          end
      end
  end.

Definition is_closed (ev : ExampleEvent) : bool :=
  match ev with ClientClosed => true | _ => false end.

Definition prompts_run (evs : list ExampleEvent) : list string :=
  flat_map (fun ev => match ev with PromptRun q _ => [q] | _ => [] end) evs.

(** One of the steps of the [try] block of [runExample] throws: the client
    cannot be created, the tools cannot be loaded, no tool is found, the
    model cannot be built, or the run of one of the prompts fails. *)
Definition try_fails (w : ExampleWorld) (rt : Runtime) (prompts : list string)
  : Prop :=
  (client_given w = false /\ exists e, new_client w = Some e) \/
  (exists e, get_tools w = inr e) \/
  get_tools w = inl [] \/
  (exists e, bind_tools w = Some e) \/
  (exists query,
      In query prompts /\
      phase (app_invoke (model_for w query) (invokeTool w) rt [HumanMessage query])
      <> Done).

Definition ran_to_Done (ev : ExampleEvent) : Prop :=
  match ev with
  | PromptRun _ final => phase final = Done
  | _ => True
  end.

(** What [runExample] does when everything goes through. *)
Definition went_through (w : ExampleWorld) (rt : Runtime)
  (prompts : list string) : Prop :=
  prompts_run (fst (runExample_main w rt prompts)) = prompts /\
  Forall ran_to_Done (fst (runExample_main w rt prompts)) /\
  exists before,
    filter is_closed before = [] /\
    match client_close w with
    | None =>
        fst (runExample_main w rt prompts)
        = before ++ [ClientClosed; ExitScheduled] /\
        snd (runExample_main w rt prompts) = Exited 0
    | Some e =>
        fst (runExample_main w rt prompts) = before ++ [ClientClosed] /\
        snd (runExample_main w rt prompts) = RejectedWith e
    end.

(** A world in which everything works, with the model of scenario B. *)
Definition smooth : ExampleWorld :=
  mkExampleWorld false None (inl ["list_files"]) None None
                 (fun _ => lister) pool.

(** The same world with the model that asks for a tool in every response. *)
Definition looping : ExampleWorld :=
  mkExampleWorld false None (inl ["list_files"]) None None
                 (fun _ => insistent) pool.

End Example.

(** * The custom MCP tool servers *)

Module McpServers.

Definition nl : string := String (ascii_of_nat 10) EmptyString.

(** The double quote. *)
Definition dq : string := String (ascii_of_nat 34) EmptyString.

(** A number in a template literal. *)
Definition decimal (n : nat) : string := NilZero.string_of_uint (Nat.to_uint n).

(** The error codes of the MCP SDK the servers use. *)
Inductive ErrorCode : Type := MethodNotFound | InvalidParams | InternalError.

(** An [Error] object that is not an [McpError]. *)
Record JsError : Type := mkJsError { err_name : string; err_message : string }.

(** [`${error}`] for an [Error]: [Error.prototype.toString]. *)
Definition error_to_string (e : JsError) : string :=
  match err_name e, err_message e with
  | EmptyString, m => m
  | n, EmptyString => n
  | n, m => (n ++ ": " ++ m)%string
  end.

(** What a handler can throw: an [Error], an [McpError] (which is an
    [Error] too), or a value that is no [Error]. *)
Inductive Thrown : Type :=
| AnError (e : JsError)
| AnMcpError (code : ErrorCode) (message : string)
| NotAnError (value : string).

Inductive Outcome (A : Type) : Type :=
| Returns (a : A)
| Throws (t : Thrown).

Arguments Returns {A} a.
Arguments Throws {A} t.

Section Handlers.

(** The [message] property the SDK gives an [McpError] built from a code
    and a message. *)
Variable mcp_message : ErrorCode -> string -> string.

Definition thrown_message (t : Thrown) : string :=
  match t with
  | AnError e => err_message e
  | AnMcpError code message => mcp_message code message
  | NotAnError _ => ""
  end.

(** The [catch] block the three call handlers share:
    [if (error instanceof Error) throw new McpError(ErrorCode.InternalError,
    `<prefix>${error.message}`); throw error;]. *)
Definition rethrow (prefix : string) (t : Thrown) : Thrown :=
  match t with
  | NotAnError v => NotAnError v
  | _ => AnMcpError InternalError (prefix ++ thrown_message t)%string
  end.

Definition guarded {A} (prefix : string) (r : Outcome A) : Outcome A :=
  match r with
  | Throws t => Throws (rethrow prefix t)
  | Returns a => Returns a
  end.

Definition unknown_tool {A} (name : string) : Outcome A :=
  Throws (AnMcpError MethodNotFound ("Unknown tool: " ++ name)%string).

(** The tool names a [ListTools] handler answers with. *)
Definition utility_tools : list string := ["get_time"].
Definition wikipedia_tools : list string := ["search_wikipedia"].
Definition jira_tools : list string :=
  ["jira_issue"; "jira_sprint"; "jira_active_sprint"; "jira_sprint_issues";
   "jira_active_sprint_issues"].

(** ** The utility server *)

(** The [try] block of the call handler; [now] is the local time in
    Kolkata as [toLocaleString] prints it. *)
Definition utility_try (now : string) (name : string) : Outcome string :=
  if String.eqb name "get_time" then
    Returns ("**Current Time in India (IST):** " ++ now ++ nl ++ nl)%string
  else unknown_tool name.

Definition utility_call (now : string) (name : string) : Outcome string :=
  guarded "Utility failed: " (utility_try now name).

(** ** The Wikipedia server *)

(** One hit of a search; an empty title is a missing one. *)
Record Hit : Type := mkHit { title : string }.

(** What [wikipedia.page] is asked for: [results[0].title || results[0]]. *)
Inductive PageKey : Type :=
| ByTitle (title : string)
| ByHit (hit : Hit).

Record Summary : Type := mkSummary
  { extract : string; desktop_page : option string }.

Inductive WikiCall : Type :=
| Searched (query : string)
| PageFetched (key : PageKey).

Record Wikipedia : Type := mkWikipedia
  { (** [searchResults.results]: [None] when it is missing *)
    search : string -> Outcome (option (list Hit));
    (** [wikipedia.page(key)] followed by [page.summary()] *)
    summary_of : PageKey -> Outcome Summary }.

Definition first_title (hit : Hit) : PageKey :=
  match title hit with
  | EmptyString => ByHit hit
  | t => ByTitle t
  end.

Definition undefined_property (prop : string) : Thrown :=
  AnError (mkJsError "TypeError"
             ("Cannot read properties of undefined (reading '" ++ prop ++ "')")).

(** The [try] block of the call handler, with the calls it makes.
    [args]: [None] when the request has no [arguments]; [Some None] when it
    has no [query]. *)
Definition wikipedia_try (wiki : Wikipedia) (name : string)
  (args : option (option string)) : list WikiCall * Outcome string :=
  if negb (String.eqb name "search_wikipedia") then ([], unknown_tool name)
  else
    match args with
    | None => ([], Throws (undefined_property "query"))
    | Some None =>
        ([], Throws (AnMcpError InvalidParams "Missing required parameter: query"))
    | Some (Some EmptyString) =>
        ([], Throws (AnMcpError InvalidParams "Missing required parameter: query"))
    | Some (Some query) =>
        match search wiki query with
        | Throws t => ([Searched query], Throws t)
        | Returns None =>
            ([Searched query],
             Returns ("No Wikipedia results found for " ++ dq ++ query ++ dq ++ ".")%string)
        | Returns (Some []) =>
            ([Searched query],
             Returns ("No Wikipedia results found for " ++ dq ++ query ++ dq ++ ".")%string)
        | Returns (Some (hit :: _)) =>
            match summary_of wiki (first_title hit) with
            | Throws t =>
                ([Searched query; PageFetched (first_title hit)], Throws t)
            | Returns summary =>
                ([Searched query; PageFetched (first_title hit)],
                 Returns (extract summary ++ " " ++ nl ++ nl ++ nl
                            ++ "[Read more on Wikipedia]("
                            ++ match desktop_page summary with
                               | Some url => url
                               | None => "undefined"
                               end ++ ")")%string)
            end
        end
    end.

Definition wikipedia_call (wiki : Wikipedia) (name : string)
  (args : option (option string)) : list WikiCall * Outcome string :=
  (fst (wikipedia_try wiki name args),
   guarded "Wikipedia search failed: " (snd (wikipedia_try wiki name args))).

(** ** The Jira server *)

(** What a [fetch] of the Jira API comes to: it rejects (no connection, a
    body that is not JSON), it answers with a status that is not ok, or it
    answers with data. *)
Inductive FetchResult (D : Type) : Type :=
| FetchFails (e : JsError)
| NotOk (status : nat)
| Ok (data : D).

Arguments FetchFails {D} e.
Arguments NotOk {D} status.
Arguments Ok {D} data.

(** The [sprintId] argument: a string or a number, or missing. *)
Inductive SprintIdArg : Type :=
| NoSprintId
| SprintNumber (n : nat)
| SprintString (s : string).

(** [!args.sprintId]. *)
Definition sprintId_missing (a : SprintIdArg) : bool :=
  match a with
  | NoSprintId | SprintNumber 0 | SprintString EmptyString => true
  | _ => false
  end.

Definition print_sprintId (a : SprintIdArg) : string :=
  match a with
  | NoSprintId => "undefined"
  | SprintNumber n => decimal n
  | SprintString s => s
  end.

Record JiraArgs : Type := mkJiraArgs
  { query : option string; sprintId : SprintIdArg; boardId : option nat }.

(** [args.boardId ?? 1197]. *)
Definition board_of (a : JiraArgs) : nat :=
  match boardId a with Some b => b | None => 1197 end.

Section Jira.

(** The data of an issue and of a sprint, as the API returns them. *)
Variables Issue Sprint : Type.

(** [processIssue(issue, isSub)]; it throws when the issue lacks [fields]. *)
Variable processIssue : Issue -> bool -> JsError + string.

(** The markdown [getSprint] and [getActiveSprint] build for one sprint. *)
Variable sprint_md : Sprint -> string.
Variable active_sprint_md : Sprint -> string.

(** [`${sprint.id}`]. *)
Variable print_id : Sprint -> string.

Record JiraSite : Type := mkJiraSite
  { jiraBaseUrl : string;
    issue_api : string -> FetchResult Issue;
    sprint_api : string -> FetchResult Sprint;
    (** [values] of a board's sprint list; [None] when it is missing *)
    board_api : string -> FetchResult (option (list Sprint));
    (** [issues] of a sprint; [None] when it is missing *)
    sprint_issues_api : string -> FetchResult (option (list Issue)) }.

(** [fetchJiraAPI]: the URL is the base, a slash, and the path handed in;
    a status that is not ok becomes an [Error]. *)
Definition api_url (site : JiraSite) (url : string) : string :=
  (jiraBaseUrl site ++ "/" ++ url)%string.

Definition fetchJiraAPI {D} (r : FetchResult D) : JsError + D :=
  match r with
  | FetchFails e => inl e
  | NotOk status =>
      inl (mkJsError "Error" ("HTTP error! Status: " ++ decimal status))
  | Ok data => inr data
  end.

(** [issues.map(issue => processIssue(issue, isSub))]: the first throw ends
    the map. *)
Fixpoint process_all (isSub : bool) (issues : list Issue)
  : JsError + list string :=
  match issues with
  | [] => inr []
  | issue :: rest =>
      match processIssue issue isSub with
      | inl e => inl e
      | inr md =>
          match process_all isSub rest with
          | inl e => inl e
          | inr mds => inr (md :: mds)
          end
      end
  end.

Definition separator : string := (nl ++ nl ++ "---" ++ nl ++ nl)%string.

(** [getIssue]: the markdown of the issue, or the text of the error. *)
Definition getIssue (site : JiraSite) (ticket : string) : list string * string :=
  let url := api_url site ("/rest/api/2/issue/" ++ ticket) in
  ([url],
   match fetchJiraAPI (issue_api site url) with
   | inr data =>
       match processIssue data false with
       | inr md => md
       | inl e => "**Error fetching Jira issue:** " ++ error_to_string e ++ nl ++ nl
       end
   | inl e => "**Error fetching Jira issue:** " ++ error_to_string e ++ nl ++ nl
   end%string).

Definition getSprint (site : JiraSite) (id : SprintIdArg) : list string * string :=
  let url := api_url site ("/rest/agile/1.0/sprint/" ++ print_sprintId id) in
  ([url],
   match fetchJiraAPI (sprint_api site url) with
   | inr data => sprint_md data
   | inl e => "**Error fetching Jira sprint:** " ++ error_to_string e ++ nl ++ nl
   end%string).

Definition getActiveSprint (site : JiraSite) (board : nat) : list string * string :=
  let url := api_url site ("/rest/agile/1.0/board/" ++ decimal board
                             ++ "/sprint?state=active") in
  ([url],
   match fetchJiraAPI (board_api site url) with
   | inr None => "No active sprints."
   | inr (Some []) => "No active sprints."
   | inr (Some sprints) => String.concat (nl ++ nl) (map active_sprint_md sprints)
   | inl e => "**Error fetching active sprint:** " ++ error_to_string e ++ nl ++ nl
   end%string).

(** The part [getSprintIssues] and [getActiveSprintIssues] share: the
    second one counts the issues and renders them as sub-issues. *)
Definition issues_text (site : JiraSite) (id : string) (active : bool)
  (url : string) : string :=
  match fetchJiraAPI (sprint_issues_api site url) with
  | inr None => "No issues found for this sprint."
  | inr (Some []) => "No issues found for this sprint."
  | inr (Some issues) =>
      match process_all active issues with
      | inr mds =>
          nl ++ "# Issues for Sprint ID: " ++ id ++ nl
             ++ (if active
                 then "Total Issues: " ++ decimal (length issues) ++ nl
                 else "")
             ++ String.concat separator mds
      | inl e => "**Error fetching sprint issues:** " ++ error_to_string e
      end
  | inl e => "**Error fetching sprint issues:** " ++ error_to_string e
  end%string.

Definition getSprintIssues (site : JiraSite) (id : SprintIdArg)
  : list string * string :=
  let url := api_url site ("/rest/agile/1.0/sprint/" ++ print_sprintId id
                             ++ "/issue") in
  ([url], issues_text site (print_sprintId id) false url).

(** [getActiveSprintIssues]: the first request is awaited outside any
    [catch]; the sprint is [values[0]?.id]. *)
Definition getActiveSprintIssues (site : JiraSite) (board : nat)
  : list string * Outcome string :=
  let first := api_url site ("/rest/agile/1.0/board/" ++ decimal board
                               ++ "/sprint?state=active") in
  match fetchJiraAPI (board_api site first) with
  | inl e => ([first], Throws (AnError e))
  | inr None => ([first], Throws (undefined_property "0"))
  | inr (Some sprints) =>
      let id := match sprints with
                | [] => "undefined"
                | sprint :: _ => print_id sprint
                end in
      let url := api_url site ("/rest/agile/1.0/sprint/" ++ id ++ "/issue") in
      ([first; url], Returns (issues_text site id true url))
  end.

Definition missing_parameter {A} (name : string) : Outcome A :=
  Throws (AnMcpError InvalidParams ("Missing required parameter: " ++ name)%string).

(** The [try] block of the call handler, with the URLs it fetches.
    [args]: [None] when the request has no [arguments]. *)
Definition jira_try (site : JiraSite) (name : string) (args : option JiraArgs)
  : list string * Outcome string :=
  if String.eqb name "jira_issue" then
    match args with
    | None => ([], Throws (undefined_property "query"))
    | Some a =>
        match query a with
        | None | Some EmptyString => ([], missing_parameter "query")
        | Some q => (fst (getIssue site q), Returns (snd (getIssue site q)))
        end
    end
  else if String.eqb name "jira_sprint" then
    match args with
    | None => ([], Throws (undefined_property "sprintId"))
    | Some a =>
        if sprintId_missing (sprintId a) then ([], missing_parameter "sprintId")
        else (fst (getSprint site (sprintId a)),
              Returns (snd (getSprint site (sprintId a))))
    end
  else if String.eqb name "jira_active_sprint" then
    match args with
    | None => ([], Throws (undefined_property "boardId"))
    | Some a =>
        (fst (getActiveSprint site (board_of a)),
         Returns (snd (getActiveSprint site (board_of a))))
    end
  else if String.eqb name "jira_sprint_issues" then
    match args with
    | None => ([], Throws (undefined_property "sprintId"))
    | Some a =>
        if sprintId_missing (sprintId a) then ([], missing_parameter "sprintId")
        else (fst (getSprintIssues site (sprintId a)),
              Returns (snd (getSprintIssues site (sprintId a))))
    end
  else if String.eqb name "jira_active_sprint_issues" then
    match args with
    | None => ([], Throws (undefined_property "boardId"))
    | Some a =>
        getActiveSprintIssues site (board_of a)
    end
  else ([], unknown_tool name).

Definition jira_call (site : JiraSite) (name : string) (args : option JiraArgs)
  : list string * Outcome string :=
  (fst (jira_try site name args),
   guarded "Jira search failed: " (snd (jira_try site name args))).

End Jira.

End Handlers.

Arguments FetchFails {D} e.
Arguments NotOk {D} status.
Arguments Ok {D} data.
Arguments mkJiraSite {Issue Sprint}.
Arguments jiraBaseUrl {Issue Sprint}.
Arguments issue_api {Issue Sprint}.
Arguments sprint_api {Issue Sprint}.
Arguments board_api {Issue Sprint}.
Arguments sprint_issues_api {Issue Sprint}.
Arguments api_url {Issue Sprint}.
Arguments process_all {Issue}.
Arguments getIssue {Issue Sprint}.
Arguments getSprint {Issue Sprint}.
Arguments getActiveSprint {Issue Sprint}.
Arguments issues_text {Issue Sprint}.
Arguments getSprintIssues {Issue Sprint}.
Arguments getActiveSprintIssues {Issue Sprint}.
Arguments jira_try {Issue Sprint}.
Arguments jira_call mcp_message {Issue Sprint}.

(** ** Instances the facts below are run on *)

(** The numbers of the error codes, and the message the SDK's [McpError]
    builds from a code and a message: [`MCP error ${code}: ${message}`]. *)
Definition error_number (code : ErrorCode) : string :=
  match code with
  | MethodNotFound => "-32601"
  | InvalidParams => "-32602"
  | InternalError => "-32603"
  end.

Definition sdk_message (code : ErrorCode) (message : string) : string :=
  ("MCP error " ++ error_number code ++ ": " ++ message)%string.

(** A Wikipedia that knows one page. *)
Definition one_page : Wikipedia :=
  mkWikipedia
    (fun q => if String.eqb q "Rocq" then Returns (Some [mkHit "Rocq"])
              else Returns (Some []))
    (fun _ => Returns (mkSummary "A proof assistant." None)).

(** Issues are their keys here, an issue without key lacks [fields];
    sprints are their ids. *)
Definition demo_processIssue (issue : string) (isSub : bool) : JsError + string :=
  match issue with
  | EmptyString =>
      inl (mkJsError "TypeError"
             "Cannot read properties of undefined (reading 'description')")
  | key => inr ((if isSub then "## Jira Issue: " else "# Jira Issue: ") ++ key)%string
  end.

Definition demo_sprint_md (sprint : nat) : string :=
  ("# Jira Sprint: " ++ decimal sprint)%string.

Definition demo_active_sprint_md (sprint : nat) : string :=
  ("# Active Sprint: " ++ decimal sprint)%string.

(** A site that knows no issue, whose board has no active sprint, and whose
    sprints hold one sound issue and one without [fields]. *)
Definition demo_site : JiraSite string nat :=
  mkJiraSite "https://jira.example.com"
             (fun _ => NotOk 404)
             (fun _ => Ok 7)
             (fun _ => Ok (Some []))
             (fun _ => Ok (Some ["AUS-1"; ""])).

(** A site that cannot be reached. *)
Definition unreachable_site : JiraSite string nat :=
  mkJiraSite "https://jira.example.com"
             (fun _ => FetchFails (mkJsError "TypeError" "fetch failed"))
             (fun _ => FetchFails (mkJsError "TypeError" "fetch failed"))
             (fun _ => FetchFails (mkJsError "TypeError" "fetch failed"))
             (fun _ => FetchFails (mkJsError "TypeError" "fetch failed")).

Definition demo_call := jira_call sdk_message demo_processIssue demo_sprint_md
                                  demo_active_sprint_md decimal.

End McpServers.

(** * The chat frontend *)

Module Frontend.
Import Server.

(** ** App.jsx: the configuration shown to the user *)

(** A parsed JSON value; an object is the list of its own properties, each
    key once.  The prototype of an object is not part of the value: a
    configuration is shown through [JSON.stringify], which prints own
    properties only. *)
#[local] Unset Elimination Schemes.
Inductive Json : Type :=
| JNull
| JBool (b : bool)
| JNum (n : nat)
| JStr (s : string)
| JArr (items : list Json)
| JObj (entries : list (string * Json)).
#[local] Set Elimination Schemes.

(** [s.endsWith(suffix)]. *)
Definition endsWith (s suffix : string) : bool :=
  let n := String.length s in
  let m := String.length suffix in
  Nat.leb m n && String.eqb (substring (n - m) m s) suffix.

(** [typeof v === 'object']: also for [null] and for arrays. *)
Definition is_object (v : Json) : bool :=
  match v with
  | JNull | JArr _ | JObj _ => true
  | _ => false
  end.

Definition stars : Json := JStr "********".

Section MaskApiKeys.

Variable toLowerCase : string -> string.

Definition is_apikey (key : string) : bool :=
  endsWith (toLowerCase key) "apikey".

(** [maskApiKeys].  The assignment [masked[key] = ...] on the key
    [__proto__] runs the setter [Object.prototype] has for that name, which
    may change the prototype of [masked] and creates no property; on every
    other key it creates the property. *)
Fixpoint maskApiKeys (obj : Json) : Json :=
  match obj with
  | JArr items => JArr (map maskApiKeys items)
  | JObj entries =>
      JObj (flat_map (fun entry : string * Json =>
                        let (key, v) := entry in
                        if String.eqb key "__proto__" then []
                        else [(key,
                               if is_apikey key then stars
                               else if is_object v then maskApiKeys v
                               else v)])
                     entries)
  | _ => obj
  end.

(** The values that sit under a key ending in [apikey], at any depth. *)
Fixpoint secrets (obj : Json) : list Json :=
  match obj with
  | JArr items => flat_map secrets items
  | JObj entries =>
      flat_map (fun entry : string * Json =>
                  let (key, v) := entry in
                  if is_apikey key then [v] else secrets v)
               entries
  | _ => []
  end.

End MaskApiKeys.

(** The keys of the objects of a value, at any depth. *)
Fixpoint keys_of (obj : Json) : list string :=
  match obj with
  | JArr items => flat_map keys_of items
  | JObj entries =>
      flat_map (fun entry : string * Json =>
                  let (key, v) := entry in key :: keys_of v)
               entries
  | _ => []
  end.

(** ** App.jsx: the selection of MCP servers *)

(** [list.includes(key)]. *)
Definition includes (list : list string) (key : string) : bool :=
  existsb (String.eqb key) list.

Definition handleMcpServerToggle (key : string) (prev : list string)
  : list string :=
  if includes prev key
  then filter (fun k => negb (String.eqb k key)) prev
  else prev ++ [key].

(** The updater of the effect that follows [mcpConfig]; [available] is
    [Object.keys(mcpConfig.mcpServers)]. *)
Definition selection_effect (available prev : list string) : list string :=
  match filter (fun key => includes available key) prev with
  | [] => ["filesystem"]
  | filtered => filtered
  end.

(** ** ChatUI.jsx *)

Definition system_message (content : string) : ChatMessage :=
  mkChatMessage (JsString "system") content.
Definition user_message (content : string) : ChatMessage :=
  mkChatMessage (JsString "user") content.
Definition assistant_message (content : string) : ChatMessage :=
  mkChatMessage (JsString "assistant") content.

(** The properties of the component the send handler reads;
    [provider] is [config && config.provider]. *)
Record Props (McpConfig : Type) : Type := mkProps
  { systemMessage : string;
    provider : JsVal;
    thinkActive : bool;
    isStreaming : bool;
    useMCP : bool;
    mcpConfig : McpConfig }.

Arguments mkProps {McpConfig}.
Arguments systemMessage {McpConfig}.
Arguments provider {McpConfig}.
Arguments thinkActive {McpConfig}.
Arguments isStreaming {McpConfig}.
Arguments useMCP {McpConfig}.
Arguments mcpConfig {McpConfig}.

(** The body of the request to [/api/chat]; [modelConfig] is passed on as
    it is and left out. A field that is [undefined] is not sent. *)
Record ChatRequest (McpConfig : Type) : Type := mkChatRequest
  { sent_mcpConfig : option McpConfig;
    sent_messages : list ChatMessage }.

Arguments mkChatRequest {McpConfig}.
Arguments sent_mcpConfig {McpConfig}.
Arguments sent_messages {McpConfig}.

(** What a send does at once: the transcript it shows and the request. *)
Record Sent (McpConfig : Type) : Type := mkSent
  { shown : list ChatMessage;
    request : ChatRequest McpConfig }.

Arguments mkSent {McpConfig}.
Arguments shown {McpConfig}.
Arguments request {McpConfig}.

(** What comes back in streaming mode. *)
Inductive StreamAnswer : Type :=
| Refused
| Reads (chunks : list string) (err : option string).

Section ChatUI.

Variable trim : string -> string.
Variable McpConfig : Type.

(** [systemMessage && systemMessage.trim()]. *)
Definition has_system_message (systemMessage : string) : bool :=
  negb (String.eqb systemMessage "") && negb (String.eqb (trim systemMessage) "").

(** [msgs.length > 0 && msgs[0].role === 'system']. *)
Definition starts_with_system (msgs : list ChatMessage) : bool :=
  match msgs with
  | first :: _ => strict_eq_string (msg_role first) "system"
  | [] => false
  end.

(** [msgs[0].content !== systemMessage.trim()], for [msgs] not empty. *)
Definition other_content (msgs : list ChatMessage) (content : string) : bool :=
  match msgs with
  | first :: _ => negb (String.eqb (msg_content first) content)
  | [] => true
  end.

(** The updater of the effect that follows [systemMessage]. *)
Definition systemMessage_effect (systemMessage : string)
  (msgs : list ChatMessage) : list ChatMessage :=
  if has_system_message systemMessage then
    if negb (starts_with_system msgs) || other_content msgs (trim systemMessage)
    then [system_message (trim systemMessage)]
    else msgs
  else if starts_with_system msgs then tl msgs
  else msgs.

Definition baseMessages (p : Props McpConfig) (messages : list ChatMessage)
  : list ChatMessage :=
  if has_system_message (systemMessage p) && negb (starts_with_system messages)
  then [system_message (trim (systemMessage p))]
  else messages.

Definition sendContent (p : Props McpConfig) (input : string) : string :=
  if negb (strict_eq_string (provider p) "azureopenai")
     && negb (strict_eq_string (provider p) "openai")
     && Bool.eqb (thinkActive p) false
  then (input ++ " /no_think")%string
  else input.

(** [handleSend], up to the request: nothing happens for an input that is
    blank. *)
Definition handleSend (p : Props McpConfig) (messages : list ChatMessage)
  (input : string) : option (Sent McpConfig) :=
  if String.eqb (trim input) "" then None
  else
    let userMessage := user_message input in
    let base := baseMessages p messages in
    let sendMessage := user_message (sendContent p input) in
    Some (mkSent (base ++ [userMessage])
            (if isStreaming p
             then mkChatRequest (if useMCP p then Some (mcpConfig p) else None)
                                (base ++ [sendMessage])
             else mkChatRequest None (base ++ [userMessage]))).

(** The updater of the reading loop: the last message is overwritten; on
    an empty transcript the assignment adds no element. *)
Definition set_last (content : string) (msgs : list ChatMessage)
  : list ChatMessage :=
  match msgs with
  | [] => []
  | _ => removelast msgs ++ [assistant_message content]
  end.

Fixpoint read_loop (fullText : string) (chunks : list string)
  (msgs : list ChatMessage) : list ChatMessage :=
  match chunks with
  | [] => msgs
  | chunk :: rest =>
      read_loop (fullText ++ chunk) rest (set_last (fullText ++ chunk) msgs)
  end.

(** The transcript once the streamed answer has been read. *)
Definition after_stream (msgs : list ChatMessage) (answer : StreamAnswer)
  : list ChatMessage :=
  match answer with
  | Refused => msgs ++ [assistant_message "Error: Server responded error"]
  | Reads chunks err =>
      let read := read_loop "" chunks (msgs ++ [assistant_message ""]) in
      match err with
      | None => read
      | Some message => read ++ [assistant_message ("Error: " ++ message)]
      end
  end.

Definition is_system (msg : ChatMessage) : bool :=
  strict_eq_string (msg_role msg) "system".

(** No system message after the first place. *)
Definition one_system_message (msgs : list ChatMessage) : Prop :=
  forallb (fun msg => negb (is_system msg)) (tl msgs) = true.

(** The transcript is in step with the system message: it starts with it
    when there is one, and holds no other system message. *)
Definition in_step (systemMessage : string) (msgs : list ChatMessage) : Prop :=
  (if has_system_message systemMessage
   then exists rest, msgs = system_message (trim systemMessage) :: rest
   else starts_with_system msgs = false)
  /\ one_system_message msgs.

End ChatUI.

Arguments handleSend trim {McpConfig}.
Arguments baseMessages trim {McpConfig}.
Arguments sendContent {McpConfig}.

(** ** Instances the facts below are run on *)

Definition lower (c : ascii) : ascii :=
  let n := nat_of_ascii c in
  if Nat.leb 65 n && Nat.leb n 90 then ascii_of_nat (n + 32) else c.

Fixpoint lowercase (s : string) : string :=
  match s with
  | EmptyString => EmptyString
  | String c rest => String (lower c) (lowercase rest)
  end.

Definition sample_config : Json :=
  JObj [("provider", JStr "openai");
        ("config", JObj [("model", JStr "gpt-4o"); ("openAIApiKey", JStr "sk-1");
                         ("stream", JBool true)]);
        ("fallbacks", JArr [JObj [("APIKEY", JObj [("value", JStr "sk-2")])]])].

(** The configuration [{"__proto__": "x", "model": "gpt-4o"}]. *)
Definition proto_config : Json :=
  JObj [("__proto__", JStr "x"); ("model", JStr "gpt-4o")].

(** A [trim] that strips nothing but knows the blank inputs it is given. *)
Definition demo_trim (s : string) : string :=
  if String.eqb s "   " then "" else s.

Definition ollama_props : Props unit :=
  mkProps "Be brief." (JsString "ollama") false true false tt.

Definition greeted : list ChatMessage :=
  [system_message "Be brief."; user_message "hi"; assistant_message "Hello."].

End Frontend.

(** * Facts about the agent flow *)

Module WorkflowFacts.
Import Workflow.

Lemma model_calls_app (a b : list Event) :
  model_calls (a ++ b) = model_calls a + model_calls b.
Proof.
  unfold model_calls. now rewrite filter_app, length_app.
Qed.

Lemma model_calls_tools (cs : list ToolCall) :
  model_calls (map ToolInvoked cs) = 0.
Proof.
  induction cs as [|c cs IH]; [reflexivity | exact IH].
Qed.

Section Facts.

Variable model : nat -> list Message -> ModelOutcome.
Variable invokeTool : ToolCall -> ToolOutcome.

Local Abbreviation step := (Workflow.step model invokeTool).
Local Abbreviation run := (Workflow.run model invokeTool).
Local Abbreviation invoke := (Workflow.invoke model invokeTool).
Local Abbreviation app_invoke := (Workflow.app_invoke model invokeTool).
Local Abbreviation toolResult := (Workflow.toolResult invokeTool).

Lemma toolResult_answers (c : ToolCall) : answers c (toolResult c).
Proof.
  unfold answers, Workflow.toolResult.
  destruct (invokeTool c); eexists; reflexivity.
Qed.

Lemma toolResults_answer (cs : list ToolCall) :
  Forall2 answers cs (map toolResult cs).
Proof.
  induction cs; constructor; auto using toolResult_answers.
Qed.

(** The [tools] node followed by the [tools -> llm] edge. *)
Lemma step_tools (s : GraphState) (content : string) (cs : list ToolCall) :
  phase s = AwaitingTools ->
  last_message (messages s) = Some (AIMessage content cs) ->
  step s = mkState AwaitingModel
                   (messages s ++ map toolResult cs)
                   (trace s ++ map ToolInvoked cs).
Proof.
  intros Hp Hl. unfold Workflow.step, toolNode, pending_calls.
  now rewrite Hp, Hl.
Qed.

(** The [llm] node followed by its conditional edge. *)
Lemma step_llm_ok (s : GraphState) (content : string) (cs : list ToolCall) :
  phase s = AwaitingModel ->
  model (model_calls (trace s)) (llm_input (messages s)) = ModelOk content cs ->
  step s = mkState (match cs with [] => Done | _ :: _ => AwaitingTools end)
                   (messages s ++ [AIMessage content cs])
                   (trace s ++ [ModelInvoked (llm_input (messages s))]).
Proof.
  intros Hp Hm. unfold Workflow.step, llmNode, llm_edge.
  rewrite Hp, Hm, last_message_snoc. now destruct cs.
Qed.

Lemma step_llm_error (s : GraphState) (e : string) :
  phase s = AwaitingModel ->
  model (model_calls (trace s)) (llm_input (messages s)) = ModelError e ->
  step s = mkState (Failed e) (messages s)
                   (trace s ++ [ModelInvoked (llm_input (messages s))]).
Proof.
  intros Hp Hm. unfold Workflow.step, llmNode. now rewrite Hp, Hm.
Qed.

Lemma run_finished (fuel : nat) (s : GraphState) :
  finished (phase s) = true -> run fuel s = s.
Proof.
  intros H. destruct fuel; simpl; [reflexivity | now rewrite H].
Qed.

Lemma run_unfinished (fuel : nat) (s : GraphState) :
  finished (phase s) = false -> run (S fuel) s = run fuel (step s).
Proof.
  intros H. simpl. now rewrite H.
Qed.

Lemma Inv_step (init : list Message) (s : GraphState) :
  Inv init s -> Inv init (step s).
Proof.
  intros [Htr Hph]. destruct (phase s) eqn:Hp.
  - destruct Hph as (l & Hl & Hm).
    assert (Htr' : Forall (model_input_ok init)
                     (trace s ++ [ModelInvoked (llm_input (messages s))])).
    { apply Forall_app. split; [exact Htr|]. constructor; [|constructor].
      exists l. now rewrite Hm. }
    destruct (model (model_calls (trace s)) (llm_input (messages s)))
      as [content cs|e] eqn:Hmod.
    + rewrite (step_llm_ok s content cs Hp Hmod). split; [exact Htr'|].
      destruct cs as [|c cs]; simpl.
      * exists l, content. now rewrite Hm.
      * exists l, content, (c :: cs). now rewrite Hm.
    + rewrite (step_llm_error s e Hp Hmod). now split.
  - destruct Hph as (l & content & cs & Hl & Hm).
    assert (Hlast : last_message (messages s) = Some (AIMessage content cs))
      by (rewrite Hm; apply last_message_snoc).
    rewrite (step_tools s content cs Hp Hlast). split; simpl.
    + apply Forall_app. split; [exact Htr|].
      apply Forall_forall. intros e He. apply in_map_iff in He.
      destruct He as (c & <- & _). exact I.
    + exists (l ++ AIMessage content cs :: map toolResult cs). split.
      * constructor; [exact Hl | apply toolResults_answer].
      * rewrite Hm, <- !app_assoc. reflexivity.
  - unfold Workflow.step. rewrite Hp. split; [exact Htr | now rewrite Hp].
  - unfold Workflow.step. rewrite Hp. split; [exact Htr | now rewrite Hp].
Qed.

Lemma Inv_run (init : list Message) (fuel : nat) (s : GraphState) :
  Inv init s -> Inv init (run fuel s).
Proof.
  revert s. induction fuel as [|fuel IH]; intros s H; simpl; [exact H|].
  destruct (finished (phase s)); [exact H | apply IH, Inv_step, H].
Qed.

Lemma Inv_initial (init : list Message) :
  Inv init (mkState AwaitingModel init []).
Proof.
  split; [constructor|]. exists []. split; [constructor|].
  simpl. now rewrite app_nil_r.
Qed.

(** C1. In every run of the loop, whatever the model and the tools answer
    and however long the run is followed: (1) each call of the Model Invoker
    is given the initial transcript followed by whole turns only, that is,
    every assistant message appended so far is followed by exactly one
    ToolResult per ToolCallRequest it carries, in the order of the requests;
    and the transcript itself is the initial one followed by whole turns
    and, while the tools are awaited or once the run is done, the assistant
    message appended last ([Inv]);
    (2) one execution of the tools node on an assistant message with requests
    [cs] appends exactly [length cs] tool messages, the i-th one carrying the
    id of the i-th request, makes no model call, and hands over to the llm
    node. *)
Theorem tool_results_precede_next_model_call
  (fuel : nat) (init : list Message) :
  Inv init (invoke fuel init) /\
  (forall (s : GraphState) (content : string) (cs : list ToolCall),
      phase s = AwaitingTools ->
      last_message (messages s) = Some (AIMessage content cs) ->
      exists rs,
        messages (step s) = messages s ++ rs /\
        length rs = length cs /\
        Forall2 answers cs rs /\
        phase (step s) = AwaitingModel /\
        model_calls (trace (step s)) = model_calls (trace s)).
Proof.
  split.
  - apply (Inv_run init fuel), Inv_initial.
  - intros s content cs Hp Hl. exists (map toolResult cs).
    rewrite (step_tools s content cs Hp Hl). simpl.
    repeat split.
    + apply length_map.
    + apply toolResults_answer.
    + rewrite model_calls_app, model_calls_tools. lia.
Qed.

(** A first response without tool calls ends the run after one model call. *)
Lemma first_response_without_tool_calls
  (init : list Message) (content : string) (fuel : nat) :
  model 0 (llm_input init) = ModelOk content [] ->
  invoke (S fuel) init =
    mkState Done (init ++ [AIMessage content []])
            [ModelInvoked (llm_input init)] /\
  model_calls (trace (invoke (S fuel) init)) = 1.
Proof.
  intros Hm. unfold Workflow.invoke.
  rewrite run_unfinished by reflexivity.
  rewrite (step_llm_ok _ content []) by (simpl; auto).
  rewrite run_finished by reflexivity. split; reflexivity.
Qed.

(** C4. A failing tool invocation does not fail the run: the tools node
    still hands over to the llm node (never to [Failed]), the transcript
    then holds a tool message with the failing request's id that carries the
    error, one tool message per request is appended all the same, and the
    next node execution is a call of the Model Invoker whose input contains
    that error-bearing tool message. *)
Theorem tool_failure_is_fed_back
  (s : GraphState) (content : string) (cs : list ToolCall)
  (c : ToolCall) (e : string) :
  phase s = AwaitingTools ->
  last_message (messages s) = Some (AIMessage content cs) ->
  In c cs ->
  invokeTool c = ToolFail e ->
  let r := ToolMessage (tc_id c) (tc_name c) (ToolError e) in
  phase (step s) = AwaitingModel /\
  In r (messages (step s)) /\
  length (messages (step s)) = length (messages s) + length cs /\
  exists input,
    trace (step (step s)) = trace (step s) ++ [ModelInvoked input] /\
    In r input.
Proof.
  intros Hp Hl Hin Hfail r.
  assert (Hr : In r (messages s ++ map toolResult cs)).
  { apply in_or_app. right. apply in_map_iff. exists c. split; [|exact Hin].
    unfold Workflow.toolResult. now rewrite Hfail. }
  rewrite (step_tools s content cs Hp Hl). simpl.
  split; [reflexivity|]. split; [exact Hr|].
  split; [now rewrite length_app, length_map|].
  set (s1 := mkState AwaitingModel _ _).
  exists (llm_input (messages s1)). split.
  - unfold Workflow.step at 1. simpl.
    destruct (llmNode model _ _) as [content' cs'|e'];
      [destruct (llm_edge _) as [[|]|]|]; reflexivity.
  - subst s1. simpl. set (msgs := messages s ++ map toolResult cs) in *.
    unfold llm_input. destruct msgs as [|m [|m' rest]]; try exact Hr.
    destruct (isHumanMessage m); [right|]; exact Hr.
Qed.









End Facts.

(** ** Scenarios *)

(** Without tools [runExample] stops before the graph is built. *)
Remark runExample_without_tools
  (model : nat -> list Message -> ModelOutcome)
  (invokeTool : ToolCall -> ToolOutcome) (rt : Runtime) (query : string) :
  runExample model invokeTool [] rt query = inl "No tools found".
Proof. reflexivity. Qed.

Example scenario_A :
  Workflow.invoke greeter pool 5 [HumanMessage "hi"] =
    mkState Done [HumanMessage "hi"; AIMessage "hello" []]
      [ModelInvoked [SystemMessage systemMessage; HumanMessage "hi"]].
Proof. reflexivity. Qed.

Example scenario_B :
  Workflow.invoke lister pool 5 [HumanMessage "list files"] =
    mkState Done
      [HumanMessage "list files"; AIMessage "" [list_files];
       ToolMessage "1" "list_files" (ToolSuccess "a.txt, b.txt");
       AIMessage "a.txt and b.txt" []]
      [ModelInvoked [SystemMessage systemMessage; HumanMessage "list files"];
       ToolInvoked list_files;
       ModelInvoked [HumanMessage "list files"; AIMessage "" [list_files];
                     ToolMessage "1" "list_files" (ToolSuccess "a.txt, b.txt")]].
Proof. reflexivity. Qed.

Example scenario_D :
  Workflow.step insistent pool awaiting_two =
    mkState AwaitingModel
      [HumanMessage "list files"; AIMessage "" [list_files; bad_tool];
       ToolMessage "1" "list_files" (ToolSuccess "a.txt, b.txt");
       ToolMessage "2" "bad_tool" (ToolError "tool failed: no such tool")]
      [ModelInvoked [SystemMessage systemMessage; HumanMessage "list files"];
       ToolInvoked list_files; ToolInvoked bad_tool].
Proof. reflexivity. Qed.

Lemma tool_results_precede_next_model_call_witness :
  exists rs,
    messages (Workflow.step lister pool awaiting_two)
      = messages awaiting_two ++ rs /\
    length rs = 2 /\
    Forall2 answers [list_files; bad_tool] rs /\
    phase (Workflow.step lister pool awaiting_two) = AwaitingModel /\
    model_calls (trace (Workflow.step lister pool awaiting_two)) = 1.
Proof.
  exact (proj2 (tool_results_precede_next_model_call lister pool 0 [])
               awaiting_two "" [list_files; bad_tool] eq_refl eq_refl).
Defined.

Lemma tool_failure_is_fed_back_witness :
  phase (Workflow.step lister pool awaiting_two) = AwaitingModel /\
  In (ToolMessage "2" "bad_tool" (ToolError "tool failed: no such tool"))
     (messages (Workflow.step lister pool awaiting_two)) /\
  length (messages (Workflow.step lister pool awaiting_two)) = 2 + 2 /\
  exists input,
    trace (Workflow.step lister pool (Workflow.step lister pool awaiting_two))
      = trace (Workflow.step lister pool awaiting_two) ++ [ModelInvoked input] /\
    In (ToolMessage "2" "bad_tool" (ToolError "tool failed: no such tool")) input.
Proof.
  exact (tool_failure_is_fed_back lister pool awaiting_two ""
           [list_files; bad_tool] bad_tool "tool failed: no such tool"
           eq_refl eq_refl (or_intror (or_introl eq_refl)) eq_refl).
Defined.



End WorkflowFacts.

(** * Facts about the chat handlers *)

Module ServerFacts.
Import Server.

(** ** What a computation adds to the log *)

Section Emits.

Context {R : Type} (P : Event -> Prop).

Lemma emits_ret {A} (a : A) : emits P (ret (R := R) a).
Proof. intros log. exists []. now rewrite app_nil_r. Qed.

Lemma emits_throw {A} (e : JSError) : emits P (throw (R := R) (A := A) e).
Proof. intros log. exists []. now rewrite app_nil_r. Qed.

Lemma emits_return {A} (r : R) : emits P (return_ (A := A) r).
Proof. intros log. exists []. now rewrite app_nil_r. Qed.

Lemma emits_emit (ev : Event) : P ev -> emits P (emit (R := R) ev).
Proof. intros H log. exists [ev]. split; [reflexivity | now constructor]. Qed.

Lemma emits_external (ev : Event) (f : option JSError) :
  P ev -> emits P (external (R := R) ev f).
Proof. intros H log. exists [ev]. split; [reflexivity | now constructor]. Qed.

Lemma emits_bind {A B} (m : Eff R A) (k : A -> Eff R B) :
  emits P m -> (forall a, emits P (k a)) -> emits P (bind m k).
Proof.
  intros Hm Hk log. unfold bind.
  destruct (Hm log) as (s1 & E1 & F1).
  destruct (m log) as [log1 [a|r|e]]; simpl in E1; subst log1.
  - destruct (Hk a (log ++ s1)) as (s2 & E2 & F2).
    exists (s1 ++ s2). rewrite E2, app_assoc. split; [reflexivity|].
    apply Forall_app; now split.
  - now exists s1.
  - now exists s1.
Qed.

Lemma emits_try_catch {A} (m : Eff R A) (h : JSError -> Eff R A) :
  emits P m -> (forall e, emits P (h e)) -> emits P (try_catch m h).
Proof.
  intros Hm Hh log. unfold try_catch.
  destruct (Hm log) as (s1 & E1 & F1).
  destruct (m log) as [log1 [a|r|e]]; simpl in E1; subst log1.
  - now exists s1.
  - now exists s1.
  - destruct (Hh e (log ++ s1)) as (s2 & E2 & F2).
    exists (s1 ++ s2). rewrite E2, app_assoc. split; [reflexivity|].
    apply Forall_app; now split.
Qed.

Lemma emits_try_finally {A} (m : Eff R A) (f : Eff R unit) :
  emits P m -> emits P f -> emits P (try_finally m f).
Proof.
  intros Hm Hf log. unfold try_finally.
  destruct (Hm log) as (s1 & E1 & F1).
  destruct (m log) as [log1 c]; simpl in E1; subst log1.
  destruct (Hf (log ++ s1)) as (s2 & E2 & F2).
  exists (s1 ++ s2). rewrite app_assoc, <- E2. split.
  - now destruct (f (log ++ s1)) as [log2 [[]|r|e]].
  - apply Forall_app; now split.
Qed.

Lemma emits_res_setHeader (k v : string) :
  P (SetHeader k v) -> emits P (res_setHeader (R := R) k v).
Proof.
  intros H log. unfold res_setHeader. destruct (headersSent log).
  - exists []. now rewrite app_nil_r.
  - exists [SetHeader k v]. split; [reflexivity | now constructor].
Qed.

Lemma emits_res_json (b : Body) : P (Json b) -> emits P (res_json (R := R) b).
Proof.
  intros H log. unfold res_json. destruct (headersSent log).
  - exists []. now rewrite app_nil_r.
  - exists [Json b]. split; [reflexivity | now constructor].
Qed.

Lemma emits_for_await {C} (concat : C -> C -> C) (body : C -> Eff R unit)
  (chunks : list C) (acc : option C) :
  (forall c, emits P (body c)) -> emits P (for_await concat body chunks acc).
Proof.
  intros Hb. revert acc.
  induction chunks as [|c chunks IH]; intros acc; simpl.
  - apply emits_ret.
  - apply emits_bind; [apply Hb | intros _; apply IH].
Qed.

Lemma emits_consume {C} (concat : C -> C -> C) (body : C -> Eff R unit)
  (s : list C * option JSError) :
  (forall c, emits P (body c)) -> emits P (consume concat body s).
Proof.
  intros Hb. unfold consume. apply emits_bind.
  - now apply emits_for_await.
  - intros a. destruct (snd s); [apply emits_throw | apply emits_ret].
Qed.

End Emits.

Lemma emits_call {R R' A} (P : Event -> Prop) (m : Eff R A) (d : R) :
  emits P m -> emits P (call (R' := R') m d).
Proof.
  intros Hm log. unfold call. destruct (Hm log) as (s1 & E1 & F1).
  exists s1. split; [|exact F1].
  now destruct (m log) as [log1 [a|r|e]].
Qed.

Lemma bind_normal {R A B} (m : Eff R A) (k : A -> Eff R B)
  (log log' : list Event) (a : A) :
  m log = (log', Normal a) -> bind m k log = k a log'.
Proof. intros H. unfold bind. now rewrite H. Qed.

Lemma bind_thrown {R A B} (m : Eff R A) (k : A -> Eff R B)
  (log log' : list Event) (e : JSError) :
  m log = (log', Thrown e) -> bind m k log = (log', Thrown e).
Proof. intros H. unfold bind. now rewrite H. Qed.

Lemma fst_then_return {R A B} (m : Eff R A) (r : R) (log : list Event) :
  fst ((m ;; return_ (A := B) r) log) = fst (m log).
Proof. unfold bind. now destruct (m log) as [l [a|r'|e]]. Qed.

(** ** The conversion of the messages, as a function *)

Lemma map_Some_inj {A} (a b : list A) : map Some a = map Some b -> a = b.
Proof.
  revert b. induction a as [|x a IH]; intros [|y b]; simpl; intros E;
    try discriminate; [reflexivity|].
  injection E as -> E. f_equal. now apply IH.
Qed.

(** An array without [null] converts element by element. *)
Lemma convert_messages_objects (msgs : list ChatMessage) :
  convert_messages (map Some msgs) = inr (map toLangchain msgs).
Proof.
  induction msgs as [|m msgs IH]; simpl; [reflexivity | now rewrite IH].
Qed.

(** An array that holds a [null] does not convert. *)
Lemma convert_messages_null (items : list (option ChatMessage)) :
  In None items -> convert_messages items = inl (null_property "role").
Proof.
  induction items as [|[m|] items IH]; simpl; intros H.
  - contradiction.
  - destruct H as [H|H]; [discriminate | now rewrite IH].
  - reflexivity.
Qed.

Lemma objects_or_null (items : list (option ChatMessage)) :
  (exists msgs, items = map Some msgs) \/ In None items.
Proof.
  induction items as [|[m|] items IH].
  - left. now exists [].
  - destruct IH as [[msgs ->]|H]; [left; now exists (m :: msgs) | right; now right].
  - right. now left.
Qed.

Lemma convert_objects {R} (msgs : list ChatMessage) (log : list Event) :
  convert (R := R) (map Some msgs) log = (log, Normal (map toLangchain msgs)).
Proof. unfold convert. now rewrite convert_messages_objects. Qed.

Lemma convert_null {R} (items : list (option ChatMessage)) (log : list Event) :
  In None items ->
  convert (R := R) items log = (log, Thrown (null_property "role")).
Proof. intros H. unfold convert. now rewrite convert_messages_null. Qed.

Lemma emits_convert {R} (P : Event -> Prop) (items : list (option ChatMessage)) :
  emits P (convert (R := R) items).
Proof.
  unfold convert. destruct (convert_messages items);
    [apply emits_throw | apply emits_ret].
Qed.

(** What follows the conversion is run on the converted list. *)
Lemma emits_after_convert {R B} (P : Event -> Prop)
  (items : list (option ChatMessage)) (k : list Message -> Eff R B) :
  (forall msgs, items = map Some msgs -> emits P (k (map toLangchain msgs))) ->
  emits P (bind (convert items) k).
Proof.
  intros H log. destruct (objects_or_null items) as [[msgs ->]|Hnull].
  - rewrite (bind_normal _ _ _ _ _ (convert_objects msgs log)).
    exact (H msgs eq_refl log).
  - rewrite (bind_thrown _ _ _ _ _ (convert_null items log Hnull)).
    exists []. now rewrite app_nil_r.
Qed.

(** The steps shared by the proofs that a handler emits only events of some
    kind: peel the combinators, split the branches, leave the events. *)
Ltac emits_step :=
  match goal with
  | |- emits _ (bind (convert _) _) => apply emits_after_convert; intros ? ?
  | |- emits _ (bind _ _) => apply emits_bind; [|intros ?]
  | |- emits _ (try_catch _ _) => apply emits_try_catch; [|intros ?]
  | |- emits _ (try_finally _ _) => apply emits_try_finally
  | |- emits _ (call _ _) => apply emits_call
  | |- emits _ (consume _ _ _) => apply emits_consume; intros ?
  | |- emits _ (ret _) => apply emits_ret
  | |- emits _ (throw _) => apply emits_throw
  | |- emits _ (return_ _) => apply emits_return
  | |- emits _ (res_write_object _) => apply emits_throw
  | |- emits _ (emit _) => apply emits_emit
  | |- emits _ (res_status _) => apply emits_emit
  | |- emits _ (res_write _) => apply emits_emit
  | |- emits _ res_end => apply emits_emit
  | |- emits _ (console _) => apply emits_emit
  | |- emits _ (external _ _) => apply emits_external
  | |- emits _ (Model _) => apply emits_external
  | |- emits _ (res_setHeader _ _) => apply emits_res_setHeader
  | |- emits _ (res_json _) => apply emits_res_json
  | |- emits _ (if ?b then _ else _) => destruct b
  | |- emits _ (match ?x with _ => _ end) => destruct x
  end.

Ltac emits_tac := repeat emits_step.

Lemma handle_fst (h : Eff unit unit) : fst (handle h) = fst (h []).
Proof. reflexivity. Qed.

(** ** Strings *)

Lemma append_nil_r (s : string) : (s ++ "")%string = s.
Proof. induction s as [|a s IH]; simpl; [reflexivity | now rewrite IH]. Qed.

Lemma append_assoc (s t u : string) :
  ((s ++ t) ++ u)%string = (s ++ t ++ u)%string.
Proof. induction s as [|a s IH]; simpl; [reflexivity | now rewrite IH]. Qed.

Lemma join_cons (x : string) (xs : list string) :
  join (x :: xs) = (x ++ join xs)%string.
Proof.
  unfold join. destruct xs as [|y ys]; simpl; [now rewrite append_nil_r | reflexivity].
Qed.

(** ** The handlers up to the conversion *)

(** The direct handler once the model is built and the messages are
    converted. *)
Lemma performModelChat_converted (w : World) (req : Request)
  (msgs : list ChatMessage) :
  no_messages (body_messages req) = false ->
  new_model w = None ->
  items_of (body_messages req) = map Some msgs ->
  performModelChat w req [] = direct_chat w (map toLangchain msgs) [NewModel].
Proof.
  intros Hn Hmod Hi. unfold performModelChat. rewrite Hn, Hi.
  rewrite (bind_normal _ _ [] [NewModel] tt)
    by (unfold Model, external; now rewrite Hmod).
  now rewrite (bind_normal _ _ _ _ _ (convert_objects msgs [NewModel])).
Qed.

(** The direct handler on an array that holds a [null]: the model is built,
    the conversion throws, and that is all. *)
Lemma performModelChat_null (w : World) (req : Request) :
  no_messages (body_messages req) = false ->
  new_model w = None ->
  In None (items_of (body_messages req)) ->
  performModelChat w req [] = ([NewModel], Thrown (null_property "role")).
Proof.
  intros Hn Hmod Hi. unfold performModelChat. rewrite Hn.
  rewrite (bind_normal _ _ [] [NewModel] tt)
    by (unfold Model, external; now rewrite Hmod).
  now rewrite (bind_thrown _ _ _ _ _ (convert_null _ [NewModel] Hi)).
Qed.

(** ** The streaming loop of [performModelChat] *)

Lemma for_await_writes (concat : Chunk -> Chunk -> Chunk)
  (chunks : list Chunk) (acc : option Chunk) (log : list Event) :
  for_await (R := unit) concat
            (fun chunk => res_write (chunk_content chunk)) chunks acc log
  = (log ++ writes chunks, Normal (fold_left (merge concat) chunks acc)).
Proof.
  revert acc log. induction chunks as [|c chunks IH]; intros acc log; simpl.
  - unfold ret. now rewrite app_nil_r.
  - unfold bind, res_write, emit. rewrite IH, <- app_assoc. reflexivity.
Qed.

Lemma merged_content (concat : Chunk -> Chunk -> Chunk)
  (chunks : list Chunk) (a : Chunk) :
  (forall x y, chunk_content (concat x y)
               = (chunk_content x ++ chunk_content y)%string) ->
  exists m,
    fold_left (merge concat) chunks (Some a) = Some m /\
    chunk_content m = (chunk_content a ++ join (map chunk_content chunks))%string.
Proof.
  intros Hc. revert a. induction chunks as [|c chunks IH]; intros a; simpl.
  - exists a. now rewrite append_nil_r.
  - destruct (IH (concat a c)) as (m & Hm & Hcont).
    exists m. split; [exact Hm|].
    rewrite Hcont, Hc, append_assoc. f_equal.
    symmetry. apply (join_cons (chunk_content c)).
Qed.

(** C3. Whatever fragments the stream yields: the loop writes the text of
    each fragment to the response exactly once, in arrival order, and writes
    nothing else; when [concat] appends the text of its second argument to
    that of its first, the [finalResult] it ends with carries the
    concatenation of the texts of all fragments (there is no [finalResult]
    only for a stream with no fragment); and a streamed request to the
    direct model (its messages being objects, so that they convert) whose
    stream ends without error sends exactly those writes, followed by
    [end], to the caller. *)
Theorem stream_text_is_merged_and_forwarded_once
  (w : World) (chunks : list Chunk) (log : list Event) :
  (forall x y, chunk_content (concat w x y)
               = (chunk_content x ++ chunk_content y)%string) ->
  (exists finalResult,
     for_await (R := unit) (concat w)
               (fun chunk => res_write (chunk_content chunk)) chunks None log
     = (log ++ writes chunks, Normal finalResult) /\
     match finalResult with
     | Some m => chunk_content m = join (map chunk_content chunks)
     | None => chunks = []
     end) /\
  (forall req msgs,
     no_messages (body_messages req) = false ->
     stream w = true ->
     new_model w = None ->
     items_of (body_messages req) = map Some msgs ->
     chat_stream w (map toLangchain msgs) = (chunks, None) ->
     handle (performModelChat w req)
     = ([NewModel; SetHeader "Content-Type" "text/plain; charset=utf-8";
         ChatStream (map toLangchain msgs)]
          ++ writes chunks ++ [End_],
        Resolved)).
Proof.
  intros Hc. split.
  - exists (fold_left (merge (concat w)) chunks None).
    split; [apply for_await_writes|].
    destruct chunks as [|c chunks]; [reflexivity|].
    change (fold_left (merge (concat w)) (c :: chunks) None)
      with (fold_left (merge (concat w)) chunks (Some c)).
    destruct (merged_content (concat w) chunks c Hc) as (m & -> & Hm).
    rewrite Hm. symmetry. apply (join_cons (chunk_content c)).
  - intros req msgs Hn Hs Hmod Hitems Hstream.
    assert (E : performModelChat w req []
                = ([NewModel; SetHeader "Content-Type" "text/plain; charset=utf-8";
                    ChatStream (map toLangchain msgs)]
                     ++ writes chunks ++ [End_],
                   Returned tt)).
    { rewrite (performModelChat_converted w req msgs Hn Hmod Hitems).
      unfold direct_chat. rewrite Hs. unfold consume. rewrite Hstream.
      unfold bind, try_catch, external, res_setHeader, emit, res_end, return_, ret.
      simpl. rewrite for_await_writes. reflexivity. }
    unfold handle. now rewrite E.
Qed.

(** ** The input check *)

(** C7. A request whose [messages] is missing, is not an array, or is an
    empty array is answered by both handlers with status 400 and the error
    body, and by nothing else: no model is constructed, no MCP client is
    created, no tool is loaded, no model or agent is called, nothing is
    closed; the handler returns normally. *)
Theorem request_without_messages_rejected (w : World) (req : Request) :
  (exists v, body_messages req = NotArray v) \/ body_messages req = Array [] ->
  handle (performModelChat w req)
    = ([Status 400; Json (ErrorBody "No messages provided")], Resolved) /\
  handle (performMCPModelChat w req)
    = ([Status 400; Json (ErrorBody "No messages provided")], Resolved).
Proof.
  intros H.
  assert (Hn : no_messages (body_messages req) = true)
    by (destruct H as [[v ->] | ->]; reflexivity).
  unfold handle, performModelChat, performMCPModelChat. rewrite Hn.
  split; reflexivity.
Qed.

(** ** The conversion of the messages *)

Lemma given_model_inputs (lc : list Message) (log : list Event) :
  Forall (given lc) log -> Forall (eq lc) (model_inputs log).
Proof.
  induction 1 as [|ev log Hev _ IH]; [constructor|].
  unfold model_inputs in *. simpl.
  destruct ev; simpl in *; try exact IH; constructor; auto.
Qed.

Lemma strict_eq_string_spec (v : JsVal) (s : string) :
  strict_eq_string v s = true <-> v = JsString s.
Proof.
  destruct v; simpl; try (split; [discriminate | intros H; discriminate H]).
  rewrite String.eqb_eq. split; [now intros -> | now intros [= ->]].
Qed.

Lemma performModelChat_given (w : World) (req : Request)
  (msgs : list ChatMessage) :
  items_of (body_messages req) = map Some msgs ->
  emits (given (map toLangchain msgs)) (performModelChat w req).
Proof.
  intros Hi. unfold performModelChat. rewrite Hi.
  destruct (no_messages (body_messages req)); [emits_tac; exact I|].
  apply emits_bind; [emits_tac; exact I | intros _].
  apply emits_after_convert. intros msgs' E.
  apply map_Some_inj in E. subst msgs'.
  unfold direct_chat, not_found. emits_tac; simpl; auto.
Qed.

Lemma ModelWithMCPFile_emits (P : Event -> Prop) (w : World) :
  P NewModel -> P NewMCPClient -> P GetTools -> P CreateReactAgent ->
  (forall t, P (Logged t)) ->
  emits P (ModelWithMCPFile w).
Proof.
  intros. unfold ModelWithMCPFile, CreatMCPClient. emits_tac; auto.
Qed.

Lemma performMCPModelChat_given (w : World) (req : Request)
  (msgs : list ChatMessage) :
  items_of (body_messages req) = map Some msgs ->
  emits (given (map toLangchain msgs)) (performMCPModelChat w req).
Proof.
  intros Hi. unfold performMCPModelChat. rewrite Hi.
  destruct (no_messages (body_messages req)); [emits_tac; exact I|].
  apply emits_bind; [apply emits_call, ModelWithMCPFile_emits; simpl; auto|].
  intros chat. apply emits_after_convert. intros msgs' E.
  apply map_Some_inj in E. subst msgs'.
  unfold session, stream_try, invoke_try, close_client, agent_of,
    write_agent_chunk, not_found.
  emits_tac; simpl; auto.
Qed.

Lemma model_inputs_app (a b : list Event) :
  model_inputs (a ++ b) = model_inputs a ++ model_inputs b.
Proof. apply flat_map_app. Qed.

Lemma model_inputs_quiet (l : list Event) :
  Forall no_model_call l -> model_inputs l = [].
Proof.
  induction 1 as [|ev l Hev _ IH]; [reflexivity|].
  unfold model_inputs in *. now destruct ev.
Qed.

Lemma null_not_object (msgs : list ChatMessage) : ~ In None (map Some msgs).
Proof. intros H. apply in_map_iff in H. now destruct H as (m & [=] & _). Qed.

(** A request with a [null] among its messages reaches no model and no
    agent. *)
Lemma null_reaches_no_model (w : World) (req : Request) :
  In None (items_of (body_messages req)) ->
  emits no_model_call (performModelChat w req) /\
  emits no_model_call (performMCPModelChat w req).
Proof.
  intros Hnull. unfold performModelChat, performMCPModelChat. split.
  - destruct (no_messages (body_messages req)); [emits_tac; exact I|].
    apply emits_bind; [emits_tac; exact I | intros _].
    apply emits_after_convert. intros msgs E. rewrite E in Hnull.
    now apply null_not_object in Hnull.
  - destruct (no_messages (body_messages req)); [emits_tac; exact I|].
    apply emits_bind; [apply emits_call, ModelWithMCPFile_emits; simpl; auto|].
    intros chat. apply emits_after_convert. intros msgs E. rewrite E in Hnull.
    now apply null_not_object in Hnull.
Qed.

(** C10. The conversion keeps only the distinction between [user] and
    everything else: a message whose role is not exactly the string [user]
    (a role [system] or [tool], a missing role) becomes an assistant message
    with the same content and no tool calls, a [user] message becomes a
    human message; and in both handlers every call of the model or of the
    agent is given the list converted this way.  (An array that holds a
    [null], which is no message with a role, reaches neither the model nor
    the agent.) *)
Theorem roles_other_than_user_become_assistant
  (w : World) (req : Request) (msg : ChatMessage) :
  (msg_role msg <> JsString "user" ->
   toLangchain msg = AIMessage (msg_content msg) []) /\
  (msg_role msg = JsString "user" ->
   toLangchain msg = HumanMessage (msg_content msg)) /\
  (forall msgs,
      items_of (body_messages req) = map Some msgs ->
      Forall (eq (map toLangchain msgs))
             (model_inputs (fst (handle (performModelChat w req)))) /\
      Forall (eq (map toLangchain msgs))
             (model_inputs (fst (handle (performMCPModelChat w req))))) /\
  (In None (items_of (body_messages req)) ->
   model_inputs (fst (handle (performModelChat w req))) = [] /\
   model_inputs (fst (handle (performMCPModelChat w req))) = []).
Proof.
  unfold toLangchain. split; [|split; [|split]].
  - intros H. destruct (strict_eq_string (msg_role msg) "user") eqn:E;
      [apply strict_eq_string_spec in E; contradiction | reflexivity].
  - intros H. apply strict_eq_string_spec in H. now rewrite H.
  - intros msgs Hi. rewrite !handle_fst.
    destruct (performModelChat_given w req msgs Hi []) as (suf & -> & F).
    destruct (performMCPModelChat_given w req msgs Hi []) as (suf' & -> & F').
    split; now apply given_model_inputs.
  - intros Hnull. rewrite !handle_fst.
    destruct (null_reaches_no_model w req Hnull) as [H1 H2].
    destruct (H1 []) as (suf & -> & F). destruct (H2 []) as (suf' & -> & F').
    split; now apply model_inputs_quiet.
Qed.

(** ** The session: acquisition and release of the MCP client *)

(** [ModelWithMCPFile] ends in one of two ways: with the chat object, after
    the four steps of the [try] block, or with [null]; it logs and calls
    nothing but those steps. *)
Lemma ModelWithMCPFile_cases (w : World) (log : list Event) :
  (acquired w = true /\
   call (R' := unit) (ModelWithMCPFile w) None log
   = (log ++ [NewMCPClient; NewModel; GetTools; CreateReactAgent],
      Normal the_chat)) \/
  (acquired w = false /\
   exists suf,
     Forall setup_event suf /\
     call (R' := unit) (ModelWithMCPFile w) None log
     = (log ++ suf, Normal None)).
Proof.
  destruct w as [mp st nm nc gt ca cs ci ags agi cl cc cca].
  unfold acquired, call, ModelWithMCPFile, CreatMCPClient, Model, try_catch,
    bind, external, console, emit, return_, throw. simpl.
  destruct nc as [e1|]; destruct nm as [e2|]; simpl;
    try (right; split; [reflexivity|]; eexists; rewrite <- !app_assoc; simpl;
         split; [|reflexivity]; repeat constructor).
  destruct gt as [e3|]; simpl;
    try (right; split; [reflexivity|]; eexists; rewrite <- !app_assoc; simpl;
         split; [|reflexivity]; repeat constructor).
  destruct ca as [e4|]; simpl;
    try (right; split; [reflexivity|]; eexists; rewrite <- !app_assoc; simpl;
         split; [|reflexivity]; repeat constructor).
  left. split; [reflexivity|]. now rewrite <- !app_assoc.
Qed.

Lemma try_finally_close {A} (w : World) (body : Eff unit A) (log : list Event) :
  try_finally body (close_client w the_chat) log
  = (fst (body log) ++ [Logged "Closing MCP client connection"; Close],
     match close w with
     | Some e => Thrown e
     | None => snd (body log)
     end).
Proof.
  unfold try_finally, close_client, the_chat, bind, console, emit, external.
  simpl. destruct (body log) as [log1 c]. simpl.
  rewrite <- app_assoc. now destruct (close w).
Qed.

(** The handler once the chat object is there. *)
Lemma performMCPModelChat_acquired (w : World) (req : Request)
  (msgs : list ChatMessage) :
  no_messages (body_messages req) = false ->
  acquired w = true ->
  items_of (body_messages req) = map Some msgs ->
  let lc := map toLangchain msgs in
  let log0 := [NewMCPClient; NewModel; GetTools; CreateReactAgent;
               Logged "Starting MCP client prompt: No content"] in
  performMCPModelChat w req []
  = if stream w then
      (try_finally (stream_try w the_chat lc) (close_client w the_chat) ;;
       return_ tt)
        (log0 ++ [SetHeader "Content-Type" "text/plain; charset=utf-8"])
    else
      try_finally (invoke_try w the_chat lc) (close_client w the_chat) log0.
Proof.
  intros Hn Hacq Hi lc log0. unfold performMCPModelChat. rewrite Hn, Hi.
  destruct (ModelWithMCPFile_cases w []) as [[_ E] | [E _]];
    [|rewrite Hacq in E; discriminate].
  rewrite (bind_normal _ _ _ _ _ E).
  rewrite (bind_normal _ _ _ _ _ (convert_objects msgs _)). fold lc.
  unfold session. destruct (stream w); reflexivity.
Qed.

(** The handler on an array that holds a [null]: the conversion throws
    right after [ModelWithMCPFile], outside every [try]. *)
Lemma performMCPModelChat_null (w : World) (req : Request) :
  no_messages (body_messages req) = false ->
  In None (items_of (body_messages req)) ->
  performMCPModelChat w req []
  = (fst (call (R' := unit) (ModelWithMCPFile w) None []),
     Thrown (null_property "role")).
Proof.
  intros Hn Hnull. unfold performMCPModelChat. rewrite Hn.
  destruct (ModelWithMCPFile_cases w []) as [[_ E] | (_ & suf & _ & E)];
    rewrite (bind_normal _ _ _ _ _ E), E;
    now rewrite (bind_thrown _ _ _ _ _ (convert_null _ _ Hnull)).
Qed.

Lemma stream_try_quiet (w : World) (chat : option Chat) (lc : list Message) :
  emits not_close (stream_try w chat lc).
Proof.
  unfold stream_try, agent_of, write_agent_chunk, not_found.
  emits_tac; discriminate.
Qed.

Lemma invoke_try_quiet (w : World) (chat : option Chat) (lc : list Message) :
  emits not_close (invoke_try w chat lc).
Proof.
  unfold invoke_try, agent_of, not_found. emits_tac; discriminate.
Qed.

Lemma closes_app (a b : list Event) : closes (a ++ b) = closes a + closes b.
Proof. unfold closes. now rewrite filter_app, length_app. Qed.

Lemma closes_quiet (l : list Event) : Forall not_close l -> closes l = 0.
Proof.
  induction 1 as [|ev l Hev _ IH]; [reflexivity|].
  unfold closes in *. simpl. destruct ev; simpl; try exact IH.
  now contradiction Hev.
Qed.

(** A Session whose messages convert closes its client once. *)
Lemma session_closes_once (w : World) (req : Request) (msgs : list ChatMessage) :
  no_messages (body_messages req) = false ->
  acquired w = true ->
  items_of (body_messages req) = map Some msgs ->
  closes (fst (handle (performMCPModelChat w req))) = 1.
Proof.
  intros Hn Hacq Hi. rewrite handle_fst.
  rewrite (performMCPModelChat_acquired w req msgs Hn Hacq Hi).
  set (lc := map toLangchain msgs).
  destruct (stream w).
  - rewrite fst_then_return, try_finally_close. simpl fst.
    match goal with
    | |- context [stream_try w the_chat lc ?L] =>
        destruct (stream_try_quiet w the_chat lc L) as (suf & -> & Hq)
    end.
    rewrite !closes_app, (closes_quiet suf Hq). reflexivity.
  - rewrite try_finally_close. simpl fst.
    match goal with
    | |- context [invoke_try w the_chat lc ?L] =>
        destruct (invoke_try_quiet w the_chat lc L) as (suf & -> & Hq)
    end.
    rewrite !closes_app, (closes_quiet suf Hq). reflexivity.
Qed.

(** C5, what the code does. In an MCP chat request that got its chat object
    from [ModelWithMCPFile] (the Session holds a client) and whose messages
    are all objects, [client.close()] is called exactly once, whatever the
    agent does (it answers, its stream breaks at any point, its call throws,
    with 404 or without), whether the response is streamed or not, and
    whether [close] itself succeeds or throws.  But when the array holds a
    [null], the conversion of the messages, which stands between the
    acquisition and the [try] blocks, throws: the client has been created,
    [close] is never called, nothing is sent, and the promise of the handler
    rejects with the TypeError. *)
Theorem close_skipped_when_conversion_throws (w : World) (req : Request) :
  no_messages (body_messages req) = false ->
  acquired w = true ->
  (forall msgs,
      items_of (body_messages req) = map Some msgs ->
      closes (fst (handle (performMCPModelChat w req))) = 1) /\
  (In None (items_of (body_messages req)) ->
   handle (performMCPModelChat w req)
   = ([NewMCPClient; NewModel; GetTools; CreateReactAgent],
      Rejected (null_property "role")) /\
   closes (fst (handle (performMCPModelChat w req))) = 0).
Proof.
  intros Hn Hacq. split.
  - intros msgs Hi. exact (session_closes_once w req msgs Hn Hacq Hi).
  - intros Hnull. unfold handle.
    rewrite (performMCPModelChat_null w req Hn Hnull).
    destruct (ModelWithMCPFile_cases w []) as [[_ E] | [E _]];
      [|rewrite Hacq in E; discriminate].
    rewrite E. split; reflexivity.
Qed.

Lemma with_close_acquired (c : option JSError) (w : World) :
  acquired (with_close c w) = acquired w.
Proof. reflexivity. Qed.

(** C8, as the code has it. When [client.close()] throws in a Session (one
    whose messages were converted, so that the [try] block was entered and
    [close] is called at all), the error is not caught: the promise of the handler rejects with it,
    whatever the [try] and [catch] blocks had returned or thrown; nothing is
    logged or sent after the call of [close]; and what was logged and sent
    to the caller before it is exactly what a run with a successful [close]
    logs and sends. *)
Theorem close_failure_rejects_handler
  (w : World) (req : Request) (msgs : list ChatMessage) (e : JSError) :
  no_messages (body_messages req) = false ->
  items_of (body_messages req) = map Some msgs ->
  acquired w = true ->
  close w = Some e ->
  snd (handle (performMCPModelChat w req)) = Rejected e /\
  fst (handle (performMCPModelChat w req))
    = fst (handle (performMCPModelChat (with_close None w) req)) /\
  exists l,
    fst (handle (performMCPModelChat w req))
    = l ++ [Logged "Closing MCP client connection"; Close].
Proof.
  intros Hn Hi Hacq Hclose. unfold handle. simpl fst. simpl snd.
  rewrite (performMCPModelChat_acquired w req msgs Hn Hacq Hi).
  rewrite (performMCPModelChat_acquired (with_close None w) req msgs Hn
             (eq_trans (with_close_acquired None w) Hacq) Hi).
  change (stream (with_close None w)) with (stream w).
  set (lc := map toLangchain msgs).
  change (stream_try (with_close None w)) with (stream_try w).
  change (invoke_try (with_close None w)) with (invoke_try w).
  destruct (stream w).
  - rewrite !fst_then_return. unfold bind.
    rewrite !try_finally_close, Hclose. simpl.
    repeat split. eexists. reflexivity.
  - rewrite !try_finally_close, Hclose. simpl.
    repeat split. eexists. reflexivity.
Qed.

Lemma headersSent_setup (l : list Event) :
  Forall setup_event l -> headersSent l = false.
Proof.
  induction 1 as [|ev l Hev _ IH]; [reflexivity|].
  unfold headersSent in *. simpl. rewrite IH. now destruct ev.
Qed.

Lemma setup_silent (l : list Event) :
  Forall setup_event l ->
  model_inputs l = [] /\ closes l = 0 /\ response l = [].
Proof.
  induction 1 as [|ev l Hev _ (IH1 & IH2 & IH3)]; [now repeat split|].
  unfold model_inputs, closes, response in *.
  destruct ev; simpl in *; try contradiction; now repeat split.
Qed.

(** C9, what the code does. When [ModelWithMCPFile] returns [null] (the
    client could not be created, the tools could not be loaded, or the
    agent could not be built), neither the agent nor the model is called and
    nothing is closed, and the promise of the handler rejects with the
    TypeError of reading [client] off [null] in the [finally] block.  A
    streamed request has by then been answered with the text of the
    TypeError of reading [agent] off [null]; a request that is not
    streamed has been sent nothing at all.  (When the array of messages
    holds a [null] as well, the conversion throws before any of this: nothing
    is sent and the handler rejects with the TypeError of reading [role].) *)
Theorem acquisition_failure_breaks_handler (w : World) (req : Request) :
  no_messages (body_messages req) = false ->
  acquired w = false ->
  model_inputs (fst (handle (performMCPModelChat w req))) = [] /\
  closes (fst (handle (performMCPModelChat w req))) = 0 /\
  (forall msgs,
      items_of (body_messages req) = map Some msgs ->
      snd (handle (performMCPModelChat w req)) = Rejected (null_property "client") /\
      response (fst (handle (performMCPModelChat w req)))
      = if stream w then
          [SetHeader "Content-Type" "text/plain; charset=utf-8";
           Write "Error: Cannot read properties of null (reading 'agent')";
           End_]
        else []) /\
  (In None (items_of (body_messages req)) ->
   snd (handle (performMCPModelChat w req)) = Rejected (null_property "role") /\
   response (fst (handle (performMCPModelChat w req))) = []).
Proof.
  intros Hn Hacq.
  destruct (ModelWithMCPFile_cases w []) as [[E _] | (_ & suf & Hs & E)];
    [rewrite Hacq in E; discriminate|].
  destruct (setup_silent suf Hs) as (S1 & S2 & S3).
  destruct (objects_or_null (items_of (body_messages req))) as [[msgs Hi]|Hnull].
  - assert (H : exists log,
               performMCPModelChat w req [] = (log, Thrown (null_property "client")) /\
               model_inputs log = [] /\ closes log = 0 /\
               response log
               = if stream w then
                   [SetHeader "Content-Type" "text/plain; charset=utf-8";
                    Write "Error: Cannot read properties of null (reading 'agent')";
                    End_]
                 else []).
    { unfold performMCPModelChat. rewrite Hn, Hi.
      rewrite (bind_normal _ _ _ _ _ E).
      rewrite (bind_normal _ _ _ _ _ (convert_objects msgs _)).
      unfold session. simpl app.
      assert (Hh : headersSent (suf ++ [Logged "Starting MCP client prompt: No content"])
                   = false).
      { apply headersSent_setup, Forall_app.
        split; [exact Hs | now repeat constructor]. }
      destruct (stream w).
      - unfold bind, console, emit, res_setHeader. rewrite Hh.
        unfold try_finally, stream_try, try_catch, bind, agent_of, close_client,
          throw, console, emit, res_write, res_end. simpl.
        eexists. split; [reflexivity|].
        unfold model_inputs, closes, response in *.
        rewrite !flat_map_app, !filter_app, !length_app, S1, S2, S3.
        repeat split.
      - unfold bind, console, emit.
        unfold try_finally, invoke_try, try_catch, bind, agent_of, close_client,
          res_write_object, throw. simpl.
        eexists. split; [reflexivity|].
        unfold model_inputs, closes, response in *.
        rewrite !flat_map_app, !filter_app, !length_app, S1, S2, S3.
        repeat split. }
    destruct H as (log & E' & H1 & H2 & H3).
    unfold handle. rewrite E'. simpl.
    split; [exact H1|]. split; [exact H2|]. split.
    + intros _ _. split; [reflexivity | exact H3].
    + intros Hnull. rewrite Hi in Hnull. now apply null_not_object in Hnull.
  - unfold handle. rewrite (performMCPModelChat_null w req Hn Hnull), E. simpl.
    split; [exact S1|]. split; [exact S2|]. split.
    + intros msgs Hi. rewrite Hi in Hnull. now apply null_not_object in Hnull.
    + intros _. split; [reflexivity | exact S3].
Qed.

(** ** A chat without tools *)

Lemma try_catch_after_emit {R A} (ev : Event) (rest : Eff R A)
  (h : JSError -> Eff R A) (log : list Event) :
  try_catch (emit ev ;; rest) h log = try_catch rest h (log ++ [ev]).
Proof. reflexivity. Qed.

(** The direct chat, which declares no tools, calls the model once. *)
Lemma direct_chat_one_model_call (w : World) (req : Request)
  (msgs : list ChatMessage) :
  no_messages (body_messages req) = false ->
  new_model w = None ->
  items_of (body_messages req) = map Some msgs ->
  model_inputs (fst (handle (performModelChat w req)))
  = [map toLangchain msgs].
Proof.
  intros Hn Hmod Hi. rewrite handle_fst.
  rewrite (performModelChat_converted w req msgs Hn Hmod Hi).
  unfold direct_chat. destruct (stream w).
  - rewrite (bind_normal _ _ [NewModel]
               [NewModel; SetHeader "Content-Type" "text/plain; charset=utf-8"] tt)
      by reflexivity.
    rewrite fst_then_return, try_catch_after_emit.
    match goal with
    | |- context [try_catch ?m ?h ?L] =>
        assert (Hq : emits no_model_call (try_catch m h))
          by (unfold not_found; emits_tac; exact I);
        destruct (Hq L) as (suf & -> & F)
    end.
    rewrite model_inputs_app, (model_inputs_quiet suf F). reflexivity.
  - rewrite try_catch_after_emit.
    match goal with
    | |- context [try_catch ?m ?h ?L] =>
        assert (Hq : emits no_model_call (try_catch m h))
          by (unfold not_found; emits_tac; exact I);
        destruct (Hq L) as (suf & -> & F)
    end.
    rewrite model_inputs_app, (model_inputs_quiet suf F). reflexivity.
Qed.

(** C2. When the first response of the model carries no tool calls (the
    only response a model with no declared tools can give), a run of the
    loop followed for any positive number of node executions has called the
    Model Invoker exactly once, on the initial transcript, has reached
    [Done], and has extended the transcript by exactly that one assistant
    message.  And the direct chat of the server, which declares no tools at
    all, calls the model exactly once on the converted messages (the
    messages of the request being objects, so that they convert). *)
Theorem no_tool_calls_one_model_call
  (model : nat -> list Message -> Workflow.ModelOutcome)
  (invokeTool : ToolCall -> Workflow.ToolOutcome)
  (init : list Message) (content : string) (fuel : nat)
  (w : World) (req : Request) :
  (model 0 (Workflow.llm_input init) = Workflow.ModelOk content [] ->
   Workflow.invoke model invokeTool (S fuel) init
   = Workflow.mkState Workflow.Done (init ++ [AIMessage content []])
       [Workflow.ModelInvoked (Workflow.llm_input init)] /\
   Workflow.model_calls
     (Workflow.trace (Workflow.invoke model invokeTool (S fuel) init)) = 1) /\
  (forall msgs,
      no_messages (body_messages req) = false ->
      new_model w = None ->
      items_of (body_messages req) = map Some msgs ->
      model_inputs (fst (handle (performModelChat w req)))
      = [map toLangchain msgs]).
Proof.
  split.
  - apply WorkflowFacts.first_response_without_tool_calls.
  - intros msgs. apply direct_chat_one_model_call.
Qed.

(** ** Scenarios *)

Example scenario_C :
  handle (performModelChat calm hi_request)
  = ([NewModel; SetHeader "Content-Type" "text/plain; charset=utf-8";
      ChatStream [HumanMessage "hi"]; Write "He"; Write "llo"; End_],
     Resolved) /\
  for_await (R := unit) text_concat
            (fun chunk => res_write (chunk_content chunk))
            [mkChunk "He" []; mkChunk "llo" []] None []
  = ([Write "He"; Write "llo"], Normal (Some (mkChunk "Hello" []))).
Proof. split; reflexivity. Qed.

Example system_and_tool_roles :
  map toLangchain
      [mkChatMessage (JsString "system") "be brief";
       mkChatMessage (JsString "user") "hi";
       mkChatMessage (JsString "tool") "a.txt";
       mkChatMessage JsUndefined "?"]
  = [AIMessage "be brief" []; HumanMessage "hi"; AIMessage "a.txt" [];
     AIMessage "?" []].
Proof. reflexivity. Qed.

Lemma stream_text_is_merged_and_forwarded_once_witness :
  (exists finalResult,
     for_await (R := unit) (concat calm)
               (fun chunk => res_write (chunk_content chunk))
               [mkChunk "He" []; mkChunk "llo" []] None []
     = ([] ++ writes [mkChunk "He" []; mkChunk "llo" []], Normal finalResult) /\
     match finalResult with
     | Some m =>
         chunk_content m
         = join (map chunk_content [mkChunk "He" []; mkChunk "llo" []])
     | None => [mkChunk "He" []; mkChunk "llo" []] = []
     end) /\
  handle (performModelChat calm hi_request)
  = ([NewModel; SetHeader "Content-Type" "text/plain; charset=utf-8";
      ChatStream [HumanMessage "hi"]]
       ++ writes [mkChunk "He" []; mkChunk "llo" []] ++ [End_],
     Resolved).
Proof.
  destruct (stream_text_is_merged_and_forwarded_once
              calm [mkChunk "He" []; mkChunk "llo" []] []
              (fun x y => eq_refl)) as [H1 H2].
  split; [exact H1|].
  exact (H2 hi_request [mkChatMessage (JsString "user") "hi"]
            eq_refl eq_refl eq_refl eq_refl eq_refl).
Defined.

Example sessions_close_once :
  closes (fst (handle (performMCPModelChat calm hi_request))) = 1 /\
  closes (fst (handle (performMCPModelChat model_missing hi_request))) = 1 /\
  closes (fst (handle (performMCPModelChat
                         (with_close (Some close_failed) calm) hi_request))) = 1.
Proof. repeat split. Qed.

Lemma close_skipped_when_conversion_throws_witness :
  closes (fst (handle (performMCPModelChat calm hi_request))) = 1 /\
  handle (performMCPModelChat calm null_request)
  = ([NewMCPClient; NewModel; GetTools; CreateReactAgent],
     Rejected (null_property "role")) /\
  closes (fst (handle (performMCPModelChat calm null_request))) = 0.
Proof.
  split.
  - exact (proj1 (close_skipped_when_conversion_throws calm hi_request
                    eq_refl eq_refl)
                 [mkChatMessage (JsString "user") "hi"] eq_refl).
  - exact (proj2 (close_skipped_when_conversion_throws calm null_request
                    eq_refl eq_refl)
                 (or_introl eq_refl)).
Defined.

Lemma no_tool_calls_one_model_call_witness :
  (Workflow.invoke Workflow.greeter Workflow.pool 3 [HumanMessage "hi"]
   = Workflow.mkState Workflow.Done
       [HumanMessage "hi"; AIMessage "hello" []]
       [Workflow.ModelInvoked (Workflow.llm_input [HumanMessage "hi"])] /\
   Workflow.model_calls
     (Workflow.trace
        (Workflow.invoke Workflow.greeter Workflow.pool 3 [HumanMessage "hi"]))
   = 1) /\
  model_inputs (fst (handle (performModelChat calm hi_request)))
  = [[HumanMessage "hi"]].
Proof.
  destruct (no_tool_calls_one_model_call
              Workflow.greeter Workflow.pool [HumanMessage "hi"] "hello" 2
              calm hi_request) as [H1 H2].
  split; [exact (H1 eq_refl)|].
  exact (H2 [mkChatMessage (JsString "user") "hi"] eq_refl eq_refl eq_refl).
Defined.

Lemma request_without_messages_rejected_witness :
  handle (performModelChat calm empty_request)
    = ([Status 400; Json (ErrorBody "No messages provided")], Resolved) /\
  handle (performMCPModelChat calm empty_request)
    = ([Status 400; Json (ErrorBody "No messages provided")], Resolved).
Proof.
  exact (request_without_messages_rejected calm empty_request
                                           (or_intror eq_refl)).
Defined.

Lemma roles_other_than_user_become_assistant_witness :
  toLangchain (mkChatMessage (JsString "system") "be brief")
  = AIMessage "be brief" [].
Proof.
  refine (proj1 (roles_other_than_user_become_assistant
                   calm hi_request
                   (mkChatMessage (JsString "system") "be brief")) _).
  discriminate.
Defined.

(** C8, against the claim. With a [close] that throws: after a stream that
    went through, the handler, which resolves when [close] succeeds,
    rejects with the error of [close]; and after a 404 of the agent, for
    which the [catch] block had returned the 404 response, the handler
    rejects with the error of [close] as well. *)
Lemma close_failure_counterexample :
  snd (handle (performMCPModelChat calm hi_request)) = Resolved /\
  snd (handle (performMCPModelChat (with_close (Some close_failed) calm)
                                   hi_request))
  = Rejected close_failed /\
  snd (handle (performMCPModelChat model_missing hi_request)) = Resolved /\
  snd (handle (performMCPModelChat
                 (with_close (Some close_failed) model_missing) hi_request))
  = Rejected close_failed.
Proof. repeat split. Qed.

Lemma close_failure_rejects_handler_witness :
  snd (handle (performMCPModelChat (with_close (Some close_failed) calm)
                                   hi_request))
  = Rejected close_failed /\
  fst (handle (performMCPModelChat (with_close (Some close_failed) calm)
                                   hi_request))
  = fst (handle (performMCPModelChat
                   (with_close None (with_close (Some close_failed) calm))
                   hi_request)) /\
  exists l,
    fst (handle (performMCPModelChat (with_close (Some close_failed) calm)
                                     hi_request))
    = l ++ [Logged "Closing MCP client connection"; Close].
Proof.
  exact (close_failure_rejects_handler (with_close (Some close_failed) calm)
           hi_request [mkChatMessage (JsString "user") "hi"] close_failed
           eq_refl eq_refl eq_refl eq_refl).
Defined.

Example tools_unavailable_run :
  handle (performMCPModelChat tools_unavailable hi_request)
  = ([NewMCPClient; NewModel; GetTools;
      Logged "Failed to load Model with MCP File:";
      Logged "Starting MCP client prompt: No content"],
     Rejected (null_property "client")).
Proof. reflexivity. Qed.

Lemma acquisition_failure_breaks_handler_witness :
  model_inputs (fst (handle (performMCPModelChat tools_unavailable hi_request)))
  = [] /\
  closes (fst (handle (performMCPModelChat tools_unavailable hi_request))) = 0 /\
  snd (handle (performMCPModelChat tools_unavailable hi_request))
  = Rejected (null_property "client") /\
  response (fst (handle (performMCPModelChat tools_unavailable hi_request)))
  = [].
Proof.
  destruct (acquisition_failure_breaks_handler tools_unavailable hi_request
              eq_refl eq_refl) as (H1 & H2 & H3 & _).
  split; [exact H1|]. split; [exact H2|].
  exact (H3 [mkChatMessage (JsString "user") "hi"] eq_refl).
Defined.

End ServerFacts.

(** * Facts about the endpoints *)

Module EndpointFacts.
Import Server ServerFacts Endpoints.

Lemma handle_snd (h : Eff unit unit) : snd (handle h) = settle (snd (h [])).
Proof. reflexivity. Qed.

Lemma performModelChat_direct_only (w : World) (req : Request) :
  emits direct_only (performModelChat w req).
Proof.
  unfold performModelChat, direct_chat, not_found. emits_tac; exact I.
Qed.

(** X1. Unless [USEMCP] is exactly the string [TRUE], a chat request never
    creates an MCP client, loads tools, builds or calls an agent, or closes
    a client, whatever the request and whatever the model does. *)
Theorem chat_without_USEMCP_stays_direct
  (USEMCP : option string) (w : World) (req : Request) :
  USEMCP <> Some "TRUE" ->
  Forall direct_only (fst (handle (api_chat USEMCP w req))).
Proof.
  intros H. unfold api_chat.
  assert (E : USEMCP_is_TRUE USEMCP = false).
  { destruct USEMCP as [v|]; [|reflexivity]. simpl.
    apply String.eqb_neq. intros ->. now apply H. }
  rewrite E, handle_fst.
  destruct (performModelChat_direct_only w req []) as (suf & -> & F).
  exact F.
Qed.

Lemma chat_without_USEMCP_stays_direct_witness :
  Forall direct_only (fst (handle (api_chat (Some "true") calm hi_request))).
Proof.
  apply (chat_without_USEMCP_stays_direct (Some "true") calm hi_request).
  discriminate.
Defined.

(** X2. A chat request to the direct model that is not streamed and whose
    messages are all objects is answered with exactly one JSON body, and the
    handler resolves: the reply when the model returned non-empty content,
    status 500 when it returned nothing or empty content, status 404 when it
    threw an error whose [status_code] is 404, status 500 for any other
    error.  When the array holds a [null], the model is built, the
    conversion of the messages throws outside both [try] blocks, nothing is
    sent, and the handler rejects with the TypeError. *)
Theorem direct_chat_answers_once_unless_null (w : World) (req : Request) :
  no_messages (body_messages req) = false ->
  new_model w = None ->
  stream w = false ->
  (forall msgs,
      items_of (body_messages req) = map Some msgs ->
      snd (handle (performModelChat w req)) = Resolved /\
      response (fst (handle (performModelChat w req)))
      = match chat_invoke w (map toLangchain msgs) with
        | inl (Some (String a r)) => [Json (ReplyBody (String a r))]
        | inl _ => [Status 500; Json (ErrorBody "No content in OpenAI response")]
        | inr e =>
            if is_404 e then
              [Status 404;
               Json (ErrorBody (or_default (error e)
                                  (ModelProvider w ++ " resource not found")%string))]
            else
              [Status 500;
               Json (ErrorBody (or_default (Some (message e))
                                  (ModelProvider w ++ " error")%string))]
        end) /\
  (In None (items_of (body_messages req)) ->
   handle (performModelChat w req)
   = ([NewModel], Rejected (null_property "role"))).
Proof.
  intros Hn Hmod Hs. split.
  - intros msgs Hi. rewrite handle_snd, handle_fst.
    rewrite (performModelChat_converted w req msgs Hn Hmod Hi).
    unfold direct_chat. rewrite Hs.
    unfold bind, try_catch, emit, throw, not_found,
      res_status, res_json, return_, console.
    destruct (chat_invoke w _) as [[[|a r]|]|e]; try (split; reflexivity).
    simpl. destruct (is_404 e); split; reflexivity.
  - intros Hnull. unfold handle.
    now rewrite (performModelChat_null w req Hn Hmod Hnull).
Qed.

Lemma direct_chat_answers_once_unless_null_witness :
  (snd (handle (performModelChat model_missing hi_request)) = Resolved /\
   response (fst (handle (performModelChat model_missing hi_request)))
   = [Status 404; Json (ErrorBody "model not found")]) /\
  handle (performModelChat model_missing null_request)
  = ([NewModel], Rejected (null_property "role")).
Proof.
  split.
  - exact (proj1 (direct_chat_answers_once_unless_null model_missing hi_request
                    eq_refl eq_refl eq_refl)
                 [mkChatMessage (JsString "user") "hi"] eq_refl).
  - exact (proj2 (direct_chat_answers_once_unless_null model_missing null_request
                    eq_refl eq_refl eq_refl)
                 (or_introl eq_refl)).
Defined.

(** X3. In a streamed chat with the direct model, the text of every chunk
    that arrived is written to the response, in order, right after the
    stream is opened, whether the stream then ends or breaks with an error;
    whatever follows writes no more text (nothing is written twice, and the
    error handling adds no text of its own). *)
Theorem streamed_text_is_kept
  (w : World) (req : Request) (msgs : list ChatMessage)
  (chunks : list Chunk) (err : option JSError) :
  no_messages (body_messages req) = false ->
  items_of (body_messages req) = map Some msgs ->
  new_model w = None ->
  stream w = true ->
  chat_stream w (map toLangchain msgs) = (chunks, err) ->
  exists suf,
    fst (handle (performModelChat w req))
    = [NewModel; SetHeader "Content-Type" "text/plain; charset=utf-8";
       ChatStream (map toLangchain msgs)]
        ++ writes chunks ++ suf /\
    Forall not_a_write suf /\
    (err = None -> suf = [End_]).
Proof.
  intros Hn Hi Hmod Hs Hstream. rewrite handle_fst.
  rewrite (performModelChat_converted w req msgs Hn Hmod Hi).
  unfold direct_chat. rewrite Hs.
  rewrite (bind_normal _ _ [NewModel]
             [NewModel; SetHeader "Content-Type" "text/plain; charset=utf-8"] tt)
    by reflexivity.
  rewrite fst_then_return, try_catch_after_emit.
  unfold try_catch, consume. rewrite Hstream. unfold bind at 1 2.
  simpl fst. simpl snd. rewrite for_await_writes.
  destruct err as [e|].
  - unfold throw.
    match goal with
    | |- context [?h ?L] =>
        match L with
        | (_ ++ writes chunks) =>
            assert (Hq : emits not_a_write h)
              by (unfold not_found; emits_tac; exact I);
            destruct (Hq L) as (suf & -> & F)
        end
    end.
    exists suf. split; [reflexivity|]. split; [exact F | discriminate].
  - unfold ret, res_end, emit. exists [End_].
    split; [reflexivity|]. split; [repeat constructor | reflexivity].
Qed.

Lemma streamed_text_is_kept_witness :
  exists suf,
    fst (handle (performModelChat calm hi_request))
    = [NewModel; SetHeader "Content-Type" "text/plain; charset=utf-8";
       ChatStream [HumanMessage "hi"]]
        ++ writes [mkChunk "He" []; mkChunk "llo" []] ++ suf /\
    Forall not_a_write suf /\
    (@None JSError = None -> suf = [End_]).
Proof.
  exact (streamed_text_is_kept calm hi_request
           [mkChatMessage (JsString "user") "hi"]
           [mkChunk "He" []; mkChunk "llo" []] None
           eq_refl eq_refl eq_refl eq_refl eq_refl).
Defined.

(** ** The MCP handler on its regular paths *)

Lemma write_agent_chunk_log (chunk : AgentChunk) (log : list Event) :
  write_agent_chunk (R := unit) chunk log = (log ++ chunk_writes chunk, Normal tt).
Proof.
  unfold write_agent_chunk, chunk_writes, bind, res_write, emit, ret.
  destruct (agent_messages chunk), (tools_messages chunk); simpl;
    rewrite <- ?app_assoc, ?app_nil_r; reflexivity.
Qed.

Lemma for_await_agent (concat : AgentChunk -> AgentChunk -> AgentChunk)
  (chunks : list AgentChunk) (acc : option AgentChunk) (log : list Event) :
  exists final,
    for_await (R := unit) concat write_agent_chunk chunks acc log
    = (log ++ flat_map chunk_writes chunks, Normal final).
Proof.
  revert acc log. induction chunks as [|c chunks IH]; intros acc log; simpl.
  - exists acc. unfold ret. now rewrite app_nil_r.
  - unfold bind. rewrite write_agent_chunk_log.
    destruct (IH (Some match acc with Some a => concat a c | None => c end)
                 (log ++ chunk_writes c)) as [final E].
    exists final. rewrite E, <- app_assoc. reflexivity.
Qed.

(** The [try]/[catch] of the streaming branch, for a Session. *)
Lemma stream_try_run (w : World) (lc : list Message)
  (chunks : list AgentChunk) (err : option JSError) (log : list Event) :
  agent_stream w lc = (chunks, err) ->
  match err with Some e => is_404 e = false | None => True end ->
  stream_try w the_chat lc log
  = (log ++ [AgentStream lc] ++ flat_map chunk_writes chunks
         ++ match err with
            | Some e => [Logged "Error during streaming:";
                         Write ("Error: " ++ message e)%string; End_]
            | None => [End_]
            end,
     Normal tt).
Proof.
  intros Hs He. unfold stream_try, try_catch, consume, agent_of, the_chat.
  rewrite Hs. cbv beta iota zeta delta [fst snd bind ret emit].
  destruct (for_await_agent (concat_agent w) chunks None (log ++ [AgentStream lc]))
    as [final ->].
  destruct err as [e|]; cbv beta iota zeta delta [throw].
  - rewrite He.
    cbv beta iota zeta delta [bind console res_write res_end emit].
    rewrite <- !app_assoc. reflexivity.
  - cbv beta iota zeta delta [res_end emit].
    rewrite <- !app_assoc. reflexivity.
Qed.

Lemma session_streamed (w : World) (req : Request) (msgs : list ChatMessage)
  (chunks : list AgentChunk) (err : option JSError) :
  no_messages (body_messages req) = false ->
  items_of (body_messages req) = map Some msgs ->
  acquired w = true ->
  stream w = true ->
  agent_stream w (map toLangchain msgs) = (chunks, err) ->
  match err with Some e => is_404 e = false | None => True end ->
  handle (performMCPModelChat w req)
  = (session_start
       ++ [SetHeader "Content-Type" "text/plain; charset=utf-8";
           AgentStream (map toLangchain msgs)]
       ++ flat_map chunk_writes chunks
       ++ match err with
          | Some e => [Logged "Error during streaming:";
                       Write ("Error: " ++ message e)%string; End_]
          | None => [End_]
          end
       ++ session_end,
     match close w with
     | Some e => Rejected e
     | None => Resolved
     end).
Proof.
  intros Hn Hi Hacq Hs Hstream He. unfold handle.
  rewrite (performMCPModelChat_acquired w req msgs Hn Hacq Hi), Hs.
  unfold bind. rewrite try_finally_close.
  rewrite (stream_try_run w _ chunks err _ Hstream He). simpl fst. simpl snd.
  unfold session_start, session_end.
  destruct (close w); simpl; rewrite <- !app_assoc; reflexivity.
Qed.

(** X4. A streamed MCP chat whose agent stream ends without error sends,
    for each chunk in order, the joined contents of the agent messages and
    then the tool messages (each as wrench sign, tool name, colon, content),
    ends the response, and only then closes the MCP client; the handler
    resolves unless [close] throws. *)
Theorem streamed_session_ends_then_closes
  (w : World) (req : Request) (msgs : list ChatMessage)
  (chunks : list AgentChunk) :
  no_messages (body_messages req) = false ->
  items_of (body_messages req) = map Some msgs ->
  acquired w = true ->
  stream w = true ->
  agent_stream w (map toLangchain msgs) = (chunks, None) ->
  handle (performMCPModelChat w req)
  = (session_start
       ++ [SetHeader "Content-Type" "text/plain; charset=utf-8";
           AgentStream (map toLangchain msgs)]
       ++ flat_map chunk_writes chunks ++ [End_] ++ session_end,
     match close w with
     | Some e => Rejected e
     | None => Resolved
     end).
Proof.
  intros Hn Hi Hacq Hs Hstream.
  exact (session_streamed w req msgs chunks None Hn Hi Hacq Hs Hstream I).
Qed.

Lemma streamed_session_ends_then_closes_witness :
  handle (performMCPModelChat calm hi_request)
  = (session_start
       ++ [SetHeader "Content-Type" "text/plain; charset=utf-8";
           AgentStream [HumanMessage "hi"]]
       ++ [Write "Hello"] ++ [End_] ++ session_end,
     Resolved).
Proof.
  exact (streamed_session_ends_then_closes calm hi_request
           [mkChatMessage (JsString "user") "hi"]
           [mkAgentChunk (Some ["Hello"]) None]
           eq_refl eq_refl eq_refl eq_refl eq_refl).
Defined.

(** X5. When the agent stream of a streamed MCP chat breaks with an error
    that is not a 404, after any number of chunks, the failure is reported
    in the stream itself: the chunks that arrived stay written, the text
    [Error: ] followed by the message of the error is written after them,
    the response is ended, the client is closed, and the handler resolves
    unless [close] throws. *)
Theorem stream_failure_is_reported_in_band
  (w : World) (req : Request) (msgs : list ChatMessage)
  (chunks : list AgentChunk) (e : JSError) :
  no_messages (body_messages req) = false ->
  items_of (body_messages req) = map Some msgs ->
  acquired w = true ->
  stream w = true ->
  agent_stream w (map toLangchain msgs) = (chunks, Some e) ->
  is_404 e = false ->
  handle (performMCPModelChat w req)
  = (session_start
       ++ [SetHeader "Content-Type" "text/plain; charset=utf-8";
           AgentStream (map toLangchain msgs)]
       ++ flat_map chunk_writes chunks
       ++ [Logged "Error during streaming:";
           Write ("Error: " ++ message e)%string; End_]
       ++ session_end,
     match close w with
     | Some e' => Rejected e'
     | None => Resolved
     end).
Proof.
  intros Hn Hi Hacq Hs Hstream He.
  exact (session_streamed w req msgs chunks (Some e) Hn Hi Hacq Hs Hstream He).
Qed.

Lemma stream_failure_is_reported_in_band_witness :
  handle (performMCPModelChat stream_breaks hi_request)
  = (session_start
       ++ [SetHeader "Content-Type" "text/plain; charset=utf-8";
           AgentStream [HumanMessage "hi"]]
       ++ [Write "He"]
       ++ [Logged "Error during streaming:"; Write "Error: socket hang up"; End_]
       ++ session_end,
     Resolved).
Proof.
  exact (stream_failure_is_reported_in_band stream_breaks hi_request
           [mkChatMessage (JsString "user") "hi"]
           [mkAgentChunk (Some ["He"]) None] connection_reset
           eq_refl eq_refl eq_refl eq_refl eq_refl eq_refl).
Defined.

(** X6. An MCP chat that is not streamed and whose agent returns a result
    replies with the contents of all messages of the result joined into one
    string (the empty string when the result has no [messages]), in one JSON
    body, before the MCP client is closed; a missing result is answered with
    status 500; the handler resolves unless [close] throws. *)
Theorem session_reply_joins_all_messages
  (w : World) (req : Request) (msgs : list ChatMessage)
  (result : option (option (list string))) :
  no_messages (body_messages req) = false ->
  items_of (body_messages req) = map Some msgs ->
  acquired w = true ->
  stream w = false ->
  agent_invoke w (map toLangchain msgs) = inl result ->
  handle (performMCPModelChat w req)
  = (session_start
       ++ [AgentInvoke (map toLangchain msgs)]
       ++ match result with
          | Some (Some ms) => [Json (ReplyBody (join ms))]
          | Some None => [Json (ReplyBody "")]
          | None => [Status 500; Json (ErrorBody "No content in OpenAI response")]
          end
       ++ session_end,
     match close w with
     | Some e => Rejected e
     | None => Resolved
     end).
Proof.
  intros Hn Hi Hacq Hs Hinv. unfold handle.
  rewrite (performMCPModelChat_acquired w req msgs Hn Hacq Hi), Hs.
  rewrite try_finally_close.
  unfold invoke_try, try_catch, agent_of, the_chat. rewrite Hinv.
  cbv beta iota zeta delta [fst snd bind ret emit session_start session_end app].
  destruct result as [[ms|]|];
    cbv beta iota zeta delta [bind res_status res_json emit return_ fst snd
                              headersSent existsb sends_head orb app settle];
    destruct (close w); reflexivity.
Qed.

Lemma session_reply_joins_all_messages_witness :
  handle (performMCPModelChat (with_close None tools_unavailable_fixed) hi_request)
  = (session_start ++ [AgentInvoke [HumanMessage "hi"]]
       ++ [Json (ReplyBody "hiHello")] ++ session_end,
     Resolved).
Proof.
  exact (session_reply_joins_all_messages
           (with_close None tools_unavailable_fixed) hi_request
           [mkChatMessage (JsString "user") "hi"]
           (Some (Some ["hi"; "Hello"]))
           eq_refl eq_refl eq_refl eq_refl eq_refl).
Defined.

(** ** [ModelWithMCPFile] and [CreatMCPClient] *)

Lemma acquired_steps (w : World) :
  acquired w = true <->
  new_mcp_client w = None /\ new_model w = None /\
  get_tools w = None /\ create_agent w = None.
Proof.
  destruct w as [mp st nm nc gt ca cs ci ags agi cl cc cca].
  unfold acquired, call, ModelWithMCPFile, CreatMCPClient, Model, try_catch,
    bind, external, console, emit, return_, throw. simpl.
  destruct nc, nm, gt, ca; simpl; split;
    try discriminate; try (intros (H1 & H2 & H3 & H4); discriminate);
    auto.
Qed.

(** X7. [ModelWithMCPFile] never throws: it returns the chat object, with
    its client set, exactly when the client constructor, the model
    constructor, the loading of the tools and the creation of the agent all
    succeed, and [null] in every other case; and whatever happens it calls
    and logs nothing but those four steps (it never closes the client it
    created). *)
Theorem ModelWithMCPFile_never_throws (w : World) (log : list Event) :
  exists suf chat,
    call (R' := unit) (ModelWithMCPFile w) None log = (log ++ suf, Normal chat) /\
    Forall setup_event suf /\
    (chat = the_chat \/ chat = None) /\
    (chat = the_chat <->
     new_mcp_client w = None /\ new_model w = None /\
     get_tools w = None /\ create_agent w = None).
Proof.
  destruct (ModelWithMCPFile_cases w log) as [[Hacq E] | (Hacq & suf & Hs & E)].
  - exists [NewMCPClient; NewModel; GetTools; CreateReactAgent], the_chat.
    split; [exact E|]. split; [repeat constructor|]. split; [now left|].
    split; [intros _ | reflexivity].
    now apply acquired_steps.
  - exists suf, None.
    split; [exact E|]. split; [exact Hs|]. split; [now right|].
    split; [discriminate|]. intros H. apply acquired_steps in H.
    rewrite H in Hacq. discriminate.
Qed.

(** X8. When the MCP client is constructed but [ModelWithMCPFile] still
    returns [null] (the model constructor, the tool loading or the agent
    creation failed), the chat handler never closes that client: the
    request ends with the client constructed and [close] never called. *)
Theorem failed_setup_leaves_client_open (w : World) (req : Request) :
  no_messages (body_messages req) = false ->
  new_mcp_client w = None ->
  acquired w = false ->
  In NewMCPClient (fst (handle (performMCPModelChat w req))) /\
  closes (fst (handle (performMCPModelChat w req))) = 0.
Proof.
  intros Hn Hc Hacq. rewrite handle_fst.
  unfold performMCPModelChat. rewrite Hn.
  destruct (ModelWithMCPFile_cases w []) as [[E _] | (_ & suf & Hs & E)];
    [rewrite Hacq in E; discriminate|].
  assert (Hin : In NewMCPClient suf).
  { revert E. destruct w as [mp st nm nc gt ca cs ci ags agi cl cc cca].
    simpl in Hc. subst nc.
    unfold call, ModelWithMCPFile, CreatMCPClient, Model, try_catch,
      bind, external, console, emit, return_, throw. simpl.
    destruct nm, gt, ca; simpl; intros [= <-]; simpl; auto. }
  rewrite (bind_normal _ _ _ _ _ E). simpl app.
  assert (Hq : emits not_close
                 (lcMessages <- convert (items_of (body_messages req)) ;;
                  session w None lcMessages)).
  { unfold session, close_client. emits_tac;
      try apply stream_try_quiet; try apply invoke_try_quiet; discriminate. }
  destruct (Hq suf) as (suf' & -> & Hq').
  split.
  - apply in_or_app. now left.
  - rewrite closes_app, (closes_quiet suf' Hq').
    destruct (setup_silent suf Hs) as (_ & -> & _). reflexivity.
Qed.

Lemma failed_setup_leaves_client_open_witness :
  In NewMCPClient (fst (handle (performMCPModelChat agent_unbuildable hi_request))) /\
  closes (fst (handle (performMCPModelChat agent_unbuildable hi_request))) = 0.
Proof.
  exact (failed_setup_leaves_client_open agent_unbuildable hi_request
                                         eq_refl eq_refl eq_refl).
Defined.

End EndpointFacts.

(** * Facts about [runExample] and the model factory *)

Module ExampleFacts.
Import Workflow WorkflowFacts Example.

(** X9. Whatever is set in [MODEL_PROVIDER], a model is constructed: an
    unset or empty variable gives the OpenAI model, [azureopenai] the Azure
    one, and every other non-empty value, a misspelt [openai] included,
    gives the Ollama model; the copy of this logic in [runExample] selects
    the same model as Model.js for every value. *)
Theorem every_other_provider_is_ollama (MODEL_PROVIDER : option string) :
  Model (provider_of MODEL_PROVIDER) = getModel (provider_of MODEL_PROVIDER) /\
  (Model (provider_of MODEL_PROVIDER) = ChatOpenAI <->
   MODEL_PROVIDER = None \/ MODEL_PROVIDER = Some "" \/
   MODEL_PROVIDER = Some "openai") /\
  (Model (provider_of MODEL_PROVIDER) = AzureChatOpenAI <->
   MODEL_PROVIDER = Some "azureopenai") /\
  (Model (provider_of MODEL_PROVIDER) = ChatOllama <->
   exists s, MODEL_PROVIDER = Some s /\ s <> "" /\
             s <> "openai" /\ s <> "azureopenai").
Proof.
  split; [reflexivity|].
  destruct MODEL_PROVIDER as [[|a r]|]; unfold Model, provider_of;
    [simpl | | simpl].
  2: destruct (String.eqb_spec (String a r) "openai") as [E1|E1];
       [rewrite E1; simpl
       | destruct (String.eqb_spec (String a r) "azureopenai") as [E2|E2];
         [rewrite E2 in *; simpl|]].
  all: repeat match goal with
         | |- _ /\ _ => split
         | |- _ <-> _ => split
         | |- _ -> _ => intro
         | H : _ \/ _ |- _ => destruct H
         | H : exists _, _ |- _ => destruct H
         | H : _ /\ _ |- _ => destruct H
         | H : Some _ = Some _ |- _ => injection H as H; subst
         end;
       try congruence; auto.
  exists (String a r). repeat split; congruence.
Qed.

(** ** The system message *)

Section FirstCall.

Variable model : nat -> list Message -> ModelOutcome.
Variable tool : ToolCall -> ToolOutcome.
Variable query : string.

Let first_input : list Message :=
  [SystemMessage systemMessage; HumanMessage query].

(** The invariant of a run on one prompt: nothing was called yet, or the
    first call got the system message and no later call did. *)
Definition prompt_inv (s : GraphState) : Prop :=
  (trace s = [] /\ messages s = [HumanMessage query] /\ phase s = AwaitingModel) \/
  (exists rest l,
      trace s = ModelInvoked first_input :: rest /\
      Forall (later_call query) rest /\
      messages s = HumanMessage query :: l /\
      (l <> [] \/ finished (phase s) = true)).

Lemma llm_input_longer (m : Message) (l : list Message) :
  l <> [] -> llm_input (m :: l) = m :: l.
Proof. destruct l; [contradiction | reflexivity]. Qed.

Lemma prompt_inv_step (s : GraphState) :
  prompt_inv s -> prompt_inv (Workflow.step model tool s).
Proof.
  intros [(Ht & Hm & Hp) | (rest & l & Ht & Hr & Hm & Hl)].
  - right. unfold Workflow.step, llmNode. rewrite Hp, Ht, Hm. simpl.
    match goal with
    | |- context [model ?n ?i] => destruct (model n i) as [content cs|e]
    end.
    + exists [], [AIMessage content cs]. destruct cs; simpl;
        repeat split; auto; left; discriminate.
    + exists [], []. simpl. repeat split; auto.
  - destruct (finished (phase s)) eqn:Hf.
    + right. exists rest, l.
      assert (E : Workflow.step model tool s = s)
        by (unfold Workflow.step; destruct (phase s); try discriminate; reflexivity).
      rewrite E, Hf. repeat split; auto.
    + destruct Hl as [Hl|Hl]; [|discriminate].
      right. destruct (phase s) eqn:Hp; try discriminate.
      * destruct (model (model_calls (trace s)) (llm_input (messages s)))
          as [content cs|e] eqn:Hmod.
        -- rewrite (step_llm_ok model tool s content cs Hp Hmod).
           exists (rest ++ [ModelInvoked (llm_input (messages s))]),
                  (l ++ [AIMessage content cs]).
           cbn [trace messages phase]. rewrite Ht, Hm. repeat split.
           ++ apply Forall_app. split; [exact Hr|].
              constructor; [|constructor].
              exists l. split; [exact Hl | now apply llm_input_longer].
           ++ left. now destruct l.
        -- rewrite (step_llm_error model tool s e Hp Hmod).
           exists (rest ++ [ModelInvoked (llm_input (messages s))]), l.
           cbn [trace messages phase]. rewrite Ht, Hm. repeat split; auto.
           apply Forall_app. split; [exact Hr|].
           constructor; [|constructor].
           exists l. split; [exact Hl | now apply llm_input_longer].
      * unfold Workflow.step. rewrite Hp.
        exists (rest ++ map ToolInvoked (pending_calls (messages s))),
               (l ++ toolNode tool (messages s)).
        cbn [trace messages phase]. rewrite Ht, Hm. repeat split.
        -- apply Forall_app. split; [exact Hr|].
           apply Forall_forall. intros ev Hev. apply in_map_iff in Hev.
           destruct Hev as (c & <- & _). exact I.
        -- left. now destruct l.
Qed.

Lemma prompt_inv_run (fuel : nat) (s : GraphState) :
  prompt_inv s -> prompt_inv (Workflow.run model tool fuel s).
Proof.
  revert s. induction fuel as [|fuel IH]; intros s H; simpl; [exact H|].
  destruct (finished (phase s)); [exact H | apply IH, prompt_inv_step, H].
Qed.

(** X10. In a run of the graph on one prompt, as [runExample] starts it,
    the system message is given to the model in the first call only: the
    first call gets the system message followed by the prompt, and every
    later call of the same run (after tools were used) gets the transcript
    that starts with the prompt, without the system message in front,
    whatever the model and the tools answer. *)
Theorem system_message_on_first_call_only (fuel : nat) :
  match trace (Workflow.invoke model tool fuel [HumanMessage query]) with
  | [] => True
  | first :: rest =>
      first = ModelInvoked [SystemMessage systemMessage; HumanMessage query] /\
      Forall (later_call query) rest
  end.
Proof.
  assert (H : prompt_inv (Workflow.invoke model tool fuel [HumanMessage query])).
  { apply prompt_inv_run. left. repeat split. }
  destruct H as [(-> & _) | (rest & l & -> & Hr & _)]; [exact I|].
  split; [reflexivity | exact Hr].
Qed.

End FirstCall.

Example later_calls_of_scenario_B :
  trace (Workflow.invoke lister pool 5 [HumanMessage "list files"])
  = [ModelInvoked [SystemMessage systemMessage; HumanMessage "list files"];
     ToolInvoked list_files;
     ModelInvoked [HumanMessage "list files"; AIMessage "" [list_files];
                   ToolMessage "1" "list_files" (ToolSuccess "a.txt, b.txt")]].
Proof. reflexivity. Qed.

(** ** The life of [runExample] *)

(** Either every prompt runs to [Done], or one of them does not. *)
Lemma classic_prompts (w : ExampleWorld) (rt : Runtime) (prompts : list string) :
  (forall query,
      In query prompts ->
      phase (app_invoke (model_for w query) (invokeTool w) rt [HumanMessage query])
      = Done) \/
  (exists query,
      In query prompts /\
      phase (app_invoke (model_for w query) (invokeTool w) rt [HumanMessage query])
      <> Done).
Proof.
  induction prompts as [|q rest [IH|(query & Hq & Hn)]].
  - left. intros query [].
  - destruct (phase (app_invoke (model_for w q) (invokeTool w) rt
                                [HumanMessage q])) eqn:Hp.
    1, 2, 4: right; exists q; split; [now left | rewrite Hp; discriminate].
    left. intros query [<- | Hq]; [exact Hp | now apply IH].
  - right. exists query. split; [now right | exact Hn].
Qed.

Lemma run_prompts_facts (w : ExampleWorld) (rt : Runtime) (prompts : list string) :
  filter is_closed (fst (run_prompts w rt prompts)) = [] /\
  ((forall query,
       In query prompts ->
       phase (app_invoke (model_for w query) (invokeTool w) rt [HumanMessage query])
       = Done) ->
   snd (run_prompts w rt prompts) = None /\
   prompts_run (fst (run_prompts w rt prompts)) = prompts /\
   Forall ran_to_Done (fst (run_prompts w rt prompts))) /\
  ((exists query,
       In query prompts /\
       phase (app_invoke (model_for w query) (invokeTool w) rt [HumanMessage query])
       <> Done) ->
   snd (run_prompts w rt prompts) = Some (Exited 1)).
Proof.
  induction prompts as [|q rest (IH1 & IH2 & IH3)]; simpl.
  - split; [reflexivity|]. split; [intros _; repeat split; constructor|].
    intros (query & [] & _).
  - destruct (phase (app_invoke (model_for w q) (invokeTool w) rt
                                [HumanMessage q])) eqn:Hp.
    1, 2, 4: split; [reflexivity|]; split; [|reflexivity];
      intros H; specialize (H q (or_introl eq_refl)); congruence.
    destruct (run_prompts w rt rest) as [evs e]. simpl in *.
    split; [exact IH1|]. split.
    + intros H.
      destruct (IH2 (fun query Hq => H query (or_intror Hq))) as (H1 & H2 & H3).
      split; [exact H1|]. split.
      * unfold prompts_run in *. simpl. now rewrite H2.
      * constructor; [exact Hp | exact H3].
    + intros (query & [<- | Hq] & Hn); [congruence|].
      apply IH3. now exists query.
Qed.

Lemma runExample_main_cases
  (w : ExampleWorld) (rt : Runtime) (prompts : list string) :
  (try_fails w rt prompts /\
   snd (runExample_main w rt prompts) = Exited 1 /\
   filter is_closed (fst (runExample_main w rt prompts)) = [] /\
   (get_tools w = inl [] ->
    prompts_run (fst (runExample_main w rt prompts)) = [])) \/
  (~ try_fails w rt prompts /\ went_through w rt prompts).
Proof.
  unfold went_through, runExample_main, try_fails.
  destruct (run_prompts_facts w rt prompts) as (F1 & F2 & F3).
  set (created := if client_given w then [] else [NewClient]).
  assert (Hc : filter is_closed created = [] /\ prompts_run created = [] /\
               Forall ran_to_Done created)
    by (subst created; destruct (client_given w); repeat split; repeat constructor).
  destruct Hc as (C1 & C2 & C3).
  assert (Hpre : forall tail,
             filter is_closed (created ++ tail) = filter is_closed tail)
    by (intros tail; now rewrite filter_app, C1).
  assert (Hrun : forall tail,
             prompts_run (created ++ tail) = prompts_run tail)
    by (intros tail; unfold prompts_run in *; now rewrite flat_map_app, C2).
  destruct (if client_given w then None else new_client w) as [e0|] eqn:Hnc.
  { left. cbn [fst snd].
    split; [|split; [reflexivity | split; [exact C1 | intros _; exact C2]]].
    left. destruct (client_given w); [discriminate|].
    split; [reflexivity | now exists e0]. }
  assert (N1 : ~ (client_given w = false /\ exists e, new_client w = Some e)).
  { intros [Hg [e He]]. rewrite Hg, He in Hnc. discriminate. }
  destruct (get_tools w) as [[|t ts]|e1] eqn:Ht.
  { left. cbn [fst snd]. split; [right; right; now left|].
    split; [reflexivity|]. split; [now rewrite Hpre|].
    intros _. now rewrite Hrun. }
  2: { left. cbn [fst snd]. split; [right; left; now exists e1|].
       split; [reflexivity|]. split; [now rewrite Hpre | discriminate]. }
  destruct (bind_tools w) as [e2|] eqn:Hb.
  { left. cbn [fst snd]. split; [do 3 right; left; now exists e2|].
    split; [reflexivity|]. split; [now rewrite Hpre | discriminate]. }
  destruct (classic_prompts w rt prompts) as [Hall | Hsome].
  - right. destruct (F2 Hall) as (E & P1 & P2).
    destruct (run_prompts w rt prompts) as [evs end_]. cbn [fst snd] in *.
    subst end_. split.
    + intros [H | [[e H] | [H | [[e H] | (query & Hq & Hn)]]]];
        try discriminate; [now apply N1 | now apply Hn, Hall].
    + split; [|split].
      * destruct (client_close w); cbn [fst];
          rewrite Hrun; unfold prompts_run in *; simpl;
          rewrite flat_map_app, P1; simpl; now rewrite app_nil_r.
      * destruct (client_close w); cbn [fst];
          (apply Forall_app; split; [exact C3|]);
          (constructor; [exact I|]); (constructor; [exact I|]);
          (apply Forall_app; split; [exact P2|]); repeat constructor.
      * exists (created ++ [GetTools; BindTools] ++ evs).
        split; [rewrite Hpre; simpl; exact F1|].
        destruct (client_close w); cbn [fst snd];
          (split; [now rewrite <- !app_assoc | reflexivity]).
  - left. pose proof (F3 Hsome) as E.
    destruct (run_prompts w rt prompts) as [evs end_]. cbn [fst snd] in *.
    subst end_. cbn [fst snd]. split; [do 4 right; exact Hsome|].
    split; [reflexivity|]. split; [|discriminate].
    rewrite Hpre. simpl. exact F1.
Qed.

(** X11. [runExample] closes the MCP client only when everything went
    through.  If the client cannot be created, the tools cannot be loaded,
    no tool is found, the model cannot be built, or the run of a prompt
    fails (a node throws, or the runtime is out of steps), the process
    exits with code 1 and [close] is never called.  Otherwise every prompt
    was run to [Done], in order, each on a transcript of its own, and
    [close] is called exactly once, after the last prompt; the process then
    exits with code 0, the exit being scheduled after the call of [close],
    unless [close] throws, in which case the promise rejects with its
    error.  With an empty tool list no prompt is run at all. *)
Theorem runExample_closes_only_on_success
  (w : ExampleWorld) (rt : Runtime) (prompts : list string) :
  (try_fails w rt prompts ->
   snd (runExample_main w rt prompts) = Exited 1 /\
   filter is_closed (fst (runExample_main w rt prompts)) = []) /\
  (~ try_fails w rt prompts ->
   prompts_run (fst (runExample_main w rt prompts)) = prompts /\
   Forall ran_to_Done (fst (runExample_main w rt prompts)) /\
   exists before,
     filter is_closed before = [] /\
     match client_close w with
     | None =>
         fst (runExample_main w rt prompts)
         = before ++ [ClientClosed; ExitScheduled] /\
         snd (runExample_main w rt prompts) = Exited 0
     | Some e =>
         fst (runExample_main w rt prompts) = before ++ [ClientClosed] /\
         snd (runExample_main w rt prompts) = RejectedWith e
     end) /\
  (get_tools w = inl [] ->
   prompts_run (fst (runExample_main w rt prompts)) = []).
Proof.
  destruct (runExample_main_cases w rt prompts)
    as [(Hf & H1 & H2 & H3) | (Hn & Hok)].
  - split; [intros _; now split|]. split; [intros Hno; contradiction|].
    exact H3.
  - split; [intros Hf; contradiction|]. split; [intros _; exact Hok|].
    intros Ht. exfalso. apply Hn. right. right. now left.
Qed.

Lemma runExample_closes_only_on_success_witness :
  snd (runExample_main looping (default_runtime true) ["list files"]) = Exited 1 /\
  filter is_closed
    (fst (runExample_main looping (default_runtime true) ["list files"])) = [].
Proof.
  refine (proj1 (runExample_closes_only_on_success
                   looping (default_runtime true) ["list files"]) _).
  do 4 right. exists "list files". split; [now left|].
  intros H. vm_compute in H. discriminate H.
Defined.

Example runExample_goes_through :
  runExample_main smooth (default_runtime true) ["list files"]
  = ([NewClient; GetTools; BindTools;
      PromptRun "list files"
        (Workflow.invoke lister pool 3 [HumanMessage "list files"]);
      ClientClosed; ExitScheduled],
     Exited 0).
Proof. vm_compute. reflexivity. Qed.

End ExampleFacts.

(** * Facts about the MCP tool servers *)

Module McpServerFacts.
Import McpServers.

Section Facts.

Variable mcp_message : ErrorCode -> string -> string.

(** The shared [catch] block lets no code but [InternalError] through. *)
Lemma guarded_code {A} (prefix : string) (r : Outcome A)
  (code : ErrorCode) (message : string) :
  guarded mcp_message prefix r = Throws (AnMcpError code message) ->
  code = InternalError.
Proof.
  destruct r as [a | [e | c m | v]]; simpl; intros H; try discriminate;
    now injection H as <- _.
Qed.

(** X12. The utility server answers [get_time], the one tool it lists, with
    the time text, and refuses every other name; the refusal reaches the
    client with the code [InternalError], never [MethodNotFound], because
    the handler's own [catch] block wraps the [McpError] it has just
    thrown. *)
Theorem utility_refusal_is_internal_error (now name : string) :
  (In name utility_tools ->
   utility_call mcp_message now name
   = Returns ("**Current Time in India (IST):** " ++ now ++ nl ++ nl)%string) /\
  (~ In name utility_tools ->
   utility_call mcp_message now name
   = Throws (AnMcpError InternalError
               ("Utility failed: "
                  ++ mcp_message MethodNotFound ("Unknown tool: " ++ name))%string)) /\
  (forall code message,
      utility_call mcp_message now name = Throws (AnMcpError code message) ->
      code = InternalError).
Proof.
  unfold utility_call, utility_try, utility_tools.
  split; [|split].
  - intros [<- | []]. reflexivity.
  - intros H. destruct (String.eqb_spec name "get_time") as [-> | _];
      [exfalso; apply H; now left | reflexivity].
  - intros code message. apply guarded_code.
Qed.

(** X13. The Wikipedia server asks Wikipedia nothing when the tool name is
    not [search_wikipedia], when the request has no arguments, or when the
    query is missing or empty, and reports each of these with the code
    [InternalError]; no [McpError] it throws ever carries another code.
    When the search has no result it returns the text that says so without
    fetching a page; otherwise it fetches exactly the page of the first
    result. *)
Theorem wikipedia_refusals_and_calls
  (wiki : Wikipedia) (name : string) (args : option (option string)) :
  (forall code message,
      snd (wikipedia_call mcp_message wiki name args)
      = Throws (AnMcpError code message) ->
      code = InternalError) /\
  (name <> "search_wikipedia" \/ args = None \/ args = Some None \/
   args = Some (Some "") ->
   fst (wikipedia_call mcp_message wiki name args) = [] /\
   exists message,
     snd (wikipedia_call mcp_message wiki name args)
     = Throws (AnMcpError InternalError message)) /\
  (forall query,
      name = "search_wikipedia" -> args = Some (Some query) -> query <> "" ->
      match search wiki query with
      | Returns None | Returns (Some []) =>
          wikipedia_call mcp_message wiki name args
          = ([Searched query],
             Returns ("No Wikipedia results found for "
                        ++ dq ++ query ++ dq ++ ".")%string)
      | Returns (Some (hit :: _)) =>
          fst (wikipedia_call mcp_message wiki name args)
          = [Searched query; PageFetched (first_title hit)]
      | Throws _ =>
          fst (wikipedia_call mcp_message wiki name args) = [Searched query]
      end).
Proof.
  unfold wikipedia_call. split; [|split].
  - intros code message. apply guarded_code.
  - intros H. unfold wikipedia_try.
    destruct (String.eqb_spec name "search_wikipedia") as [-> | Hn]; simpl.
    + destruct H as [H | [-> | [-> | ->]]];
        [contradiction | split; [reflexivity | eexists; reflexivity] ..].
    + split; [reflexivity | eexists; reflexivity].
  - intros query -> -> Hq. unfold wikipedia_try. simpl.
    destruct query as [|a r]; [contradiction|].
    destruct (search wiki (String a r)) as [[[|hit hits]|]|t]; simpl;
      try reflexivity.
    destruct (summary_of wiki (first_title hit)); reflexivity.
Qed.

Section JiraFacts.

Variables Issue Sprint : Type.
Variable processIssue : Issue -> bool -> JsError + string.
Variables sprint_md active_sprint_md print_id : Sprint -> string.

Local Abbreviation call :=
  (jira_call mcp_message processIssue sprint_md active_sprint_md print_id).

Lemma listed_or_not (name : string) :
  name = "jira_issue" \/ name = "jira_sprint" \/ name = "jira_active_sprint" \/
  name = "jira_sprint_issues" \/ name = "jira_active_sprint_issues" \/
  ~ In name jira_tools.
Proof.
  destruct (string_dec name "jira_issue") as [E1 | H1]; [tauto|].
  destruct (string_dec name "jira_sprint") as [E2 | H2]; [tauto|].
  destruct (string_dec name "jira_active_sprint") as [E3 | H3]; [tauto|].
  destruct (string_dec name "jira_sprint_issues") as [E4 | H4]; [tauto|].
  destruct (string_dec name "jira_active_sprint_issues") as [E5 | H5]; [tauto|].
  do 5 right. simpl. intros [E | [E | [E | [E | [E | []]]]]]; congruence.
Qed.

Lemma unlisted_try (site : JiraSite Issue Sprint) (name : string)
  (args : option JiraArgs) :
  ~ In name jira_tools ->
  jira_try processIssue sprint_md active_sprint_md print_id site name args
  = ([], unknown_tool name).
Proof.
  intros H. unfold jira_try.
  repeat match goal with
         | |- context [String.eqb name ?s] =>
             destruct (String.eqb_spec name s) as [E | _];
             [exfalso; apply H; rewrite E; simpl; tauto |]
         end.
  reflexivity.
Qed.

(** X14. The Jira server fetches nothing for a call it refuses: a tool name
    it does not list, a request without arguments (whatever the tool, also
    the two whose board has a default), and a sprint tool whose [sprintId]
    is missing, empty or 0. Each refusal reaches the client with the code
    [InternalError], as does every [McpError] the handler throws: the
    codes [MethodNotFound] and [InvalidParams] it uses inside survive only
    in the message. *)
Theorem jira_refusals_fetch_nothing
  (site : JiraSite Issue Sprint) (name : string) (args : option JiraArgs) :
  (forall code message,
      snd (call site name args) = Throws (AnMcpError code message) ->
      code = InternalError) /\
  (~ In name jira_tools ->
   call site name args
   = ([], Throws (AnMcpError InternalError
                    ("Jira search failed: "
                       ++ mcp_message MethodNotFound ("Unknown tool: " ++ name))%string))) /\
  (args = None ->
   fst (call site name args) = [] /\
   exists message,
     snd (call site name args) = Throws (AnMcpError InternalError message)) /\
  (forall a,
      name = "jira_sprint" \/ name = "jira_sprint_issues" ->
      args = Some a -> sprintId_missing (sprintId a) = true ->
      call site name args
      = ([], Throws (AnMcpError InternalError
                       ("Jira search failed: "
                          ++ mcp_message InvalidParams
                               "Missing required parameter: sprintId")%string))).
Proof.
  split; [|split; [|split]].
  - intros code message. unfold jira_call. apply guarded_code.
  - intros H. unfold jira_call. now rewrite unlisted_try.
  - intros ->.
    destruct (listed_or_not name) as [-> | [-> | [-> | [-> | [-> | H]]]]].
    1-5: split; [reflexivity | eexists; reflexivity].
    unfold jira_call. rewrite unlisted_try by exact H.
    split; [reflexivity | eexists; reflexivity].
  - intros a [-> | ->] -> Hs; unfold jira_call, jira_try; simpl;
      rewrite Hs; reflexivity.
Qed.

(** X15. A lookup tool that is given its parameter always answers with a
    text, after exactly one request to Jira: [jira_issue] with a non-empty
    [query], [jira_sprint] and [jira_sprint_issues] with a [sprintId] that
    is neither empty nor 0, and [jira_active_sprint] with any arguments
    object. A failure of the request is part of that text, never an error
    of the call: for an issue Jira answers with HTTP status [st], the text
    is the error line with that status. The URL asked for carries two
    slashes after the base. *)
Theorem jira_lookups_always_answer
  (site : JiraSite Issue Sprint) (name : string) (a : JiraArgs) :
  ((name = "jira_issue" /\ exists q, query a = Some q /\ q <> "") \/
   (name = "jira_sprint" /\ sprintId_missing (sprintId a) = false) \/
   name = "jira_active_sprint" \/
   (name = "jira_sprint_issues" /\ sprintId_missing (sprintId a) = false) ->
   exists url text, call site name (Some a) = ([url], Returns text)) /\
  (forall q st,
      name = "jira_issue" -> query a = Some q -> q <> "" ->
      issue_api site (jiraBaseUrl site ++ "//rest/api/2/issue/" ++ q)%string
      = NotOk st ->
      call site name (Some a)
      = ([(jiraBaseUrl site ++ "//rest/api/2/issue/" ++ q)%string],
         Returns ("**Error fetching Jira issue:** Error: HTTP error! Status: "
                    ++ decimal st ++ nl ++ nl)%string)).
Proof.
  split.
  - intros [[-> [q [Hq Hne]]] | [[-> Hs] | [-> | [-> Hs]]]];
      unfold jira_call, jira_try; simpl.
    + rewrite Hq. destruct q as [|c r]; [contradiction|].
      eexists; eexists; reflexivity.
    + rewrite Hs. eexists; eexists; reflexivity.
    + eexists; eexists; reflexivity.
    + rewrite Hs. eexists; eexists; reflexivity.
  - intros q st -> Hq Hne Hst. unfold jira_call, jira_try; simpl.
    rewrite Hq. destruct q as [|c r]; [contradiction|].
    unfold getIssue, api_url. simpl.
    change (String "/" (String "/" ?x)) with ("/" ++ "/" ++ x)%string.
    simpl in Hst |- *. rewrite Hst. reflexivity.
Qed.

(** X16. [jira_active_sprint_issues] does not share that robustness: its
    first request is awaited outside any [catch]. When that request fails,
    or its answer has no [values], the call is refused with
    [InternalError] after one request, where [jira_active_sprint] on the
    same board answers with a text. When the board has no active sprint,
    the handler goes on and asks Jira for the issues of the sprint named
    [undefined]. *)
Theorem active_sprint_issues_is_unguarded
  (site : JiraSite Issue Sprint) (a : JiraArgs) :
  let first := api_url site ("/rest/agile/1.0/board/" ++ decimal (board_of a)
                               ++ "/sprint?state=active") in
  (forall e,
      fetchJiraAPI (board_api site first) = inl e ->
      call site "jira_active_sprint_issues" (Some a)
      = ([first],
         Throws (AnMcpError InternalError
                   ("Jira search failed: " ++ err_message e)%string)) /\
      call site "jira_active_sprint" (Some a)
      = ([first],
         Returns ("**Error fetching active sprint:** "
                    ++ error_to_string e ++ nl ++ nl)%string)) /\
  (board_api site first = Ok None ->
   call site "jira_active_sprint_issues" (Some a)
   = ([first],
      Throws (AnMcpError InternalError
                "Jira search failed: Cannot read properties of undefined (reading '0')")) /\
   call site "jira_active_sprint" (Some a) = ([first], Returns "No active sprints.")) /\
  (board_api site first = Ok (Some []) ->
   exists text,
     call site "jira_active_sprint_issues" (Some a)
     = ([first; api_url site "/rest/agile/1.0/sprint/undefined/issue"],
        Returns text)).
Proof.
  intros first.
  assert (E1 : call site "jira_active_sprint_issues" (Some a)
               = (fst (getActiveSprintIssues processIssue print_id site (board_of a)),
                  guarded mcp_message "Jira search failed: "
                    (snd (getActiveSprintIssues processIssue print_id site
                                                (board_of a)))))
    by reflexivity.
  assert (E2 : call site "jira_active_sprint" (Some a)
               = (fst (getActiveSprint active_sprint_md site (board_of a)),
                  Returns (snd (getActiveSprint active_sprint_md site (board_of a)))))
    by reflexivity.
  rewrite E1, E2. clear E1 E2.
  cbv beta zeta delta [getActiveSprintIssues getActiveSprint]. fold first.
  split; [|split].
  - intros e He. rewrite He. split; reflexivity.
  - intros He. rewrite He. split; reflexivity.
  - intros He. rewrite He. eexists; reflexivity.
Qed.

Lemma process_all_throws (isSub : bool) (issues : list Issue)
  (issue : Issue) (e : JsError) :
  In issue issues -> processIssue issue isSub = inl e ->
  exists e', process_all processIssue isSub issues = inl e'.
Proof.
  induction issues as [|i rest IH]; intros Hin He; [contradiction|].
  simpl. destruct (processIssue i isSub) as [e0|md] eqn:Hi; [now exists e0|].
  destruct Hin as [-> | Hin]; [congruence|].
  destruct (IH Hin He) as [e' ->]. now exists e'.
Qed.

Lemma process_all_length (isSub : bool) (issues : list Issue) (mds : list string) :
  process_all processIssue isSub issues = inr mds ->
  length mds = length issues /\
  Forall2 (fun issue md => processIssue issue isSub = inr md) issues mds.
Proof.
  revert mds. induction issues as [|i rest IH]; intros mds; simpl.
  - intros [= <-]. split; [reflexivity | constructor].
  - destruct (processIssue i isSub) as [e0|md] eqn:Hi; [discriminate|].
    destruct (process_all processIssue isSub rest) as [e1|mds'];
      [discriminate|].
    intros [= <-]. destruct (IH mds' eq_refl) as [L F].
    split; [simpl; now rewrite L | now constructor].
Qed.

(** X17. The issue list of a sprint is rendered all or nothing: when every
    issue can be rendered, the text holds one rendering per issue, in the
    order of the list; when one issue of the list cannot (it lacks
    [fields]), the renderings of all the others are dropped and the text is
    a single error line. *)
Theorem one_bad_issue_hides_the_sprint
  (site : JiraSite Issue Sprint) (id url : string) (active : bool)
  (issues : list Issue) :
  sprint_issues_api site url = Ok (Some issues) -> issues <> [] ->
  (forall issue e,
      In issue issues -> processIssue issue active = inl e ->
      exists e',
        issues_text processIssue site id active url
        = ("**Error fetching sprint issues:** " ++ error_to_string e')%string) /\
  ((forall issue, In issue issues ->
                  exists md, processIssue issue active = inr md) ->
   exists mds,
     Forall2 (fun issue md => processIssue issue active = inr md) issues mds /\
     issues_text processIssue site id active url
     = (nl ++ "# Issues for Sprint ID: " ++ id ++ nl
           ++ (if active
               then "Total Issues: " ++ decimal (length issues) ++ nl
               else "")
           ++ String.concat separator mds)%string).
Proof.
  intros Hapi Hne. unfold issues_text. rewrite Hapi. simpl.
  destruct issues as [|i rest]; [contradiction|]. split.
  - intros issue e Hin He.
    destruct (process_all_throws active (i :: rest) issue e Hin He) as [e' ->].
    now exists e'.
  - intros Hall.
    destruct (process_all processIssue active (i :: rest)) as [e|mds] eqn:Hp.
    + exfalso. clear Hapi Hne. revert e Hp.
      induction (i :: rest) as [|j l IH]; intros e; simpl; [discriminate|].
      destruct (Hall j (or_introl eq_refl)) as [md ->].
      destruct (process_all processIssue active l) as [e1|m1] eqn:Hl;
        [|discriminate].
      intros _. apply (IH (fun x Hx => Hall x (or_intror Hx)) e1 eq_refl).
    + exists mds. split; [apply (process_all_length _ _ _ Hp) | reflexivity].
Qed.

End JiraFacts.

End Facts.

Lemma utility_refusal_is_internal_error_witness :
  utility_call sdk_message "6/24/2025, 9:00:00 AM" "get_date"
  = Throws (AnMcpError InternalError
              "Utility failed: MCP error -32601: Unknown tool: get_date").
Proof.
  refine (proj1 (proj2 (utility_refusal_is_internal_error
                          sdk_message "6/24/2025, 9:00:00 AM" "get_date")) _).
  intros [H | []]. discriminate H.
Defined.

Lemma wikipedia_refusals_and_calls_witness :
  fst (wikipedia_call sdk_message one_page "search_wikipedia" (Some (Some ""))) = [] /\
  exists message,
    snd (wikipedia_call sdk_message one_page "search_wikipedia" (Some (Some "")))
    = Throws (AnMcpError InternalError message).
Proof.
  apply (proj1 (proj2 (wikipedia_refusals_and_calls
                         sdk_message one_page "search_wikipedia"
                         (Some (Some ""))))).
  right. right. right. reflexivity.
Defined.

Example wikipedia_runs :
  wikipedia_call sdk_message one_page "search_wikipedia" (Some (Some "Rocq"))
  = ([Searched "Rocq"; PageFetched (ByTitle "Rocq")],
     Returns ("A proof assistant. " ++ nl ++ nl ++ nl
                ++ "[Read more on Wikipedia](undefined)")%string) /\
  wikipedia_call sdk_message one_page "search_wikipedia" (Some (Some "Coq"))
  = ([Searched "Coq"],
     Returns ("No Wikipedia results found for " ++ dq ++ "Coq" ++ dq ++ ".")%string).
Proof. split; reflexivity. Qed.

Lemma jira_refusals_fetch_nothing_witness :
  demo_call demo_site "jira_sprint" (Some (mkJiraArgs None (SprintNumber 0) None))
  = ([], Throws (AnMcpError InternalError
                   "Jira search failed: MCP error -32602: Missing required parameter: sprintId")).
Proof.
  refine (proj2 (proj2 (proj2 (jira_refusals_fetch_nothing
            sdk_message string nat demo_processIssue demo_sprint_md
            demo_active_sprint_md decimal demo_site "jira_sprint"
            (Some (mkJiraArgs None (SprintNumber 0) None)))))
            (mkJiraArgs None (SprintNumber 0) None) _ _ _).
  - left; reflexivity.
  - reflexivity.
  - reflexivity.
Defined.

Lemma jira_lookups_always_answer_witness :
  demo_call demo_site "jira_issue" (Some (mkJiraArgs (Some "AUS-232") NoSprintId None))
  = (["https://jira.example.com//rest/api/2/issue/AUS-232"],
     Returns ("**Error fetching Jira issue:** Error: HTTP error! Status: 404"
                ++ nl ++ nl)%string).
Proof.
  refine (proj2 (jira_lookups_always_answer
            sdk_message string nat demo_processIssue demo_sprint_md
            demo_active_sprint_md decimal demo_site "jira_issue"
            (mkJiraArgs (Some "AUS-232") NoSprintId None))
            "AUS-232" 404 _ _ _ _).
  - reflexivity.
  - reflexivity.
  - discriminate.
  - reflexivity.
Defined.

Lemma active_sprint_issues_is_unguarded_witness :
  exists text,
    demo_call demo_site "jira_active_sprint_issues"
              (Some (mkJiraArgs None NoSprintId None))
    = (["https://jira.example.com//rest/agile/1.0/board/1197/sprint?state=active";
        "https://jira.example.com//rest/agile/1.0/sprint/undefined/issue"],
       Returns text).
Proof.
  refine (proj2 (proj2 (active_sprint_issues_is_unguarded
            sdk_message string nat demo_processIssue demo_sprint_md
            demo_active_sprint_md decimal demo_site
            (mkJiraArgs None NoSprintId None))) _).
  reflexivity.
Defined.

Lemma one_bad_issue_hides_the_sprint_witness :
  exists e',
    issues_text demo_processIssue demo_site "7" false
                "https://jira.example.com//rest/agile/1.0/sprint/7/issue"
    = ("**Error fetching sprint issues:** " ++ error_to_string e')%string.
Proof.
  refine (proj1 (one_bad_issue_hides_the_sprint
            string nat demo_processIssue demo_site "7"
            "https://jira.example.com//rest/agile/1.0/sprint/7/issue" false
            ["AUS-1"; ""] _ _) "" _ _ _).
  - reflexivity.
  - discriminate.
  - right; left; reflexivity.
  - reflexivity.
Defined.

End McpServerFacts.

(** * Facts about the chat frontend *)

Module FrontendFacts.
Import Server ServerFacts Endpoints Frontend.

(** ** The masked configuration *)

Section JsonInduction.

Variable P : Json -> Prop.
Hypothesis Hnull : P JNull.
Hypothesis Hbool : forall b, P (JBool b).
Hypothesis Hnum : forall n, P (JNum n).
Hypothesis Hstr : forall s, P (JStr s).
Hypothesis Harr : forall items, Forall P items -> P (JArr items).
Hypothesis Hobj :
  forall entries, Forall (fun entry => P (snd entry)) entries -> P (JObj entries).

Lemma Json_induction : forall obj, P obj.
Proof.
  fix IH 1. intros [| b | n | s | items | entries].
  - exact Hnull.
  - apply Hbool.
  - apply Hnum.
  - apply Hstr.
  - apply Harr. induction items as [|item items IHitems];
      constructor; [apply IH | exact IHitems].
  - apply Hobj. induction entries as [|[key v] entries IHentries];
      constructor; [apply IH | exact IHentries].
Qed.

End JsonInduction.

Section Masking.

Variable toLowerCase : string -> string.

Local Abbreviation mask := (maskApiKeys toLowerCase).
Local Abbreviation secret := (secrets toLowerCase).

Lemma mask_if_object (v : Json) :
  (if is_object v then mask v else v) = mask v.
Proof. destruct v; reflexivity. Qed.

Lemma mask_hides (obj : Json) : Forall (eq stars) (secret (mask obj)).
Proof.
  induction obj as [| b | n | s | items IH | entries IH] using Json_induction;
    try (simpl; constructor).
  - simpl. induction IH as [|item items Hitem _ IHitems]; simpl;
      [constructor | apply Forall_app; split; assumption].
  - simpl. induction IH as [|[key v] entries Hv _ IHentries]; simpl;
      [constructor|].
    destruct (String.eqb key "__proto__"); [exact IHentries|]. simpl.
    apply Forall_app; split; [|exact IHentries].
    destruct (is_apikey toLowerCase key).
    + repeat constructor.
    + rewrite mask_if_object. exact Hv.
Qed.

Lemma mask_drops_proto (obj : Json) : ~ In "__proto__" (keys_of (mask obj)).
Proof.
  induction obj as [| b | n | s | items IH | entries IH] using Json_induction;
    try (simpl; tauto).
  - simpl. induction IH as [|item items Hitem _ IHitems]; simpl; [tauto|].
    rewrite in_app_iff. tauto.
  - simpl. induction IH as [|[key v] entries Hv _ IHentries]; simpl; [tauto|].
    destruct (String.eqb_spec key "__proto__") as [E|E]; [exact IHentries|].
    simpl. rewrite in_app_iff. intros [H | [H | H]];
      [congruence | | contradiction].
    destruct (is_apikey toLowerCase key); [exact H|].
    rewrite mask_if_object in H. contradiction.
Qed.

Lemma mask_twice (obj : Json) : mask (mask obj) = mask obj.
Proof.
  induction obj as [| b | n | s | items IH | entries IH] using Json_induction;
    try reflexivity.
  - simpl. f_equal. induction IH as [|item items Hitem _ IHitems]; simpl;
      [reflexivity | now rewrite Hitem, IHitems].
  - simpl. f_equal. induction IH as [|[key v] entries Hv _ IHentries]; simpl;
      [reflexivity|].
    destruct (String.eqb key "__proto__") eqn:E; [exact IHentries|].
    simpl. rewrite E, IHentries. simpl. f_equal. f_equal.
    destruct (is_apikey toLowerCase key); [reflexivity|].
    rewrite !mask_if_object. exact Hv.
Qed.

Lemma mask_without_secrets (obj : Json) :
  secret obj = [] -> ~ In "__proto__" (keys_of obj) -> mask obj = obj.
Proof.
  induction obj as [| b | n | s | items IH | entries IH] using Json_induction;
    try reflexivity.
  - simpl. intros H K. f_equal.
    induction IH as [|item items Hitem _ IHitems]; simpl in *; [reflexivity|].
    apply app_eq_nil in H as [H1 H2]. rewrite in_app_iff in K.
    rewrite Hitem, IHitems; tauto.
  - simpl. intros H K. f_equal.
    induction IH as [|[key v] entries Hv _ IHentries]; simpl in *; [reflexivity|].
    apply app_eq_nil in H as [H1 H2]. rewrite in_app_iff in K.
    destruct (String.eqb_spec key "__proto__") as [E|E]; [tauto|].
    simpl. rewrite IHentries by tauto. f_equal. f_equal.
    destruct (is_apikey toLowerCase key); [discriminate H1|].
    rewrite mask_if_object. apply Hv; tauto.
Qed.

(** X18. In the configuration [maskApiKeys] returns, every value under a
    key whose lower-case form ends in [apikey] is the eight stars, at any
    depth of objects and arrays, and no object has a property named
    [__proto__]: such a property of the configuration is dropped, at any
    depth.  Masking what is masked changes nothing.  A configuration that
    has neither a key ending in [apikey] nor a key [__proto__] comes back
    as it is. *)
Theorem maskApiKeys_hides_every_key (obj : Json) :
  Forall (eq stars) (secrets toLowerCase (maskApiKeys toLowerCase obj)) /\
  ~ In "__proto__" (keys_of (maskApiKeys toLowerCase obj)) /\
  maskApiKeys toLowerCase (maskApiKeys toLowerCase obj)
  = maskApiKeys toLowerCase obj /\
  (secrets toLowerCase obj = [] -> ~ In "__proto__" (keys_of obj) ->
   maskApiKeys toLowerCase obj = obj).
Proof.
  split; [apply mask_hides|]. split; [apply mask_drops_proto|].
  split; [apply mask_twice | apply mask_without_secrets].
Qed.

End Masking.

Example sample_config_masked :
  maskApiKeys lowercase sample_config
  = JObj [("provider", JStr "openai");
          ("config", JObj [("model", JStr "gpt-4o"); ("openAIApiKey", stars);
                           ("stream", JBool true)]);
          ("fallbacks", JArr [JObj [("APIKEY", stars)]])] /\
  maskApiKeys lowercase proto_config = JObj [("model", JStr "gpt-4o")].
Proof. split; reflexivity. Qed.

(** ** The selection of MCP servers *)

Lemma includes_In (list : list string) (key : string) :
  includes list key = true <-> In key list.
Proof.
  unfold includes. rewrite existsb_exists. split.
  - intros (k & Hk & E). apply String.eqb_eq in E. now subst.
  - intros H. exists key. split; [exact H | apply String.eqb_refl].
Qed.

Lemma filter_other_In (key k : string) (prev : list string) :
  In k (filter (fun k' => negb (String.eqb k' key)) prev) <-> In k prev /\ k <> key.
Proof.
  rewrite filter_In. rewrite negb_true_iff, String.eqb_neq. reflexivity.
Qed.

Lemma filter_absent (key : string) (prev : list string) :
  ~ In key prev -> filter (fun k => negb (String.eqb k key)) prev = prev.
Proof.
  induction prev as [|k prev IH]; simpl; [reflexivity|]. intros H.
  destruct (String.eqb_spec k key) as [-> | _]; simpl.
  - exfalso. apply H. now left.
  - f_equal. apply IH. intros Hin. apply H. now right.
Qed.

(** X19. A toggle flips the membership of its key and of no other key; it
    keeps a selection free of duplicates; and toggling twice a key that
    was not selected gives the selection back. *)
Theorem toggle_flips_one_key (key : string) (prev : list string) :
  (In key (handleMcpServerToggle key prev) <-> ~ In key prev) /\
  (forall k, k <> key -> In k (handleMcpServerToggle key prev) <-> In k prev) /\
  (NoDup prev -> NoDup (handleMcpServerToggle key prev)) /\
  (~ In key prev ->
   handleMcpServerToggle key (handleMcpServerToggle key prev) = prev).
Proof.
  unfold handleMcpServerToggle at 1 2 3.
  destruct (includes prev key) eqn:Hinc.
  - apply includes_In in Hinc. split; [|split; [|split]].
    + rewrite filter_other_In. tauto.
    + intros k Hk. rewrite filter_other_In. tauto.
    + intros Hnd. now apply NoDup_filter.
    + intros H. contradiction.
  - assert (Hnot : ~ In key prev)
      by (intros H; apply includes_In in H; congruence).
    split; [|split; [|split]].
    + rewrite in_app_iff. simpl. tauto.
    + intros k Hk. rewrite in_app_iff. simpl. split; [|tauto].
      intros [H | [H | []]]; [exact H | congruence].
    + intros Hnd. apply NoDup_app; [exact Hnd | repeat constructor; intros [] |].
      intros k Hk [<- | []]. contradiction.
    + intros _. unfold handleMcpServerToggle. rewrite Hinc.
      assert (Hin : includes (prev ++ [key]) key = true)
        by (apply includes_In, in_app_iff; right; now left).
      rewrite Hin, filter_app, (filter_absent _ _ Hnot). simpl.
      rewrite String.eqb_refl. simpl. apply app_nil_r.
Qed.

Lemma filter_all (f : string -> bool) (l : list string) :
  Forall (fun k => f k = true) l -> filter f l = l.
Proof.
  induction 1 as [|k l Hk _ IH]; simpl; [reflexivity | now rewrite Hk, IH].
Qed.

Lemma filter_sound (f : string -> bool) (l : list string) :
  Forall (fun k => f k = true) (filter f l).
Proof. apply Forall_forall. intros k Hk. now apply filter_In in Hk. Qed.

(** X20. The selection the effect leaves is never empty, and running the
    effect again changes nothing. It is the selected servers that exist,
    in their order, when there is one; otherwise it is [filesystem] alone,
    whether or not a server of that name exists: when none does, the
    selection names a server that is not available. *)
Theorem selection_is_repaired (available prev : list string) :
  selection_effect available prev <> [] /\
  selection_effect available (selection_effect available prev)
  = selection_effect available prev /\
  ((exists k, In k prev /\ In k available) ->
   selection_effect available prev
   = filter (fun key => includes available key) prev /\
   Forall (fun k => In k available) (selection_effect available prev)) /\
  ((forall k, In k prev -> ~ In k available) ->
   selection_effect available prev = ["filesystem"]).
Proof.
  pose proof (filter_sound (fun key => includes available key) prev) as Hs.
  assert (Hin : forall k, In k (filter (fun key => includes available key) prev)
                          <-> In k prev /\ In k available)
    by (intros k; rewrite filter_In, includes_In; reflexivity).
  destruct (filter (fun key => includes available key) prev)
    as [|k filtered] eqn:Hf.
  - assert (E : selection_effect available prev = ["filesystem"])
      by (unfold selection_effect; now rewrite Hf).
    rewrite E. split; [discriminate|]. split; [|split].
    + unfold selection_effect. simpl.
      destruct (includes available "filesystem"); reflexivity.
    + intros (k & Hk & Ha). exfalso. exact (proj2 (Hin k) (conj Hk Ha)).
    + reflexivity.
  - assert (E : selection_effect available prev = k :: filtered)
      by (unfold selection_effect; now rewrite Hf).
    rewrite E. split; [discriminate|]. split; [|split].
    + unfold selection_effect.
      rewrite (filter_all (fun key => includes available key) _ Hs). reflexivity.
    + intros _. split; [reflexivity|].
      eapply Forall_impl; [|exact Hs]. intros a Ha. now apply includes_In.
    + intros Hnone. exfalso.
      destruct (proj1 (Hin k) (or_introl eq_refl)) as [Hp Ha].
      exact (Hnone k Hp Ha).
Qed.

(** ** The transcript and the request *)

Section Chat.

Variable trim : string -> string.
Variable McpConfig : Type.

Lemma is_system_spec (msg : ChatMessage) :
  is_system msg = true -> forall content,
  msg_content msg = content -> msg = system_message content.
Proof.
  unfold is_system. intros H content <-. apply strict_eq_string_spec in H.
  destruct msg as [role c]. simpl in *. now subst.
Qed.

Lemma in_step_base (p : Props McpConfig) (messages : list ChatMessage) :
  in_step trim (systemMessage p) messages ->
  baseMessages trim p messages = messages.
Proof.
  unfold in_step, baseMessages. intros [H _].
  destruct (has_system_message trim (systemMessage p)); [|reflexivity].
  destruct H as [rest ->]. reflexivity.
Qed.

Lemma in_step_snoc (sm : string) (msgs : list ChatMessage) (msg : ChatMessage) :
  in_step trim sm msgs -> is_system msg = false ->
  in_step trim sm (msgs ++ [msg]).
Proof.
  unfold in_step, one_system_message. intros [H T] Hm.
  destruct msgs as [|first rest]; simpl in *.
  - destruct (has_system_message trim sm).
    + destruct H as [rest' [=]].
    + split; [exact Hm | reflexivity].
  - split.
    + destruct (has_system_message trim sm); [|exact H].
      destruct H as [rest' [= -> ->]]. eexists; reflexivity.
    + rewrite forallb_app, T. simpl. now rewrite Hm.
Qed.

Lemma in_step_app (sm : string) (extra msgs : list ChatMessage) :
  Forall (fun msg => is_system msg = false) extra ->
  in_step trim sm msgs -> in_step trim sm (msgs ++ extra).
Proof.
  intros F. revert msgs. induction F as [|msg extra Hm _ IH]; intros msgs H.
  - now rewrite app_nil_r.
  - change (msg :: extra) with ([msg] ++ extra). rewrite app_assoc.
    apply IH. now apply in_step_snoc.
Qed.

Lemma set_last_snoc (content : string) (msgs : list ChatMessage)
  (msg : ChatMessage) :
  set_last content (msgs ++ [msg]) = msgs ++ [assistant_message content].
Proof.
  unfold set_last. rewrite removelast_last.
  destruct (msgs ++ [msg]) eqn:E; [|reflexivity].
  now apply app_eq_nil in E as [_ [=]].
Qed.

Lemma read_loop_snoc (chunks : list string) (fullText : string)
  (msgs : list ChatMessage) (content : string) :
  read_loop fullText chunks (msgs ++ [assistant_message content])
  = msgs ++ [assistant_message
               match chunks with
               | [] => content
               | _ => (fullText ++ String.concat "" chunks)%string
               end].
Proof.
  revert fullText content.
  induction chunks as [|chunk rest IH]; intros fullText content;
    [reflexivity|].
  cbn [read_loop]. rewrite set_last_snoc, IH.
  destruct rest as [|next rest]; [reflexivity|].
  do 3 f_equal. cbn [String.concat]. now rewrite append_assoc.
Qed.

Lemma streamed_reply_shape (msgs : list ChatMessage) (chunks : list string)
  (err : option string) :
  exists extra,
    after_stream msgs (Reads chunks err) = msgs ++ extra /\
    Forall (fun msg => is_system msg = false) extra.
Proof.
  unfold after_stream. rewrite read_loop_snoc. destruct err as [message|].
  - rewrite <- app_assoc. eexists. split; [reflexivity|].
    repeat constructor.
  - eexists. split; [reflexivity|]. repeat constructor.
Qed.

(** X21. Once the streamed answer has been read, the transcript holds one
    more message, from the assistant, whose text is the chunks in the
    order they were read, joined; it is the empty text when no chunk
    came. A failure while reading adds a second message with the error
    and keeps the text read so far. A response that is refused adds the
    error message alone. *)
Theorem streamed_reply_is_one_message
  (msgs : list ChatMessage) (chunks : list string) (message : string) :
  after_stream msgs (Reads chunks None)
  = msgs ++ [assistant_message (String.concat "" chunks)] /\
  after_stream msgs (Reads chunks (Some message))
  = msgs ++ [assistant_message (String.concat "" chunks);
             assistant_message ("Error: " ++ message)] /\
  after_stream msgs Refused
  = msgs ++ [assistant_message "Error: Server responded error"].
Proof.
  unfold after_stream. rewrite read_loop_snoc.
  assert (E : match chunks with
              | [] => ""
              | _ => ("" ++ String.concat "" chunks)%string
              end = String.concat "" chunks) by (destruct chunks; reflexivity).
  rewrite E. split; [reflexivity | split; [|reflexivity]].
  now rewrite <- app_assoc.
Qed.

(** X22. A transcript that is in step with the system message stays so:
    through the effect that follows a change of the system message,
    through a send, and through the answer that is read. For such a
    transcript the send handler never replaces the history by the system
    message: what is shown and what is sent is the whole transcript
    followed by the user's message. *)
Theorem transcript_stays_in_step
  (p : Props McpConfig) (messages : list ChatMessage) :
  in_step trim (systemMessage p) messages ->
  (forall changed,
      in_step trim changed (systemMessage_effect trim changed messages)) /\
  (forall input sent,
      handleSend trim p messages input = Some sent ->
      shown sent = messages ++ [user_message input] /\
      removelast (sent_messages (request sent)) = messages /\
      in_step trim (systemMessage p) (shown sent)) /\
  (forall answer,
      in_step trim (systemMessage p) (after_stream messages answer)).
Proof.
  intros Hstep. split; [|split].
  - intros changed. destruct Hstep as [_ T].
    unfold systemMessage_effect, in_step.
    destruct (has_system_message trim changed) eqn:Hsm.
    + destruct (negb (starts_with_system messages)
                || other_content messages (trim changed)) eqn:Hreset.
      * split; [eexists; reflexivity | reflexivity].
      * split; [|exact T].
        apply orb_false_iff in Hreset as [H1 H2].
        apply negb_false_iff in H1.
        destruct messages as [|first rest]; [discriminate|].
        simpl in H1, H2. apply negb_false_iff, String.eqb_eq in H2.
        exists rest. f_equal. now apply is_system_spec.
    + unfold one_system_message in *.
      destruct (starts_with_system messages) eqn:Hs.
      * destruct messages as [|first rest]; [discriminate|]. simpl in T |- *.
        destruct rest as [|second rest]; [split; reflexivity|].
        simpl in T |- *. apply andb_true_iff in T as [T1 T2].
        split; [now apply negb_true_iff in T1 | exact T2].
      * split; [exact Hs | exact T].
  - intros input sent. unfold handleSend.
    destruct (String.eqb (trim input) ""); [discriminate|].
    rewrite (in_step_base p messages Hstep). intros [= <-]. simpl.
    split; [reflexivity|].
    split; [|now apply in_step_snoc].
    destruct (isStreaming p); simpl; apply removelast_last.
  - intros [|chunks err].
    + now apply in_step_snoc.
    + destruct (streamed_reply_shape messages chunks err) as [extra [E F]].
      rewrite E. now apply in_step_app.
Qed.

Lemma api_chat_given (USEMCP : option string) (w : World) (req : Request)
  (msgs : list ChatMessage) :
  items_of (body_messages req) = map Some msgs ->
  emits (given (map toLangchain msgs)) (api_chat USEMCP w req).
Proof.
  intros Hi. unfold api_chat. destruct (USEMCP_is_TRUE USEMCP);
    [now apply performMCPModelChat_given | now apply performModelChat_given].
Qed.

(** X23. A request the send handler builds always carries the user's
    message, last (its messages are objects, none is [null]), so the
    server's input check never refuses it. Every
    model or agent call the server makes for it, in either handler, is
    given the transcript converted message by message, followed by the
    user's text as a human message: with the suffix [/no_think] in
    streaming mode when thinking is off and the provider is neither
    [openai] nor [azureopenai], and as typed in non-streaming mode, where
    the MCP configuration is not sent either. A system message at the head
    of the transcript reaches the model as an assistant message. *)
Theorem ui_request_reaches_the_model
  (p : Props McpConfig) (messages : list ChatMessage) (input : string)
  (sent : Sent McpConfig) (USEMCP : option string) (w : World) :
  handleSend trim p messages input = Some sent ->
  let req := mkRequest (Array (map Some (sent_messages (request sent)))) in
  let text := if isStreaming p then sendContent p input else input in
  no_messages (body_messages req) = false /\
  (isStreaming p = false -> sent_mcpConfig (request sent) = None) /\
  Forall (given (map toLangchain (baseMessages trim p messages)
                   ++ [HumanMessage text]))
         (fst (handle (api_chat USEMCP w req))) /\
  (forall content rest,
      baseMessages trim p messages = system_message content :: rest ->
      Forall (given (AIMessage content [] :: map toLangchain rest
                       ++ [HumanMessage text]))
             (fst (handle (api_chat USEMCP w req)))).
Proof.
  intros Hsent req text. unfold handleSend in Hsent.
  destruct (String.eqb (trim input) ""); [discriminate|].
  injection Hsent as <-.
  assert (E : sent_messages (request
                (mkSent (baseMessages trim p messages ++ [user_message input])
                   (if isStreaming p
                    then mkChatRequest
                           (if useMCP p then Some (mcpConfig p) else None)
                           (baseMessages trim p messages
                              ++ [user_message (sendContent p input)])
                    else mkChatRequest None
                           (baseMessages trim p messages ++ [user_message input]))))
              = baseMessages trim p messages ++ [user_message text])
    by (subst text; destruct (isStreaming p); reflexivity).
  assert (G : Forall (given (map toLangchain (baseMessages trim p messages)
                               ++ [HumanMessage text]))
                     (fst (handle (api_chat USEMCP w req)))).
  { destruct (api_chat_given USEMCP w req _ eq_refl []) as (suf & Hlog & F).
    rewrite handle_fst, Hlog. rewrite E, map_app in F. exact F. }
  split; [|split; [|split]].
  - subst req. cbn [body_messages]. rewrite E. unfold no_messages.
    cbn [isArray items_of negb orb]. rewrite length_map, length_app. simpl.
    now rewrite Nat.add_comm.
  - intros Hs. rewrite Hs. reflexivity.
  - exact G.
  - intros content rest Hb. rewrite Hb in G. exact G.
Qed.

End Chat.

Lemma transcript_stays_in_step_witness :
  in_step demo_trim "" (systemMessage_effect demo_trim "" greeted).
Proof.
  refine (proj1 (transcript_stays_in_step demo_trim unit ollama_props greeted _) "").
  split; [exists (tl greeted); reflexivity | reflexivity].
Defined.

Lemma ui_request_reaches_the_model_witness :
  Forall (given [AIMessage "Be brief." []; HumanMessage "hi";
                 AIMessage "Hello." []; HumanMessage "why? /no_think"])
         (fst (handle (api_chat None calm
                         (mkRequest
                            (Array (map Some
                                      (greeted ++ [user_message "why? /no_think"]))))))).
Proof.
  exact (proj1 (proj2 (proj2
           (ui_request_reaches_the_model demo_trim unit ollama_props greeted "why?"
              (mkSent (greeted ++ [user_message "why?"])
                      (mkChatRequest None (greeted ++ [user_message "why? /no_think"])))
              None calm eq_refl)))).
Defined.

End FrontendFacts.
